(** * DSGS: protocol dispatch and constraint generation

    A shallow embedding of the TypeScript sources

    - [core/types/TCC.ts]                    (module [TCC])
    - [core/specification/TccGenerator.ts]   (module [TccGenerator])
    - [core/constraint/ConstraintGenerator.ts] (module [ConstraintGenerator])
    - [integration/mcp/McpAdapter.ts]        (module [McpAdapter])
    - [integration/mcp/McpStdioServer.ts]    (module [McpStdioServer])

    followed by the properties of the specification that concern them.

    Conventions.  A JavaScript string is represented by the bytes of its
    UTF-8 encoding (a Rocq [string]); this covers every string without
    unpaired surrogates, and makes [new Blob([s]).size] the plain length
    of the string.  JavaScript numbers are restricted to the integers
    that print in plain decimal notation ([Z]; the sizes, codes and
    percentages of the program are such numbers).  An operation that can
    throw, and the outcome of awaiting a promise, are both values of
    [Settled].  What the program reads from its environment -- the clock,
    the specification service, the template directories -- is an explicit
    argument. *)

From Stdlib Require Import String Ascii List ZArith Lia Bool.
From Stdlib Require Import DecimalString DecimalPos.
Import ListNotations.
Local Open Scope string_scope.
Local Open Scope Z_scope.

#[local] Set Warnings "-register-all".

(* ===================================================================== *)
(** ** Thrown values, settled computations *)
(* ===================================================================== *)

(** What a [catch (error)] clause can receive.  The handlers only ever ask
    [error instanceof Error] and, if so, read [error.message]. *)
Inductive Thrown : Type :=
| ErrorObject (message : string)
| NonError.

(** Result of a computation that may throw, or of awaiting a promise. *)
Inductive Settled (A : Type) : Type :=
| Fulfilled (a : A)
| Rejected (e : Thrown).

Arguments Fulfilled {A} a.
Arguments Rejected {A} e.

Definition bind {A B} (m : Settled A) (k : A -> Settled B) : Settled B :=
  match m with
  | Fulfilled a => k a
  | Rejected e => Rejected e
  end.

(** [try { body } catch (error) { handler }] *)
Definition try_catch {A} (body : Settled A) (handler : Thrown -> Settled A)
  : Settled A :=
  match body with
  | Fulfilled a => Fulfilled a
  | Rejected e => handler e
  end.

Declare Scope js_scope.
Delimit Scope js_scope with js.
Notation "x <- m ;; k" := (bind m (fun x => k))
  (at level 61, m at next level, right associativity) : js_scope.

(** [error instanceof Error ? error.message : fallback] *)
Definition message_or (e : Thrown) (fallback : string) : string :=
  match e with
  | ErrorObject m => m
  | NonError => fallback
  end.

(* ===================================================================== *)
(** ** JavaScript values *)
(* ===================================================================== *)

Inductive JsValue : Type :=
| VUndefined
| VNull
| VBool (b : bool)
| VNumber (n : Z)
| VString (s : string)
| VArray (items : list JsValue)
| VObject (props : list (string * JsValue))
| VPromise (state : Settled JsValue).

(** [!v] is [negb (truthy v)]. *)
Definition truthy (v : JsValue) : bool :=
  match v with
  | VUndefined | VNull => false
  | VBool b => b
  | VNumber n => negb (n =? 0)
  | VString s => negb (s =? "")%string
  | VArray _ | VObject _ | VPromise _ => true
  end.

(** The own properties of an object, in insertion order.  The keys of an
    object are distinct; [lookup] reads the first binding of a key. *)
Fixpoint lookup (key : string) (props : list (string * JsValue))
  : option JsValue :=
  match props with
  | [] => None
  | (k, v) :: rest => if (k =? key)%string then Some v else lookup key rest
  end.

(** Own property read [v.key] on a value that is neither [undefined] nor
    [null].  The keys read by the modelled code ([tccPath], [specPath],
    [taskType], [context], [relevantConstraints], [metadata],
    [taskConstraints], [applicableTasks], [method], [params], [id]) are
    not properties of any built-in prototype, so reading them from a
    primitive, an array or a promise gives [undefined]. *)
Definition own_property (v : JsValue) (key : string) : JsValue :=
  match v with
  | VObject props =>
      match lookup key props with Some x => x | None => VUndefined end
  | _ => VUndefined
  end.

Definition nullish (v : JsValue) : bool :=
  match v with
  | VUndefined | VNull => true
  | _ => false
  end.

Definition describe_nullish (v : JsValue) : string :=
  match v with VNull => "null" | _ => "undefined" end.

(** [v.key]: a [TypeError] when [v] is [undefined] or [null]. *)
Definition get_member (v : JsValue) (key : string) : Settled JsValue :=
  if nullish v
  then Rejected (ErrorObject ("Cannot read properties of " ++ describe_nullish v
                              ++ " (reading '" ++ key ++ "')"))
  else Fulfilled (own_property v key).

(* ===================================================================== *)
(** ** Strings: numbers, joins, JSON quoting *)
(* ===================================================================== *)

(** Decimal text of an integer number, as [String(n)] prints it. *)
Definition number_to_string (n : Z) : string :=
  NilZero.string_of_int (Z.to_int n).

Fixpoint join (sep : string) (parts : list string) : string :=
  match parts with
  | [] => ""
  | [p] => p
  | p :: rest => p ++ sep ++ join sep rest
  end.

Definition hex_digit (n : N) : ascii :=
  if (n <? 10)%N then ascii_of_N (48 + n) else ascii_of_N (87 + n).

(** [\u00XX] for a control character. *)
Definition unicode_escape (c : ascii) : string :=
  let n := N_of_ascii c in
  "\u00" ++ String (hex_digit (n / 16)) (String (hex_digit (n mod 16)) "").

(** JSON.stringify's QuoteJSONString, character by character.  Bytes from
    0x80 up belong to multi-byte UTF-8 sequences and are kept. *)
Definition quote_char (c : ascii) : string :=
  let n := N_of_ascii c in
  if (n =? 34)%N then "\" ++ String c ""
  else if (n =? 92)%N then "\\"
  else if (n =? 8)%N then "\b"
  else if (n =? 9)%N then "\t"
  else if (n =? 10)%N then "\n"
  else if (n =? 12)%N then "\f"
  else if (n =? 13)%N then "\r"
  else if (n <? 32)%N then unicode_escape c
  else String c "".

Fixpoint quote_body (s : string) : string :=
  match s with
  | EmptyString => ""
  | String c rest => quote_char c ++ quote_body rest
  end.

Definition dquote : string := String (ascii_of_N 34) "".

Definition quote (s : string) : string := dquote ++ quote_body s ++ dquote.

(** [JSON.stringify(v)]; [None] stands for the result [undefined].  A
    promise has no own enumerable property and serialises as an empty
    object. *)
Fixpoint JSON_stringify (v : JsValue) : option string :=
  match v with
  | VUndefined => None
  | VNull => Some "null"
  | VBool b => Some (if b then "true" else "false")
  | VNumber n => Some (number_to_string n)
  | VString s => Some (quote s)
  | VArray items =>
      Some ("[" ++ join ","
                  (map (fun x => match JSON_stringify x with
                                 | Some t => t
                                 | None => "null"
                                 end) items)
                ++ "]")
  | VObject props =>
      Some ("{" ++ join ","
                  (flat_map (fun kx => match JSON_stringify (snd kx) with
                                       | Some t => [quote (fst kx) ++ ":" ++ t]
                                       | None => []
                                       end) props)
                ++ "}")
  | VPromise _ => Some "{}"
  end.

(** Text written for an object: [JSON.stringify(obj)] where the result is
    known to be a string. *)
Definition stringify (v : JsValue) : string :=
  match JSON_stringify v with Some t => t | None => "undefined" end.

(** [new Blob([s]).size]: the number of bytes of the UTF-8 encoding. *)
Definition byte_size (s : string) : Z := Z.of_nat (String.length s).


(* ===================================================================== *)
(** ** core/types/TCC.ts *)
(* ===================================================================== *)

Module TCC.

Inductive LoadLevel : Type := LOW | MED | HIGH.
Inductive Environment : Type := DEVELOPMENT | STAGING | PRODUCTION.

Module Priority.
Inductive t : Type := LOW | MEDIUM | HIGH | CRITICAL.
Definition to_string (p : t) : string :=
  match p with
  | LOW => "LOW" | MEDIUM => "MEDIUM" | HIGH => "HIGH"
  | CRITICAL => "CRITICAL"
  end.
End Priority.

Definition LoadLevel_to_string (l : LoadLevel) : string :=
  match l with LOW => "LOW" | MED => "MED" | HIGH => "HIGH" end.

Definition Environment_to_string (e : Environment) : string :=
  match e with
  | DEVELOPMENT => "DEVELOPMENT" | STAGING => "STAGING"
  | PRODUCTION => "PRODUCTION"
  end.

Record ResourceAvailability : Type := {
  cpu : Z;
  memory : Z;
  network : Z
}.

Record SystemState : Type := {
  loadLevel : LoadLevel;
  dependencies : list string;
  resourceAvailability : ResourceAvailability;
  environment : Environment
}.

Record Context : Type := {
  relevantConstraints : list string;
  systemState : SystemState;
  creationTime : string;
  source : string;
  priority : Priority.t
}.

Record TaskContextCapsule : Type := {
  taskId : string;
  goal : string;
  taskType : string;
  context : Context;
  size : Z;
  version : string
}.

(** Field assignments [tcc.size = ...], [tcc.context.source = ...], ... *)
Definition set_size (tcc : TaskContextCapsule) (n : Z) : TaskContextCapsule :=
  {| taskId := taskId tcc; goal := goal tcc; taskType := taskType tcc;
     context := context tcc; size := n; version := version tcc |}.

Definition set_context (tcc : TaskContextCapsule) (c : Context)
  : TaskContextCapsule :=
  {| taskId := taskId tcc; goal := goal tcc; taskType := taskType tcc;
     context := c; size := size tcc; version := version tcc |}.

Definition set_source (c : Context) (s : string) : Context :=
  {| relevantConstraints := relevantConstraints c;
     systemState := systemState c; creationTime := creationTime c;
     source := s; priority := priority c |}.

Definition set_priority (c : Context) (p : Priority.t) : Context :=
  {| relevantConstraints := relevantConstraints c;
     systemState := systemState c; creationTime := creationTime c;
     source := source c; priority := p |}.

Definition set_relevantConstraints (c : Context) (ids : list string)
  : Context :=
  {| relevantConstraints := ids;
     systemState := systemState c; creationTime := creationTime c;
     source := source c; priority := priority c |}.

(** The object behind a [TaskContextCapsule], property by property in the
    order in which [createTCC] writes them.  [JSON.stringify] follows that
    order; the length of its output does not depend on it. *)
Definition to_value (tcc : TaskContextCapsule) : JsValue :=
  let c := context tcc in
  let st := systemState c in
  let ra := resourceAvailability st in
  VObject
    [ ("taskId", VString (taskId tcc));
      ("goal", VString (goal tcc));
      ("taskType", VString (taskType tcc));
      ("context", VObject
         [ ("relevantConstraints",
             VArray (map VString (relevantConstraints c)));
           ("systemState", VObject
              [ ("loadLevel", VString (LoadLevel_to_string (loadLevel st)));
                ("dependencies", VArray (map VString (dependencies st)));
                ("resourceAvailability", VObject
                   [ ("cpu", VNumber (cpu ra));
                     ("memory", VNumber (memory ra));
                     ("network", VNumber (network ra)) ]);
                ("environment",
                  VString (Environment_to_string (environment st))) ]);
           ("creationTime", VString (creationTime c));
           ("source", VString (source c));
           ("priority", VString (Priority.to_string (priority c))) ]);
      ("size", VNumber (size tcc));
      ("version", VString (version tcc)) ].

(** [validateTCCSize]: the returned pair is the boolean result and the
    capsule after the assignment [tcc.size = byteSize]. *)
Definition validateTCCSize (tcc : TaskContextCapsule)
  : bool * TaskContextCapsule :=
  let tccString := stringify (to_value tcc) in
  let byteSize := byte_size tccString in
  (byteSize <? 10240, set_size tcc byteSize).

(** [createTCC]; [now] is the value of [new Date().toISOString()]. *)
Definition createTCC (now : string) (taskId goal taskType : string)
  : TaskContextCapsule :=
  let tcc :=
    {| taskId := taskId;
       goal := goal;
       taskType := taskType;
       context :=
         {| relevantConstraints := [];
            systemState :=
              {| loadLevel := MED;
                 dependencies := [];
                 resourceAvailability :=
                   {| cpu := 50; memory := 50; network := 50 |};
                 environment := DEVELOPMENT |};
            creationTime := now;
            source := "user-request";
            priority := Priority.MEDIUM |};
       size := 0;
       version := "1.0" |} in
  snd (validateTCCSize tcc).

End TCC.

Definition sample_now : string := "2025-01-01T00:00:00.000Z".


(* ===================================================================== *)
(** ** core/specification/TccGenerator.ts *)
(* ===================================================================== *)

(** How [extractRelevantConstraints] uses the value of
    [spec?.metadata?.taskConstraints?.[tcc.taskType]]: a falsy value is
    ignored, anything else is spread into [push], which throws a
    [TypeError] unless the value is iterable.  An iterable yields
    strings, as the type of [relevantConstraints] declares. *)
Inductive SpecEntry : Type :=
| EntryFalsy
| EntryIterable (ids : list string)
| EntryNotIterable.

(** [[...new Set(xs)]]: the first occurrence of each element, in order. *)
Definition unique (xs : list string) : list string :=
  fold_left
    (fun seen x =>
       if existsb (String.eqb x) seen then seen else (seen ++ [x])%list)
    xs [].

Module TccGenerator.
Import TCC.

Section WithCollaborators.

(** [String.prototype.toUpperCase]. *)
Variable toUpperCase : string -> string.

(** Outcome of awaiting [loadSpecification(path)] of
    SpecificationManager: the loaded document, or the error thrown. *)
Variable loadSpecification : JsValue -> Settled JsValue.

(** Evaluation of [spec?.metadata?.taskConstraints?.[taskType]] on a
    loaded document. *)
Variable taskConstraintsEntry : JsValue -> string -> SpecEntry.

Definition bsl_schema_path : JsValue :=
  VString "src/core/specification/bsl.schema.json".

(** The [switch (tcc.taskType.toUpperCase())] of
    [extractRelevantConstraints]. *)
Definition constraintsForTaskType (taskType : string) : list string :=
  let upper := toUpperCase taskType in
  if (upper =? "FINANCIAL")%string then ["SEC-002"; "SEC-003"; "PERF-002"]
  else if (upper =? "AUTHENTICATION")%string then ["SEC-001"; "SEC-002"]
  else if (upper =? "API")%string then ["PERF-001"; "PERF-002"; "ARCH-002"]
  else if (upper =? "DATABASE")%string then ["PERF-001"; "ARCH-002"]
  else ["SEC-001"].

(** [extractRelevantConstraints]: the capsule after the call.  Every
    exception of the body is swallowed by its [catch], which leaves the
    capsule as it was (the warning goes to the console). *)
Definition extractRelevantConstraints (tcc : TaskContextCapsule)
  : TaskContextCapsule :=
  match loadSpecification bsl_schema_path with
  | Rejected _ => tcc
  | Fulfilled spec =>
      let relevantConstraints := constraintsForTaskType (taskType tcc) in
      match taskConstraintsEntry spec (taskType tcc) with
      | EntryNotIterable => tcc
      | EntryFalsy =>
          set_context tcc
            (set_relevantConstraints (context tcc)
               (unique relevantConstraints))
      | EntryIterable ids =>
          set_context tcc
            (set_relevantConstraints (context tcc)
               (unique (relevantConstraints ++ ids)%list))
      end
  end.

(** The capsule that [generateTCC] hands to its final [validateTCCSize]. *)
Definition capsule_under_check (now : string) (taskId goal taskType : string)
    (source : string) (priority : Priority.t) : TaskContextCapsule :=
  let tcc := createTCC now taskId goal taskType in
  let tcc := set_context tcc (set_source (context tcc) source) in
  let tcc := set_context tcc (set_priority (context tcc) priority) in
  extractRelevantConstraints tcc.

(** Body of the [try] block of [generateTCC]. *)
Definition generateTCC_body (now : string) (taskId goal taskType : string)
    (source : string) (priority : Priority.t)
  : Settled TaskContextCapsule :=
  let tcc := createTCC now taskId goal taskType in
  let tcc := set_context tcc (set_source (context tcc) source) in
  let tcc := set_context tcc (set_priority (context tcc) priority) in
  let tcc := extractRelevantConstraints tcc in
  let '(ok, tcc) := validateTCCSize tcc in
  if negb ok
  then Rejected (ErrorObject ("TCC size exceeds limit: "
                              ++ number_to_string (size tcc) ++ " bytes"))
  else Fulfilled tcc.

(** [generateTCC]; an omitted [source] or [priority] takes its default. *)
Definition generateTCC (now : string) (taskId goal taskType : string)
    (source : option string) (priority : option Priority.t)
  : Settled TaskContextCapsule :=
  let source := match source with Some s => s | None => "user-request" end in
  let priority :=
    match priority with Some p => p | None => Priority.MEDIUM end in
  try_catch (generateTCC_body now taskId goal taskType source priority)
    (fun error =>
       match error with
       | ErrorObject message =>
           Rejected (ErrorObject ("Failed to generate TCC: " ++ message))
       | NonError =>
           Rejected (ErrorObject "Failed to generate TCC: Unknown error")
       end).

End WithCollaborators.

End TccGenerator.

(** *** The expression [spec?.metadata?.taskConstraints?.[tcc.taskType]]

    The document is what [JSON.parse] built: an [VObject] is an ordinary
    object whose own properties are the listed ones and whose prototype
    is [Object.prototype]. *)

(** The properties that every ordinary object inherits from
    [Object.prototype]: eleven functions and the accessor [__proto__],
    which answers the prototype itself.  Each of these values is truthy
    and none of them is iterable. *)
Definition Object_prototype_properties : list string :=
  [ "constructor"; "__defineGetter__"; "__defineSetter__"; "hasOwnProperty";
    "__lookupGetter__"; "__lookupSetter__"; "isPrototypeOf";
    "propertyIsEnumerable"; "toString"; "valueOf"; "__proto__";
    "toLocaleString" ].

(** [base?.key] for one of the keys of [own_property]. *)
Definition optional_member (base : JsValue) (key : string) : JsValue :=
  if nullish base then VUndefined else own_property base key.

(** The elements of an array of strings. *)
Fixpoint strings_of (items : list JsValue) : option (list string) :=
  match items with
  | [] => Some []
  | VString s :: rest =>
      match strings_of rest with
      | Some more => Some (s :: more)
      | None => None
      end
  | _ => None
  end.

(** What [if (value) relevantConstraints.push(...value)] does with an own
    property value.  Two cases are left out ([None]): an array with an
    element that is not a string, and a non-empty string, which the
    spread would push character by character. *)
Definition entry_of_value (value : JsValue) : option SpecEntry :=
  if negb (truthy value) then Some EntryFalsy
  else
    match value with
    | VArray items =>
        match strings_of items with
        | Some ids => Some (EntryIterable ids)
        | None => None
        end
    | VString _ => None
    | _ => Some EntryNotIterable
    end.

(** The evaluation of the expression on a loaded document, where
    [metadata.taskConstraints] is absent, [null] or an ordinary object.
    A task type that is no own property of that object still finds the
    properties that the object inherits.  Other shapes of
    [taskConstraints] (an array, a string, a number, a boolean) are left
    out ([None]). *)
Definition taskConstraints_entry (spec : JsValue) (taskType : string)
  : option SpecEntry :=
  let taskConstraints :=
    optional_member (optional_member spec "metadata") "taskConstraints" in
  match taskConstraints with
  | VUndefined | VNull => Some EntryFalsy
  | VObject props =>
      match lookup taskType props with
      | Some value => entry_of_value value
      | None =>
          if existsb (String.eqb taskType) Object_prototype_properties
          then Some EntryNotIterable
          else Some EntryFalsy
      end
  | _ => None
  end.

(** The evaluation on every document: computed where
    [taskConstraints_entry] covers the document, and [elsewhere] on the
    documents that it leaves out. *)
Definition taskConstraintsEntry_of
    (elsewhere : JsValue -> string -> SpecEntry)
    (spec : JsValue) (taskType : string) : SpecEntry :=
  match taskConstraints_entry spec taskType with
  | Some entry => entry
  | None => elsewhere spec taskType
  end.

(** An upper-casing that agrees with [toUpperCase] on ASCII text, used to
    run the generator on concrete ASCII inputs. *)
Definition ascii_upper_char (c : ascii) : ascii :=
  let n := N_of_ascii c in
  if ((97 <=? n) && (n <=? 122))%N then ascii_of_N (n - 32) else c.

Fixpoint ascii_toUpperCase (s : string) : string :=
  match s with
  | EmptyString => EmptyString
  | String c rest => String (ascii_upper_char c) (ascii_toUpperCase rest)
  end.


(* ===================================================================== *)
(** ** core/constraint/ConstraintGenerator.ts *)
(* ===================================================================== *)

(** [String.prototype.endsWith] *)
Definition endsWith (s suffix : string) : bool :=
  let n := String.length s in
  let m := String.length suffix in
  ((m <=? n)%nat && (substring (n - m) m s =? suffix)%string)%bool.

(** The [TypeError] of a conversion that finds no primitive. *)
Definition conversion_error : Thrown :=
  ErrorObject "Cannot convert object to primitive value".

(** [ToString], as applied by a template literal, and the exception it
    throws.  An ordinary object is converted by its [toString] property:
    the inherited one answers "[object Object]"; an own property of that
    name hides it, and since no value read from JSON is a function,
    neither it nor [valueOf] yields a primitive and the conversion throws
    a [TypeError].  An array is converted by joining the conversions of
    its elements, in order. *)
Fixpoint ToString (v : JsValue) : Settled string :=
  match v with
  | VUndefined => Fulfilled "undefined"
  | VNull => Fulfilled "null"
  | VBool b => Fulfilled (if b then "true" else "false")
  | VNumber n => Fulfilled (number_to_string n)
  | VString s => Fulfilled s
  | VArray items =>
      bind
        ((fix texts (items : list JsValue) : Settled (list string) :=
            match items with
            | [] => Fulfilled []
            | x :: rest =>
                bind
                  match x with
                  | VUndefined | VNull => Fulfilled ""
                  | _ => ToString x
                  end
                  (fun text =>
                     bind (texts rest) (fun more => Fulfilled (text :: more)))
            end) items)
        (fun parts => Fulfilled (join "," parts))
  | VObject props =>
      match lookup "toString" props with
      | Some _ => Rejected conversion_error
      | None => Fulfilled "[object Object]"
      end
  | VPromise _ => Fulfilled "[object Promise]"
  end.

(** [xs.includes(v)] on an array of strings: strict equality, so only a
    string can be found. *)
Definition includes (xs : list string) (v : JsValue) : bool :=
  match v with
  | VString s => existsb (String.eqb s) xs
  | _ => false
  end.

Module ConstraintGenerator.

Inductive Category : Type := SECURITY | PERFORMANCE | ARCHITECTURE | OTHER.
Inductive Severity : Type := WARNING | ERROR.

Definition Category_to_string (c : Category) : string :=
  match c with
  | SECURITY => "SECURITY" | PERFORMANCE => "PERFORMANCE"
  | ARCHITECTURE => "ARCHITECTURE" | OTHER => "OTHER"
  end.

Definition Severity_to_string (s : Severity) : string :=
  match s with WARNING => "WARNING" | ERROR => "ERROR" end.

Module Template.
Record ConstraintTemplate : Type := {
  id : string;
  name : string;
  category : Category;
  description : string;
  rule : string;
  applicableTasks : list string;
  severity : Severity
}.
End Template.
Abbreviation ConstraintTemplate := Template.ConstraintTemplate.

Record Constraint : Type := {
  id : string;
  name : string;
  category : Category;
  description : string;
  rule : string;
  applicableTasks : list string;
  severity : Severity
}.

(** *** The template directories, as [matchTemplates] reads them *)

(** One directory entry of a store whose records have the declared type:
    its name, and the outcome of
    [JSON.parse(await fs.readFile(filePath, 'utf8')) as ConstraintTemplate]
    -- a template, or the exception raised by the read or by the parser.
    Records of any other shape, which the cast lets through, are those of
    [TemplateRecords] below. *)
Record TemplateFile : Type := {
  fileName : string;
  parsed : Settled ConstraintTemplate
}.

(** Outcome of [fs.readdir(dir)]. *)
Definition Directory : Type := Settled (list TemplateFile).

Record TemplateStore : Type := {
  security : Directory;
  performance : Directory;
  architecture : Directory
}.

(** [template.applicableTasks.includes(taskType) ||
     template.applicableTasks.includes('ALL')] *)
Definition applies (taskType : JsValue) (template : ConstraintTemplate)
  : bool :=
  includes (Template.applicableTasks template) taskType
  || includes (Template.applicableTasks template) (VString "ALL").

(** The inner [for (const file of files)] loop.  It returns the
    [templates] array as the loop leaves it, and the exception that
    interrupted the loop, if any: what was pushed before stays pushed. *)
Fixpoint scanFiles (taskType : JsValue) (files : list TemplateFile)
    (templates : list ConstraintTemplate)
  : list ConstraintTemplate * option Thrown :=
  match files with
  | [] => (templates, None)
  | file :: rest =>
      if endsWith (fileName file) ".json" then
        match parsed file with
        | Rejected e => (templates, Some e)
        | Fulfilled template =>
            if applies taskType template
            then scanFiles taskType rest (templates ++ [template])%list
            else scanFiles taskType rest templates
        end
      else scanFiles taskType rest templates
  end.

(** One turn of [for (const dir of templateDirs)]: the inner [try] with
    its [catch (error) { continue; }]. *)
Definition scanDirectory (taskType : JsValue) (dir : Directory)
    (templates : list ConstraintTemplate) : list ConstraintTemplate :=
  match dir with
  | Rejected _ => templates
  | Fulfilled files => fst (scanFiles taskType files templates)
  end.

Definition templateDirs (store : TemplateStore) : list Directory :=
  [security store; performance store; architecture store].

(** [matchTemplates].  [taskType] is declared a string; it is the
    argument of [includes] and may be any value when it comes from an
    unchecked document. *)
Definition matchTemplates (store : TemplateStore) (taskType : JsValue)
  : Settled (list ConstraintTemplate) :=
  try_catch
    (Fulfilled
       (fold_left (fun templates dir => scanDirectory taskType dir templates)
          (templateDirs store) []))
    (fun error =>
       match error with
       | ErrorObject message =>
           Rejected (ErrorObject ("Failed to match templates: " ++ message))
       | NonError =>
           Rejected (ErrorObject "Failed to match templates: Unknown error")
       end).

Definition rethrow (error : Thrown) {A} : Settled A :=
  match error with
  | ErrorObject message =>
      Rejected (ErrorObject ("Failed to generate constraints: " ++ message))
  | NonError =>
      Rejected (ErrorObject "Failed to generate constraints: Unknown error")
  end.

(** [generateConstraints] on a capsule that has its declared type; the
    result is the settlement of the promise that the [async] function
    returns. *)
Definition generateConstraints (store : TemplateStore)
    (tcc : TCC.TaskContextCapsule) : Settled (list Constraint) :=
  try_catch
    (templates <- matchTemplates store (VString (TCC.taskType tcc)) ;;
     let constraints :=
       map (fun template =>
              {| id := Template.id template;
                 name := Template.name template;
                 category := Template.category template;
                 description := Template.description template;
                 rule := Template.rule template;
                 applicableTasks := Template.applicableTasks template;
                 severity := Template.severity template |}) templates in
     let contextConstraints :=
       map (fun id =>
              {| id := id;
                 name := id;
                 category := OTHER;
                 description := "Constraint from task context";
                 rule := "context." ++ id;
                 applicableTasks := [TCC.taskType tcc];
                 severity := WARNING |})
         (TCC.relevantConstraints (TCC.context tcc)) in
     Fulfilled (constraints ++ contextConstraints)%list)%js
    (fun error => rethrow error).

(** *** The same function on an unchecked document

    [handleCheckConstraints] passes the document returned by
    [loadSpecification] (of type [any]) without a run-time check, so the
    body runs on an arbitrary value. *)


Definition Template_to_value (t : ConstraintTemplate) : JsValue :=
  VObject
    [ ("id", VString (Template.id t));
      ("name", VString (Template.name t));
      ("category", VString (Category_to_string (Template.category t)));
      ("description", VString (Template.description t));
      ("rule", VString (Template.rule t));
      ("applicableTasks", VArray (map VString (Template.applicableTasks t)));
      ("severity", VString (Severity_to_string (Template.severity t))) ].

(** [items.map(f)] for a callback that may throw: the elements are
    visited in order and the first exception ends the call. *)
Fixpoint map_in_order {A B : Type} (f : A -> Settled B) (items : list A)
  : Settled (list B) :=
  match items with
  | [] => Fulfilled []
  | x :: rest =>
      bind (f x)
        (fun y => bind (map_in_order f rest) (fun ys => Fulfilled (y :: ys)))
  end.

(** [v.map(f)]: a [TypeError] unless [v] is an array. *)
Definition array_map (v : JsValue) (f : JsValue -> Settled JsValue)
  : Settled (list JsValue) :=
  match v with
  | VArray items => map_in_order f items
  | VUndefined | VNull =>
      Rejected (ErrorObject ("Cannot read properties of "
                             ++ describe_nullish v ++ " (reading 'map')"))
  | _ =>
      Rejected (ErrorObject
                  "tcc.context.relevantConstraints.map is not a function")
  end.

Definition generateConstraints_unchecked (store : TemplateStore)
    (tcc : JsValue) : Settled JsValue :=
  try_catch
    (taskType <- get_member tcc "taskType" ;;
     templates <- matchTemplates store taskType ;;
     let constraints := map Template_to_value templates in
     context <- get_member tcc "context" ;;
     relevantConstraints <- get_member context "relevantConstraints" ;;
     contextConstraints <-
       array_map relevantConstraints
         (fun id =>
            text <- ToString id ;;
            Fulfilled
              (VObject
                 [ ("id", id);
                   ("name", id);
                   ("category", VString "OTHER");
                   ("description", VString "Constraint from task context");
                   ("rule", VString ("context." ++ text));
                   ("applicableTasks", VArray [taskType]);
                   ("severity", VString "WARNING") ])) ;;
     Fulfilled (VArray (constraints ++ contextConstraints)%list))%js
    (fun error => rethrow error).

End ConstraintGenerator.

(* ===================================================================== *)
(** ** [matchTemplates] on the records as they are parsed

    [JSON.parse(data) as ConstraintTemplate] checks nothing at run time:
    the record is whatever value the file holds.  The definitions of
    [ConstraintGenerator] above are the case in which every record that
    is parsed has the declared type. *)
(* ===================================================================== *)

Module TemplateRecords.

(** One directory entry: its name, and the outcome of
    [JSON.parse(await fs.readFile(filePath, 'utf8'))]. *)
Record File : Type := {
  fileName : string;
  parsed : Settled JsValue
}.

(** Outcome of [fs.readdir(dir)]. *)
Definition Directory : Type := Settled (list File).

Record Store : Type := {
  security : Directory;
  performance : Directory;
  architecture : Directory
}.

(** [text.startsWith(searched)] *)
Fixpoint starts_with (searched text : string) : bool :=
  match searched, text with
  | EmptyString, _ => true
  | String c searched', String d text' =>
      Ascii.eqb c d && starts_with searched' text'
  | String _ _, EmptyString => false
  end.

(** [String.prototype.includes]: [searched] occurs somewhere in [text]. *)
Fixpoint occurs_in (searched text : string) : bool :=
  starts_with searched text
  || match text with
     | EmptyString => false
     | String _ rest => occurs_in searched rest
     end.

(** The comparison of [Array.prototype.includes] between an element of a
    parsed record and the searched value.  Primitives are compared by
    value; an array or an object is equal to itself only, and no element
    of a record that has just been parsed is the searched value. *)
Definition same_value (element searched : JsValue) : bool :=
  match element, searched with
  | VUndefined, VUndefined => true
  | VNull, VNull => true
  | VBool a, VBool b => Bool.eqb a b
  | VNumber a, VNumber b => (a =? b)%Z
  | VString a, VString b => (a =? b)%string
  | _, _ => false
  end.

(** [applicableTasks.includes(searched)], whatever [applicableTasks] is:
    the method of arrays compares elements, the method of strings looks
    for the text of [searched], and any other value has no such method. *)
Definition applicableTasks_includes (applicableTasks searched : JsValue)
  : Settled bool :=
  match applicableTasks with
  | VArray items =>
      Fulfilled (existsb (fun element => same_value element searched) items)
  | VString text =>
      (wanted <- ToString searched ;;
       Fulfilled (occurs_in wanted text))%js
  | VUndefined | VNull =>
      Rejected (ErrorObject ("Cannot read properties of "
                             ++ describe_nullish applicableTasks
                             ++ " (reading 'includes')"))
  | _ =>
      Rejected (ErrorObject
                  "template.applicableTasks.includes is not a function")
  end.

(** [template.applicableTasks.includes(taskType) ||
     template.applicableTasks.includes('ALL')] *)
Definition applies (taskType template : JsValue) : Settled bool :=
  (applicableTasks <- get_member template "applicableTasks" ;;
   found <- applicableTasks_includes applicableTasks taskType ;;
   if found then Fulfilled true
   else applicableTasks_includes applicableTasks (VString "ALL"))%js.

(** The inner [for (const file of files)] loop: the [templates] array as
    the loop leaves it, and the exception that interrupted it, if any. *)
Fixpoint scanFiles (taskType : JsValue) (files : list File)
    (templates : list JsValue) : list JsValue * option Thrown :=
  match files with
  | [] => (templates, None)
  | file :: rest =>
      if endsWith (fileName file) ".json" then
        match parsed file with
        | Rejected e => (templates, Some e)
        | Fulfilled template =>
            match applies taskType template with
            | Rejected e => (templates, Some e)
            | Fulfilled true =>
                scanFiles taskType rest (templates ++ [template])%list
            | Fulfilled false => scanFiles taskType rest templates
            end
        end
      else scanFiles taskType rest templates
  end.

(** One turn of [for (const dir of templateDirs)]: the inner [try] with
    its [catch (error) { continue; }]. *)
Definition scanDirectory (taskType : JsValue) (dir : Directory)
    (templates : list JsValue) : list JsValue :=
  match dir with
  | Rejected _ => templates
  | Fulfilled files => fst (scanFiles taskType files templates)
  end.

Definition templateDirs (store : Store) : list Directory :=
  [security store; performance store; architecture store].

(** [matchTemplates] *)
Definition matchTemplates (store : Store) (taskType : JsValue)
  : Settled (list JsValue) :=
  try_catch
    (Fulfilled
       (fold_left (fun templates dir => scanDirectory taskType dir templates)
          (templateDirs store) []))
    (fun error =>
       match error with
       | ErrorObject message =>
           Rejected (ErrorObject ("Failed to match templates: " ++ message))
       | NonError =>
           Rejected (ErrorObject "Failed to match templates: Unknown error")
       end).

(** The store whose records are templates of the declared type. *)
Definition file_of (file : ConstraintGenerator.TemplateFile) : File :=
  {| fileName := ConstraintGenerator.fileName file;
     parsed :=
       match ConstraintGenerator.parsed file with
       | Fulfilled template =>
           Fulfilled (ConstraintGenerator.Template_to_value template)
       | Rejected e => Rejected e
       end |}.

Definition directory_of (dir : ConstraintGenerator.Directory) : Directory :=
  match dir with
  | Fulfilled files => Fulfilled (map file_of files)
  | Rejected e => Rejected e
  end.

Definition store_of (store : ConstraintGenerator.TemplateStore) : Store :=
  {| security := directory_of (ConstraintGenerator.security store);
     performance := directory_of (ConstraintGenerator.performance store);
     architecture := directory_of (ConstraintGenerator.architecture store) |}.

End TemplateRecords.

(* ===================================================================== *)
(** ** integration/mcp: envelopes and method handlers *)
(* ===================================================================== *)

Module Request.
Record McpRequest : Type := {
  method : string;
  params : JsValue;
  id : JsValue
}.
End Request.
Abbreviation McpRequest := Request.McpRequest.

Record McpError : Type := {
  code : Z;
  message : string
}.

Module Response.
Record McpResponse : Type := {
  result : option JsValue;
  error : option McpError;
  id : JsValue
}.

(** The response object; an absent [result] or [error] is no property. *)
Definition to_value (r : McpResponse) : JsValue :=
  VObject
    ((match result r with Some v => [("result", v)] | None => [] end)
     ++ (match error r with
         | Some e => [("error", VObject [("code", VNumber (code e));
                                         ("message", VString (message e))])]
         | None => []
         end)
     ++ [("id", id r)])%list.
End Response.
Abbreviation McpResponse := Response.McpResponse.

(** [{ error: { code, message }, id }] *)
Definition error_response (code : Z) (message : string) (id : JsValue)
  : McpResponse :=
  {| Response.result := None;
     Response.error := Some {| code := code; message := message |};
     Response.id := id |}.

(** [{ result, id }] *)
Definition result_response (result : JsValue) (id : JsValue) : McpResponse :=
  {| Response.result := Some result;
     Response.error := None;
     Response.id := id |}.

(** What the handlers observe of the process and of the file system. *)
Record Runtime : Type := {
  (** outcome of awaiting [loadSpecification(path)] *)
  loadSpecification : JsValue -> Settled JsValue;
  (** the template directories read by [matchTemplates] *)
  templates : ConstraintGenerator.TemplateStore;
  (** [new Date().toISOString()] *)
  now : string;
  (** [process.uptime()] *)
  uptime : JsValue
}.

(** Calling an [async] function without awaiting it: the call itself never
    throws, its value is the promise, whatever the promise settles to.
    What becomes of a promise that is rejected and never awaited is
    [unhandled_rejection] below. *)
Definition call_async (settlement : Settled JsValue) : Settled JsValue :=
  Fulfilled (VPromise settlement).

(** [const { tccPath, specPath } = request.params] *)
Definition destructure_params (params : JsValue) : Settled (JsValue * JsValue) :=
  if nullish params
  then Rejected (ErrorObject
                   ("Cannot destructure property 'tccPath' of 'request.params'"
                    ++ " as it is " ++ describe_nullish params ++ "."))
  else Fulfilled (own_property params "tccPath",
                  own_property params "specPath").

(** *** integration/mcp/McpAdapter.ts *)
Module McpAdapter.

Definition handleCheckConstraints (rt : Runtime) (request : McpRequest)
  : Settled McpResponse :=
  try_catch
    (p <- destructure_params (Request.params request) ;;
     let '(tccPath, specPath) := p in
     if negb (truthy tccPath) || negb (truthy specPath) then
       Fulfilled (error_response (-32602)
                    "Missing required parameters: tccPath and specPath"
                    (Request.id request))
     else
       match loadSpecification rt specPath with
       | Rejected error =>
           Fulfilled (error_response (-32001)
                        ("Failed to load specification: "
                         ++ message_or error "Unknown error")
                        (Request.id request))
       | Fulfilled specification =>
           match loadSpecification rt tccPath with
           | Rejected error =>
               Fulfilled (error_response (-32002)
                            ("Failed to load task context capsule: "
                             ++ message_or error "Unknown error")
                            (Request.id request))
           | Fulfilled tcc =>
               match call_async
                       (ConstraintGenerator.generateConstraints_unchecked
                          (templates rt) tcc) with
               | Rejected error =>
                   Fulfilled (error_response (-32003)
                                ("Failed to generate constraints: "
                                 ++ message_or error "Unknown error")
                                (Request.id request))
               | Fulfilled constraints =>
                   let violations : list JsValue := [] in
                   Fulfilled (result_response
                                (VObject [("constraints", constraints);
                                          ("violations", VArray violations);
                                          ("timestamp", VString (now rt))])
                                (Request.id request))
               end
           end
       end)%js
    (fun error =>
       Fulfilled (error_response (-32603) (message_or error "Internal error")
                    (Request.id request))).

Definition handleGetSystemStatus (rt : Runtime) (request : McpRequest)
  : Settled McpResponse :=
  Fulfilled (result_response
               (VObject [("status", VString "running");
                         ("version", VString "1.0.0");
                         ("uptime", uptime rt);
                         ("timestamp", VString (now rt))])
               (Request.id request)).

Definition handleGetEvolutionStage (rt : Runtime) (request : McpRequest)
  : Settled McpResponse :=
  Fulfilled (result_response
               (VObject
                  [("currentStage", VString "MVP");
                   ("description",
                     VString "Minimum Viable Product - Core functionality implemented");
                   ("capabilities",
                     VArray [VString "Basic constraint generation";
                             VString "Task Context Capsule support";
                             VString "MCP integration";
                             VString "CLI interface"]);
                   ("timestamp", VString (now rt))])
               (Request.id request)).

Definition handleMcpRequest (rt : Runtime) (request : McpRequest)
  : Settled McpResponse :=
  try_catch
    (if (Request.method request =? "checkConstraints")%string then
       handleCheckConstraints rt request
     else if (Request.method request =? "getSystemStatus")%string then
       handleGetSystemStatus rt request
     else if (Request.method request =? "getEvolutionStage")%string then
       handleGetEvolutionStage rt request
     else
       Fulfilled (error_response (-32601) "Method not found"
                    (Request.id request)))
    (fun error =>
       Fulfilled (error_response (-32603) (message_or error "Internal error")
                    (Request.id request))).

End McpAdapter.

(** *** integration/mcp/McpStdioServer.ts *)

Definition newline : string := String (ascii_of_N 10) EmptyString.

(** [JSON.stringify(response) + '\n'] *)
Definition response_line (response : McpResponse) : string :=
  stringify (Response.to_value response) ++ newline.

(** The three method handlers of McpStdioServer.ts repeat those of
    McpAdapter.ts word for word. *)
Module McpStdioServer.

Definition handleCheckConstraints (rt : Runtime) (request : McpRequest)
  : Settled McpResponse :=
  try_catch
    (p <- destructure_params (Request.params request) ;;
     let '(tccPath, specPath) := p in
     if negb (truthy tccPath) || negb (truthy specPath) then
       Fulfilled (error_response (-32602)
                    "Missing required parameters: tccPath and specPath"
                    (Request.id request))
     else
       match loadSpecification rt specPath with
       | Rejected error =>
           Fulfilled (error_response (-32001)
                        ("Failed to load specification: "
                         ++ message_or error "Unknown error")
                        (Request.id request))
       | Fulfilled specification =>
           match loadSpecification rt tccPath with
           | Rejected error =>
               Fulfilled (error_response (-32002)
                            ("Failed to load task context capsule: "
                             ++ message_or error "Unknown error")
                            (Request.id request))
           | Fulfilled tcc =>
               match call_async
                       (ConstraintGenerator.generateConstraints_unchecked
                          (templates rt) tcc) with
               | Rejected error =>
                   Fulfilled (error_response (-32003)
                                ("Failed to generate constraints: "
                                 ++ message_or error "Unknown error")
                                (Request.id request))
               | Fulfilled constraints =>
                   let violations : list JsValue := [] in
                   Fulfilled (result_response
                                (VObject [("constraints", constraints);
                                          ("violations", VArray violations);
                                          ("timestamp", VString (now rt))])
                                (Request.id request))
               end
           end
       end)%js
    (fun error =>
       Fulfilled (error_response (-32603) (message_or error "Internal error")
                    (Request.id request))).

Definition handleGetSystemStatus (rt : Runtime) (request : McpRequest)
  : Settled McpResponse :=
  Fulfilled (result_response
               (VObject [("status", VString "running");
                         ("version", VString "1.0.0");
                         ("uptime", uptime rt);
                         ("timestamp", VString (now rt))])
               (Request.id request)).

Definition handleGetEvolutionStage (rt : Runtime) (request : McpRequest)
  : Settled McpResponse :=
  Fulfilled (result_response
               (VObject
                  [("currentStage", VString "MVP");
                   ("description",
                     VString "Minimum Viable Product - Core functionality implemented");
                   ("capabilities",
                     VArray [VString "Basic constraint generation";
                             VString "Task Context Capsule support";
                             VString "MCP integration";
                             VString "CLI interface"]);
                   ("timestamp", VString (now rt))])
               (Request.id request)).

(** [handleMcpRequest] returns nothing; its effect is the list of chunks
    written to [process.stdout]. *)
Definition handleMcpRequest (rt : Runtime) (request : McpRequest)
  : list string :=
  let written :=
    try_catch
      (response <-
         (if (Request.method request =? "checkConstraints")%string then
            handleCheckConstraints rt request
          else if (Request.method request =? "getSystemStatus")%string then
            handleGetSystemStatus rt request
          else if (Request.method request =? "getEvolutionStage")%string then
            handleGetEvolutionStage rt request
          else
            Fulfilled (error_response (-32601) "Method not found"
                         (Request.id request))) ;;
       Fulfilled [response_line response])%js
      (fun error =>
         let response :=
           error_response (-32603) (message_or error "Internal error")
             (Request.id request) in
         Fulfilled [response_line response]) in
  match written with
  | Fulfilled chunks => chunks
  | Rejected _ => []
  end.

End McpStdioServer.

(* ===================================================================== *)
(** ** core/specification/SpecificationManager.ts *)
(* ===================================================================== *)

Module SpecificationManager.

Record ValidationResult : Type := {
  isValid : bool;
  errors : list string
}.

Section WithFileSystem.

(** Outcome of [fs.readFile(path, 'utf8')]. *)
Variable readFile : JsValue -> Settled string.

(** [JSON.parse]. *)
Variable JSON_parse : string -> Settled JsValue.

(** The [try] block of [validateSpecification] up to its [if]: loading
    json-schema and the schema file, and [jsonSchema.validate(spec,
    schema)].  The pair is [result.valid] and, for an invalid document,
    the messages [result.errors.map(detail => detail.message)]; a
    rejection is whatever the block throws. *)
Variable schemaValidate : JsValue -> Settled (bool * list string).

(** [validateSpecification]: it catches everything and always returns. *)
Definition validateSpecification (spec : JsValue) : ValidationResult :=
  match schemaValidate spec with
  | Fulfilled (true, _) => {| isValid := true; errors := [] |}
  | Fulfilled (false, messages) => {| isValid := false; errors := messages |}
  | Rejected (ErrorObject message) =>
      {| isValid := false;
         errors := ["Schema validation failed: " ++ message] |}
  | Rejected NonError =>
      {| isValid := false;
         errors := ["Schema validation failed: Unknown error"] |}
  end.

(** [loadSpecification] *)
Definition loadSpecification (path : JsValue) : Settled JsValue :=
  try_catch
    (data <- readFile path ;;
     spec <- JSON_parse data ;;
     let isValid := validateSpecification spec in
     if negb (SpecificationManager.isValid isValid) then
       Rejected (ErrorObject ("Invalid specification: "
                              ++ join ", " (errors isValid)))
     else Fulfilled spec)%js
    (fun error =>
       match error with
       | ErrorObject message =>
           (text <- ToString path ;;
            Rejected (ErrorObject ("Failed to load specification from "
                                   ++ text ++ ": " ++ message)))%js
       | NonError =>
           (text <- ToString path ;;
            Rejected (ErrorObject ("Failed to load specification from "
                                   ++ text ++ ": Unknown error")))%js
       end).

End WithFileSystem.

End SpecificationManager.

(* ===================================================================== *)
(** ** core/specification/TccGenerator.ts, continued *)
(* ===================================================================== *)

Module SystemStateRefresh.
Import TCC.

(** [updateTCCWithSystemState]: the capsule after the call; [now] is the
    value of [new Date().toISOString()].  None of the assignments can
    throw on a capsule of the declared type. *)
Definition updateTCCWithSystemState (now : string) (tcc : TaskContextCapsule)
  : TaskContextCapsule :=
  let c := context tcc in
  let st :=
    {| loadLevel := MED;
       dependencies := ["core-service"; "database"];
       resourceAvailability := {| cpu := 50; memory := 50; network := 50 |};
       environment := DEVELOPMENT |} in
  let tcc :=
    set_context tcc
      {| relevantConstraints := relevantConstraints c;
         systemState := st;
         creationTime := now;
         source := source c;
         priority := priority c |} in
  snd (validateTCCSize tcc).

End SystemStateRefresh.

(* ===================================================================== *)
(** ** CliInterface (module CliInterface, kept in integration/mcp/index.ts) *)
(* ===================================================================== *)

(** What the command line switch does with its arguments, up to the
    first call it makes: [Exit code] is a call of [process.exit(code)] by
    the switch itself; the three other actions start a method of
    [CliInterface], and the process exits later with a code that depends
    on that method ([check] and [migrate] exit with the code that the
    method returns). *)
Inductive CliAction : Type :=
| Exit (code : Z)
| ExecuteConstraintCheck (taskId goal taskType : JsValue)
| ShowEvolutionStatus
| MigrateEvolution.

Module CliInterface.
Import TCC ConstraintGenerator.

Section WithCollaborators.

Variable toUpperCase : string -> string.
Variable loadSpecification : JsValue -> Settled JsValue.
Variable taskConstraintsEntry : JsValue -> string -> SpecEntry.
Variable store : TemplateStore.

(** [constraints.some(c => c.id === wanted)] *)
Definition some_id (constraints : list Constraint) (wanted : string) : bool :=
  existsb (fun c => (id c =? wanted)%string) constraints.

(** [checkForViolations] *)
Definition checkForViolations (constraints : list Constraint)
    (tcc : TaskContextCapsule) : list string :=
  let violations : list string := [] in
  if (taskType tcc =? "")%string then violations
  else
    let upper := toUpperCase (taskType tcc) in
    if (upper =? "FINANCIAL")%string then
      if negb (some_id constraints "SEC-003")
      then (violations
            ++ ["Financial task requires audit logging (SEC-003)"])%list
      else violations
    else if (upper =? "AUTHENTICATION")%string then
      if negb (some_id constraints "SEC-001")
      then (violations
            ++ ["Authentication task requires input validation (SEC-001)"])%list
      else violations
    else if (upper =? "API")%string then
      if negb (some_id constraints "PERF-001")
      then (violations
            ++ ["API task should have caching strategy (PERF-001)"])%list
      else violations
    else violations.

(** [executeConstraintCheck]: the exit code.  [now] is the clock read by
    [createTCC], [later] the clock read by [updateTCCWithSystemState]. *)
Definition executeConstraintCheck (now later : string)
    (taskId goal taskType : string) : Z :=
  let run : Settled Z :=
    (tcc <- TccGenerator.generateTCC toUpperCase loadSpecification
              taskConstraintsEntry now taskId goal taskType None None ;;
     constraints <- generateConstraints store tcc ;;
     let violations := checkForViolations constraints tcc in
     if (0 <? List.length violations)%nat then Fulfilled 1
     else
       let refreshed :=
         SystemStateRefresh.updateTCCWithSystemState later tcc in
       Fulfilled 0)%js in
  match run with
  | Fulfilled code => code
  | Rejected _ => 1
  end.

End WithCollaborators.

(** [args[i]] *)
Definition element (args : list string) (i : nat) : JsValue :=
  match nth_error args i with
  | Some s => VString s
  | None => VUndefined
  end.

(** The command line switch at the end of the file; [args] is
    [process.argv.slice(2)]. *)
Definition main (args : list string) : CliAction :=
  let command := element args 0 in
  match command with
  | VString command =>
      if (command =? "check")%string then
        if negb (List.length args =? 4)%nat then Exit 1
        else
          (* const [,, taskId, goal, taskType] = args *)
          ExecuteConstraintCheck (element args 2) (element args 3)
            (element args 4)
      else if (command =? "status")%string then ShowEvolutionStatus
      else if (command =? "migrate")%string then MigrateEvolution
      else Exit 0
  | _ => Exit 0
  end.

End CliInterface.

(* ===================================================================== *)
(** ** The constraint check as the command line runs it

    TypeScript types are erased at run time, and the command line switch
    passes [undefined] for [taskType].  [createTCC] stores its three
    arguments as they come; the rest of the capsule is built by the code
    itself and has its declared type. *)
(* ===================================================================== *)

Module Untyped.
Import TCC.

Record Capsule : Type := {
  taskId : JsValue;
  goal : JsValue;
  taskType : JsValue;
  context : Context;
  size : Z;
  version : string
}.

Definition set_size (tcc : Capsule) (n : Z) : Capsule :=
  {| taskId := taskId tcc; goal := goal tcc; taskType := taskType tcc;
     context := context tcc; size := n; version := version tcc |}.

Definition set_context (tcc : Capsule) (c : Context) : Capsule :=
  {| taskId := taskId tcc; goal := goal tcc; taskType := taskType tcc;
     context := c; size := size tcc; version := version tcc |}.

(** The capsule as a JavaScript object, properties in creation order. *)
Definition to_value (tcc : Capsule) : JsValue :=
  let c := context tcc in
  let st := systemState c in
  let ra := resourceAvailability st in
  VObject
    [ ("taskId", taskId tcc);
      ("goal", goal tcc);
      ("taskType", taskType tcc);
      ("context", VObject
         [ ("relevantConstraints",
             VArray (map VString (relevantConstraints c)));
           ("systemState", VObject
              [ ("loadLevel", VString (LoadLevel_to_string (loadLevel st)));
                ("dependencies", VArray (map VString (dependencies st)));
                ("resourceAvailability", VObject
                   [ ("cpu", VNumber (cpu ra));
                     ("memory", VNumber (memory ra));
                     ("network", VNumber (network ra)) ]);
                ("environment",
                  VString (Environment_to_string (environment st))) ]);
           ("creationTime", VString (creationTime c));
           ("source", VString (source c));
           ("priority", VString (Priority.to_string (priority c))) ]);
      ("size", VNumber (size tcc));
      ("version", VString (version tcc)) ].

(** A capsule of the declared type. *)
Definition typed (tcc : TaskContextCapsule) : Capsule :=
  {| taskId := VString (TCC.taskId tcc);
     goal := VString (TCC.goal tcc);
     taskType := VString (TCC.taskType tcc);
     context := TCC.context tcc;
     size := TCC.size tcc;
     version := TCC.version tcc |}.

(** [validateTCCSize] *)
Definition validateTCCSize (tcc : Capsule) : bool * Capsule :=
  let tccString := stringify (to_value tcc) in
  let byteSize := byte_size tccString in
  (byteSize <? 10240, set_size tcc byteSize).

(** [createTCC] *)
Definition createTCC (now : string) (taskId goal taskType : JsValue)
  : Capsule :=
  let tcc :=
    {| taskId := taskId;
       goal := goal;
       taskType := taskType;
       context :=
         {| relevantConstraints := [];
            systemState :=
              {| loadLevel := MED;
                 dependencies := [];
                 resourceAvailability :=
                   {| cpu := 50; memory := 50; network := 50 |};
                 environment := DEVELOPMENT |};
            creationTime := now;
            source := "user-request";
            priority := Priority.MEDIUM |};
       size := 0;
       version := "1.0" |} in
  snd (validateTCCSize tcc).

Section WithCollaborators.

Variable toUpperCase : string -> string.
Variable loadSpecification : JsValue -> Settled JsValue.
Variable taskConstraintsEntry : JsValue -> string -> SpecEntry.
Variable store : ConstraintGenerator.TemplateStore.

(** [extractRelevantConstraints].  When [tcc.taskType] is not a string,
    [tcc.taskType.toUpperCase()] throws a [TypeError] ([undefined] and
    [null] have no properties, the other values no such method); the
    [catch] of the function swallows it like a failed load. *)
Definition extractRelevantConstraints (tcc : Capsule) : Capsule :=
  match loadSpecification TccGenerator.bsl_schema_path with
  | Rejected _ => tcc
  | Fulfilled spec =>
      match taskType tcc with
      | VString type =>
          let relevantConstraints :=
            TccGenerator.constraintsForTaskType toUpperCase type in
          match taskConstraintsEntry spec type with
          | EntryNotIterable => tcc
          | EntryFalsy =>
              set_context tcc
                (set_relevantConstraints (context tcc)
                   (unique relevantConstraints))
          | EntryIterable ids =>
              set_context tcc
                (set_relevantConstraints (context tcc)
                   (unique (relevantConstraints ++ ids)%list))
          end
      | _ => tcc
      end
  end.

(** Body of the [try] block of [generateTCC], called with three
    arguments: [source] and [priority] take their defaults. *)
Definition generateTCC_body (now : string) (taskId goal taskType : JsValue)
  : Settled Capsule :=
  let tcc := createTCC now taskId goal taskType in
  let tcc := set_context tcc (set_source (context tcc) "user-request") in
  let tcc := set_context tcc (set_priority (context tcc) Priority.MEDIUM) in
  let tcc := extractRelevantConstraints tcc in
  let '(ok, tcc) := validateTCCSize tcc in
  if negb ok
  then Rejected (ErrorObject ("TCC size exceeds limit: "
                              ++ number_to_string (size tcc) ++ " bytes"))
  else Fulfilled tcc.

(** [generateTCC(taskId, goal, taskType)] *)
Definition generateTCC (now : string) (taskId goal taskType : JsValue)
  : Settled Capsule :=
  try_catch (generateTCC_body now taskId goal taskType)
    (fun error =>
       match error with
       | ErrorObject message =>
           Rejected (ErrorObject ("Failed to generate TCC: " ++ message))
       | NonError =>
           Rejected (ErrorObject "Failed to generate TCC: Unknown error")
       end).

(** The callback of [constraints.some(c => c.id === wanted)], run over
    the elements until it returns [true]. *)
Fixpoint some_id (items : list JsValue) (wanted : string) : Settled bool :=
  match items with
  | [] => Fulfilled false
  | c :: rest =>
      (id <- get_member c "id" ;;
       match id with
       | VString s =>
           if (s =? wanted)%string then Fulfilled true
           else some_id rest wanted
       | _ => some_id rest wanted
       end)%js
  end.

(** [constraints.some(c => c.id === wanted)] *)
Definition some (constraints : JsValue) (wanted : string) : Settled bool :=
  match constraints with
  | VArray items => some_id items wanted
  | VUndefined | VNull =>
      Rejected (ErrorObject ("Cannot read properties of "
                             ++ describe_nullish constraints
                             ++ " (reading 'some')"))
  | _ => Rejected (ErrorObject "constraints.some is not a function")
  end.

(** [checkForViolations]; the capsule is an object, so [!tcc] is false. *)
Definition checkForViolations (constraints : JsValue) (tcc : Capsule)
  : Settled (list string) :=
  let violations : list string := [] in
  if negb (truthy (taskType tcc)) then Fulfilled violations
  else
    match taskType tcc with
    | VString type =>
        let upper := toUpperCase type in
        if (upper =? "FINANCIAL")%string then
          (found <- some constraints "SEC-003" ;;
           if negb found
           then Fulfilled
                  (violations
                   ++ ["Financial task requires audit logging (SEC-003)"])%list
           else Fulfilled violations)%js
        else if (upper =? "AUTHENTICATION")%string then
          (found <- some constraints "SEC-001" ;;
           if negb found
           then Fulfilled
                  (violations
                   ++ ["Authentication task requires input validation (SEC-001)"])%list
           else Fulfilled violations)%js
        else if (upper =? "API")%string then
          (found <- some constraints "PERF-001" ;;
           if negb found
           then Fulfilled
                  (violations
                   ++ ["API task should have caching strategy (PERF-001)"])%list
           else Fulfilled violations)%js
        else Fulfilled violations
    | _ => Rejected (ErrorObject "tcc.taskType.toUpperCase is not a function")
    end.

(** [executeConstraintCheck]: the exit code.  The logging loop reads
    properties of the objects that [generateConstraints] built and cannot
    throw; [updateTCCWithSystemState] catches whatever its body throws,
    and the capsule is not used after it. *)
Definition executeConstraintCheck (now : string)
    (taskId goal taskType : JsValue) : Z :=
  let run : Settled Z :=
    (tcc <- generateTCC now taskId goal taskType ;;
     constraints <-
       ConstraintGenerator.generateConstraints_unchecked store
         (to_value tcc) ;;
     violations <- checkForViolations constraints tcc ;;
     if (0 <? List.length violations)%nat then Fulfilled 1
     else Fulfilled 0)%js in
  match run with
  | Fulfilled code => code
  | Rejected _ => 1
  end.

End WithCollaborators.

End Untyped.

(** *** The promise that nobody awaits

    [handleCheckConstraints] stores the promise of the un-awaited
    [generateConstraints] call in [result.constraints] and returns;
    nothing ever attaches a handler to that promise.  When it is
    rejected, Node reports an unhandled rejection: in its default mode
    (since version 15) it raises it as an uncaught exception, and the
    process ends with exit code 1 once the answer has been produced. *)
Definition unhandled_rejection (response : McpResponse) : option Thrown :=
  match Response.result response with
  | Some result =>
      match own_property result "constraints" with
      | VPromise (Rejected e) => Some e
      | _ => None
      end
  | None => None
  end.

(* ===================================================================== *)
(** ** integration/mcp: the two transports *)
(* ===================================================================== *)

(** The request handed to [handleMcpRequest] is [JSON.parse] of the wire
    text, of any shape.  Seen as an [McpRequest] it has the properties
    that the handlers read. *)
Definition as_request (request : JsValue) (method : string) : McpRequest :=
  {| Request.method := method;
     Request.params := own_property request "params";
     Request.id := own_property request "id" |}.

Record HttpResponse : Type := {
  status : Z;
  headers : list (string * string);
  body : option string
}.

Module HttpTransport.

(** [handleMcpRequest] of McpAdapter.ts on a parsed body.  On [null] the
    read of [request.method] throws inside the [try], and the read of
    [request.id] throws again inside the [catch]: the promise rejects.
    A method that is not a string reaches the [default] of the switch. *)
Definition handleMcpRequest_unchecked (rt : Runtime) (request : JsValue)
  : Settled McpResponse :=
  if nullish request then
    Rejected (ErrorObject ("Cannot read properties of "
                           ++ describe_nullish request ++ " (reading 'id')"))
  else
    match own_property request "method" with
    | VString method => McpAdapter.handleMcpRequest rt (as_request request method)
    | _ =>
        Fulfilled (error_response (-32601) "Method not found"
                     (own_property request "id"))
    end.

Definition preflight_headers : list (string * string) :=
  [ ("Access-Control-Allow-Origin", "*");
    ("Access-Control-Allow-Methods", "POST, GET, OPTIONS");
    ("Access-Control-Allow-Headers", "Content-Type") ].

Definition json_headers : list (string * string) :=
  [ ("Content-Type", "application/json");
    ("Access-Control-Allow-Origin", "*") ].

Section WithParser.

Variable JSON_parse : string -> Settled JsValue.

(** The request listener of [initializeMcpServer]: [verb] is
    [req.method], [chunks] the data events of the request body. *)
Definition requestListener (rt : Runtime) (verb : string)
    (chunks : list string) : HttpResponse :=
  if (verb =? "OPTIONS")%string then
    {| status := 204; headers := preflight_headers; body := None |}
  else if negb (verb =? "POST")%string then
    let response :=
      error_response (-32600) "Method not allowed"
        (VString "method-not-allowed") in
    {| status := 200; headers := json_headers;
       body := Some (stringify (Response.to_value response)) |}
  else
    let body := fold_left append chunks "" in
    let answered :=
      (request <- JSON_parse body ;;
       handleMcpRequest_unchecked rt request)%js in
    match answered with
    | Fulfilled response =>
        {| status := 200; headers := json_headers;
           body := Some (stringify (Response.to_value response)) |}
    | Rejected _ =>
        let response :=
          error_response (-32700) "Parse error" (VString "parse-error") in
        {| status := 200; headers := json_headers;
           body := Some (stringify (Response.to_value response)) |}
    end.

End WithParser.

End HttpTransport.

(** What the data handler of the stdio server does for one complete
    line: it starts [handleMcpRequest] on the parsed request without
    awaiting it, or writes a chunk itself. *)
Inductive StdioAction : Type :=
| Dispatch (request : JsValue)
| Write (chunk : string).

Module StdioTransport.

(** The promise that [handleMcpRequest(request)] of McpStdioServer.ts
    returns on a parsed line: fulfilled with the chunks that the call has
    written, or rejected with what the function throws out of its [catch]
    clause.  On [null] the read of [request.method] throws inside the
    [try] and the read of [request.id] throws again inside the [catch].
    A method that is not a string reaches the [default] of the switch. *)
Definition handleMcpRequest_promise (rt : Runtime) (request : JsValue)
  : Settled (list string) :=
  try_catch
    (method <- get_member request "method" ;;
     match method with
     | VString method =>
         Fulfilled
           (McpStdioServer.handleMcpRequest rt (as_request request method))
     | _ =>
         id <- get_member request "id" ;;
         Fulfilled
           [response_line (error_response (-32601) "Method not found" id)]
     end)%js
    (fun error =>
       (id <- get_member request "id" ;;
        Fulfilled
          [response_line
             (error_response (-32603) (message_or error "Internal error")
                id)])%js).

(** The chunks that the call writes: none when the promise is rejected. *)
Definition handleMcpRequest_unchecked (rt : Runtime) (request : JsValue)
  : list string :=
  match handleMcpRequest_promise rt request with
  | Fulfilled chunks => chunks
  | Rejected _ => []
  end.

(** The rejections that nothing handles once [handleMcpRequest(request)]
    has run and settled: the data handler drops the promise of the call,
    and [handleCheckConstraints] leaves the promise of
    [generateConstraints] un-awaited. *)
Definition unhandled (rt : Runtime) (request : JsValue) : list Thrown :=
  match handleMcpRequest_promise rt request with
  | Rejected e => [e]
  | Fulfilled _ =>
      match own_property request "method" with
      | VString method =>
          if (method =? "checkConstraints")%string then
            match McpStdioServer.handleCheckConstraints rt
                    (as_request request method) with
            | Fulfilled response =>
                match unhandled_rejection response with
                | Some e => [e]
                | None => []
                end
            | Rejected _ => []
            end
          else []
      | _ => []
      end
  end.

(** The process: it runs, or it has exited.  Node ends the process with
    exit code 1 on an unhandled rejection. *)
Inductive Fate : Type :=
| Running
| Exited (code : Z).

(** The process once the requests started by [actions] have settled. *)
Definition fate_after (rt : Runtime) (actions : list StdioAction) : Fate :=
  if existsb
       (fun action =>
          match action with
          | Dispatch request =>
              match unhandled rt request with
              | [] => false
              | _ :: _ => true
              end
          | Write _ => false
          end) actions
  then Exited 1
  else Running.

(** The server between two ['data'] events. *)
Record Server : Type := {
  buffer : string;
  fate : Fate
}.

(** [buffer.indexOf('\n')]; [None] stands for -1. *)
Fixpoint indexOf_newline (buffer : string) : option nat :=
  match buffer with
  | EmptyString => None
  | String c rest =>
      if Ascii.eqb c (ascii_of_N 10) then Some O
      else match indexOf_newline rest with
           | Some i => Some (S i)
           | None => None
           end
  end.

(** [s.slice(start)] *)
Definition slice_from (start : nat) (s : string) : string :=
  substring start (String.length s - start) s.

Section WithParser.

Variable JSON_parse : string -> Settled JsValue.

(** [String.prototype.trim] *)
Variable trim : string -> string.

Definition parse_error_line : string :=
  response_line (error_response (-32700) "Parse error" (VString "parse-error")).

(** The body of [if (message.trim())]. *)
Definition process_message (message : string) : list StdioAction :=
  if (trim message =? "")%string then []
  else
    match JSON_parse message with
    | Fulfilled request => [Dispatch request]
    | Rejected _ => [Write parse_error_line]
    end.

(** [while (buffer.includes('\n')) { ... }], at most [turns] turns: the
    actions taken and the buffer left. *)
Fixpoint drain (turns : nat) (buffer : string)
  : list StdioAction * string :=
  match turns with
  | O => ([], buffer)
  | S turns' =>
      match indexOf_newline buffer with
      | None => ([], buffer)
      | Some newlineIndex =>
          let message := substring 0 newlineIndex buffer in
          let buffer := slice_from (newlineIndex + 1) buffer in
          let '(actions, remaining) := drain turns' buffer in
          ((process_message message ++ actions)%list, remaining)
      end
  end.

(** The ['data'] handler on the text [chunk.toString()] of the chunk:
    [buffer += chunk.toString()], then the loop.  Every turn removes at
    least one character, so the length of the buffer bounds the number of
    turns. *)
Definition on_data (buffer chunk : string) : list StdioAction * string :=
  let buffer := buffer ++ chunk in
  drain (String.length buffer) buffer.

(** [chunk.toString()] on the bytes that stdin delivers: every chunk is
    decoded on its own, and the bytes of a character that the chunk does
    not hold completely are replaced. *)
Variable decode : string -> string.

(** One ['data'] event, with the bytes of the chunk, on a server whose
    earlier requests have settled.  A process that has exited handles
    nothing. *)
Definition receive (rt : Runtime) (server : Server) (bytes : string)
  : list StdioAction * Server :=
  match fate server with
  | Exited _ => ([], server)
  | Running =>
      let '(actions, remaining) := on_data (buffer server) (decode bytes) in
      (actions, {| buffer := remaining; fate := fate_after rt actions |})
  end.

(** The chunks written for a list of actions when each started request is
    answered before the next action. *)
Definition written (rt : Runtime) (actions : list StdioAction) : list string :=
  flat_map
    (fun action =>
       match action with
       | Dispatch request => handleMcpRequest_unchecked rt request
       | Write chunk => [chunk]
       end)
    actions.

End WithParser.

(** The ['error'] handler of stdin. *)
Definition on_error (message : string) : list string :=
  [response_line (error_response (-32603) ("Internal error: " ++ message)
                    (VString "server-error"))].

End StdioTransport.

(** A string holds a line feed. *)
Fixpoint has_newline (s : string) : bool :=
  match s with
  | EmptyString => false
  | String c rest => Ascii.eqb c (ascii_of_N 10) || has_newline rest
  end.

(* ===================================================================== *)
(** ** Vocabulary of the specification *)
(* ===================================================================== *)

Module TemplateStoreSpec.
Import ConstraintGenerator.

(** The templates that a partition holds: its records named [*.json] that
    can be read and parsed, in store order. *)
Definition storedTemplates (files : list TemplateFile)
  : list ConstraintTemplate :=
  flat_map
    (fun file =>
       if endsWith (fileName file) ".json" then
         match parsed file with
         | Fulfilled template => [template]
         | Rejected _ => []
         end
       else [])
    files.

(** The result that section 4.1 of the specification describes: for each
    readable partition in turn, every stored template that applies. *)
Definition statedResult (store : TemplateStore) (taskType : string)
  : list ConstraintTemplate :=
  flat_map
    (fun dir =>
       match dir with
       | Fulfilled files =>
           filter (applies (VString taskType)) (storedTemplates files)
       | Rejected _ => []
       end)
    (templateDirs store).

(** The records of a partition up to, and without, the first [*.json]
    record that cannot be read or parsed. *)
Fixpoint scannedFiles (files : list TemplateFile) : list TemplateFile :=
  match files with
  | [] => []
  | file :: rest =>
      if endsWith (fileName file) ".json" then
        match parsed file with
        | Rejected _ => []
        | Fulfilled _ => file :: scannedFiles rest
        end
      else file :: scannedFiles rest
  end.

Definition scannedResult (store : TemplateStore) (taskType : string)
  : list ConstraintTemplate :=
  flat_map
    (fun dir =>
       match dir with
       | Fulfilled files =>
           filter (applies (VString taskType))
             (storedTemplates (scannedFiles files))
       | Rejected _ => []
       end)
    (templateDirs store).

(** Every [*.json] record of every readable partition can be read and
    parsed. *)
Definition wellFormedDirectory (dir : Directory) : Prop :=
  match dir with
  | Rejected _ => True
  | Fulfilled files =>
      Forall (fun file =>
                endsWith (fileName file) ".json" = true ->
                exists template, parsed file = Fulfilled template)
        files
  end.

Definition wellFormed (store : TemplateStore) : Prop :=
  Forall wellFormedDirectory (templateDirs store).

(** A constraint that copies a template field for field. *)
Definition copied (template : ConstraintTemplate) (c : Constraint) : Prop :=
  id c = Template.id template
  /\ name c = Template.name template
  /\ category c = Template.category template
  /\ description c = Template.description template
  /\ rule c = Template.rule template
  /\ applicableTasks c = Template.applicableTasks template
  /\ severity c = Template.severity template.

(** A constraint synthesised from an entry of
    [context.relevantConstraints]. *)
Definition synthesized (taskType : string) (entry : string) (c : Constraint)
  : Prop :=
  id c = entry
  /\ name c = entry
  /\ category c = OTHER
  /\ description c = "Constraint from task context"
  /\ rule c = "context." ++ entry
  /\ applicableTasks c = [taskType]
  /\ severity c = WARNING.

End TemplateStoreSpec.

Module TemplateRecordsSpec.
Import TemplateRecords.

(** [task] is found in [applicableTasks]: as an element when that is an
    array, as a part of the text when it is a string. *)
Definition holds (applicableTasks : JsValue) (task : string) : bool :=
  match applicableTasks with
  | VArray items =>
      existsb (fun element =>
                 match element with
                 | VString s => (s =? task)%string
                 | _ => false
                 end) items
  | VString text => occurs_in task text
  | _ => false
  end.

(** The record is returned for [taskType]. *)
Definition matches (taskType : string) (record : JsValue) : bool :=
  let applicableTasks := own_property record "applicableTasks" in
  holds applicableTasks taskType || holds applicableTasks "ALL".

(** The test can be made on the record: its [applicableTasks] is an
    array or a string.  On every other record -- [null], a value without
    [applicableTasks], an [applicableTasks] that is a number, a boolean,
    [null] or an object -- the test raises. *)
Definition testable (record : JsValue) : bool :=
  match own_property record "applicableTasks" with
  | VArray _ | VString _ => true
  | _ => false
  end.

(** The records of the [*.json] entries of a partition that are tested
    before the first entry that cannot be read or parsed or whose record
    is not testable. *)
Fixpoint scannedRecords (files : list File) : list JsValue :=
  match files with
  | [] => []
  | file :: rest =>
      if endsWith (fileName file) ".json" then
        match parsed file with
        | Fulfilled record =>
            if testable record then record :: scannedRecords rest else []
        | Rejected _ => []
        end
      else scannedRecords rest
  end.

Definition scannedResult (store : Store) (taskType : string)
  : list JsValue :=
  flat_map
    (fun dir =>
       match dir with
       | Fulfilled files => filter (matches taskType) (scannedRecords files)
       | Rejected _ => []
       end)
    (templateDirs store).

(** The records that a partition holds: those of its [*.json] entries
    that can be read and parsed, in store order. *)
Definition storedRecords (files : list File) : list JsValue :=
  flat_map
    (fun file =>
       if endsWith (fileName file) ".json" then
         match parsed file with
         | Fulfilled record => [record]
         | Rejected _ => []
         end
       else [])
    files.

(** [applicableTasks] is a list that contains [taskType] itself or
    "ALL". *)
Definition listed (taskType : string) (record : JsValue) : bool :=
  match own_property record "applicableTasks" with
  | VArray items =>
      existsb (fun element => same_value element (VString taskType)) items
      || existsb (fun element => same_value element (VString "ALL")) items
  | _ => false
  end.

(** The result that section 4.1 of the specification describes: for each
    readable partition in turn, every stored record whose list of
    applicable tasks contains the task type or "ALL". *)
Definition statedResult (store : Store) (taskType : string) : list JsValue :=
  flat_map
    (fun dir =>
       match dir with
       | Fulfilled files => filter (listed taskType) (storedRecords files)
       | Rejected _ => []
       end)
    (templateDirs store).

(** Every [*.json] entry of every readable partition can be read and
    parsed, and its record has a list as [applicableTasks]. *)
Definition wellFormedDirectory (dir : Directory) : Prop :=
  match dir with
  | Rejected _ => True
  | Fulfilled files =>
      Forall (fun file =>
                endsWith (fileName file) ".json" = true ->
                exists record items,
                  parsed file = Fulfilled record
                  /\ own_property record "applicableTasks" = VArray items)
        files
  end.

Definition wellFormed (store : Store) : Prop :=
  Forall wellFormedDirectory (templateDirs store).

End TemplateRecordsSpec.

(** [request] is answered by [response] on both transports: McpAdapter
    returns it to the HTTP layer, McpStdioServer writes it as one line. *)
Definition dispatches (rt : Runtime) (request : McpRequest)
    (response : McpResponse) : Prop :=
  McpAdapter.handleMcpRequest rt request = Fulfilled response
  /\ McpStdioServer.handleMcpRequest rt request = [response_line response].

(** The object [params] has no property [key]. *)
Definition lacks (params : JsValue) (key : string) : Prop :=
  nullish params = false /\ own_property params key = VUndefined.

(** [v] is an array of [n] elements. *)
Definition array_of_length (v : JsValue) (n : nat) : Prop :=
  exists items, v = VArray items /\ List.length items = n.

(** [t] occurs in [s]. *)
Definition contains (s t : string) : Prop :=
  exists before after, s = before ++ t ++ after.

(* ===================================================================== *)
(** ** Sample data *)
(* ===================================================================== *)

(** The capsule of test/integration/McpAdapter.test.ts. *)
Definition testTcc : TCC.TaskContextCapsule :=
  {| TCC.taskId := "T001";
     TCC.goal := "ProcessPayment";
     TCC.taskType := "financial";
     TCC.context :=
       {| TCC.relevantConstraints := ["InputValidation@PaymentService"];
          TCC.systemState :=
            {| TCC.loadLevel := TCC.MED;
               TCC.dependencies := [];
               TCC.resourceAvailability :=
                 {| TCC.cpu := 50; TCC.memory := 50; TCC.network := 50 |};
               TCC.environment := TCC.DEVELOPMENT |};
          TCC.creationTime := sample_now;
          TCC.source := "user-request";
          TCC.priority := TCC.Priority.MEDIUM |};
     TCC.size := 0;
     TCC.version := "1.0" |}.

Fixpoint repeat_char (c : ascii) (n : nat) : string :=
  match n with
  | O => EmptyString
  | S k => String c (repeat_char c k)
  end.

(** A goal text of 10240 letters. *)
Definition long_goal : string := repeat_char "a"%char (Z.to_nat 10240).

(** A specification service whose global document cannot be read. *)
Definition unreadable_specification (path : JsValue) : Settled JsValue :=
  (text <- ToString path ;;
   Rejected (ErrorObject ("Failed to load specification from "
                          ++ text ++ ": ENOENT")))%js.

(** A specification service that returns a document without task-specific
    constraints. *)
Definition plain_specification (path : JsValue) : Settled JsValue :=
  Fulfilled (VObject [("SOF", VString "Maximize(UserValue) - 0.2*Complexity")]).

Definition no_entry (spec : JsValue) (taskType : string) : SpecEntry :=
  EntryFalsy.

(** A specification that lists two identifiers for the task type
    [financial]. *)
Definition financial_specification : JsValue :=
  VObject
    [("SOF", VString "Maximize(UserValue) - 0.2*Complexity");
     ("metadata",
       VObject
         [("taskConstraints",
            VObject
              [("financial", VArray [VString "SEC-002"; VString "X-1"])])])].

(** A specification whose [metadata.taskConstraints] is the empty
    object. *)
Definition empty_taskConstraints : JsValue :=
  VObject [("SOF", VString "Maximize(UserValue) - 0.2*Complexity");
           ("metadata", VObject [("taskConstraints", VObject [])])].

(** Two templates and two states of the template directories. *)
Definition input_validation : ConstraintGenerator.ConstraintTemplate :=
  {| ConstraintGenerator.Template.id := "SEC-001";
     ConstraintGenerator.Template.name := "Input validation";
     ConstraintGenerator.Template.category := ConstraintGenerator.SECURITY;
     ConstraintGenerator.Template.description := "All input is validated";
     ConstraintGenerator.Template.rule := "validate(input)";
     ConstraintGenerator.Template.applicableTasks := ["ALL"];
     ConstraintGenerator.Template.severity := ConstraintGenerator.ERROR |}.

Definition response_time : ConstraintGenerator.ConstraintTemplate :=
  {| ConstraintGenerator.Template.id := "PERF-001";
     ConstraintGenerator.Template.name := "Response time";
     ConstraintGenerator.Template.category := ConstraintGenerator.PERFORMANCE;
     ConstraintGenerator.Template.description := "Response time under 500ms";
     ConstraintGenerator.Template.rule := "latency < 500";
     ConstraintGenerator.Template.applicableTasks := ["API"; "DATABASE"];
     ConstraintGenerator.Template.severity := ConstraintGenerator.WARNING |}.

Definition enoent : Thrown := ErrorObject "ENOENT: no such file or directory".

(** security holds a non-template file and one template, performance one
    template, architecture does not exist. *)
Definition sample_store : ConstraintGenerator.TemplateStore :=
  {| ConstraintGenerator.security :=
       Fulfilled
         [ {| ConstraintGenerator.fileName := "README.md";
              ConstraintGenerator.parsed := Rejected NonError |};
           {| ConstraintGenerator.fileName := "sec-001.json";
              ConstraintGenerator.parsed := Fulfilled input_validation |} ];
     ConstraintGenerator.performance :=
       Fulfilled
         [ {| ConstraintGenerator.fileName := "perf-001.json";
              ConstraintGenerator.parsed := Fulfilled response_time |} ];
     ConstraintGenerator.architecture := Rejected enoent |}.

(** security holds a file that is not JSON, followed by a template. *)
Definition broken_store : ConstraintGenerator.TemplateStore :=
  {| ConstraintGenerator.security :=
       Fulfilled
         [ {| ConstraintGenerator.fileName := "broken.json";
              ConstraintGenerator.parsed :=
                Rejected (ErrorObject "Unexpected end of JSON input") |};
           {| ConstraintGenerator.fileName := "sec-001.json";
              ConstraintGenerator.parsed := Fulfilled input_validation |} ];
     ConstraintGenerator.performance := Rejected enoent;
     ConstraintGenerator.architecture := Rejected enoent |}.

(** A record whose [applicableTasks] is a text instead of a list, and a
    partition that holds it before sec-001.json. *)
Definition text_record : JsValue :=
  VObject [("id", VString "S-STR");
           ("name", VString "Statement signing");
           ("applicableTasks", VString "FINANCIAL,API")].

Definition text_store : TemplateRecords.Store :=
  {| TemplateRecords.security :=
       Fulfilled
         [ {| TemplateRecords.fileName := "s-str.json";
              TemplateRecords.parsed := Fulfilled text_record |};
           {| TemplateRecords.fileName := "sec-001.json";
              TemplateRecords.parsed :=
                Fulfilled
                  (ConstraintGenerator.Template_to_value input_validation) |} ];
     TemplateRecords.performance := Rejected enoent;
     TemplateRecords.architecture := Rejected enoent |}.

(** The specification service of the integration test: two known paths,
    every other path fails.  [no-context.json] is added: a document that
    was saved without its [context]. *)
Definition testSpec : JsValue :=
  VObject [("SOF", VString "Maximize(UserValue) - 0.2*Complexity");
           ("BSL", VArray [VString "NO_DEADLOCK"; VString "MINIMAL_PRIVILEGE"])].

Definition headless_document : JsValue :=
  VObject [("taskId", VString "T002"); ("goal", VString "ListUsers");
           ("taskType", VString "API")].

Definition test_loadSpecification (path : JsValue) : Settled JsValue :=
  match path with
  | VString p =>
      if (p =? "test-spec.json")%string then Fulfilled testSpec
      else if (p =? "test-tcc.json")%string then Fulfilled (TCC.to_value testTcc)
      else if (p =? "no-context.json")%string then Fulfilled headless_document
      else Rejected (ErrorObject ("File not found: " ++ p))
  | _ => Rejected (ErrorObject "File not found")
  end.

Definition test_runtime : Runtime :=
  {| loadSpecification := test_loadSpecification;
     templates := sample_store;
     now := sample_now;
     uptime := VNumber 12 |}.

Definition check_request (tccPath specPath : string) (id : Z) : McpRequest :=
  {| Request.method := "checkConstraints";
     Request.params := VObject [("tccPath", VString tccPath);
                                ("specPath", VString specPath)];
     Request.id := VNumber id |}.

(** A file system, a parser and a schema validator for runs of the
    specification service: spec.json holds an empty object, list.json an
    empty array that the schema refuses, number.json a number on which the
    validator fails, broken.json text that is not JSON; every other path
    is missing. *)
Definition sample_readFile (path : JsValue) : Settled string :=
  match path with
  | VString p =>
      if (p =? "spec.json")%string then Fulfilled "{}"
      else if (p =? "list.json")%string then Fulfilled "[]"
      else if (p =? "broken.json")%string then Fulfilled "{"
      else if (p =? "number.json")%string then Fulfilled "5"
      else Rejected (ErrorObject
                       ("ENOENT: no such file or directory, open '"
                        ++ p ++ "'"))
  | _ => Rejected (ErrorObject "The path argument must be of type string")
  end.

(** The text of a request envelope without params. *)
Definition envelope_text (method : string) (id : Z) : string :=
  "{" ++ quote "method" ++ ":" ++ quote method ++ "," ++ quote "id" ++ ":"
      ++ number_to_string id ++ "}".

Definition envelope_value (method : string) (id : Z) : JsValue :=
  VObject [("method", VString method); ("id", VNumber id)].

(** A parser that knows a handful of texts. *)
Definition sample_parse (text : string) : Settled JsValue :=
  if (text =? "{}")%string then Fulfilled (VObject [])
  else if (text =? "[]")%string then Fulfilled (VArray [])
  else if (text =? "null")%string then Fulfilled VNull
  else if (text =? "5")%string then Fulfilled (VNumber 5)
  else if (text =? envelope_text "getSystemStatus" 3)%string
       then Fulfilled (envelope_value "getSystemStatus" 3)
  else if (text =? envelope_text "unknownMethod" 5)%string
       then Fulfilled (envelope_value "unknownMethod" 5)
  else Rejected (ErrorObject "Unexpected token in JSON").

Definition sample_schemaValidate (spec : JsValue)
  : Settled (bool * list string) :=
  match spec with
  | VObject _ => Fulfilled (true, [])
  | VArray _ =>
      Fulfilled (false, ["is not of a type(s) object"; "requires property SOF"])
  | _ => Rejected (ErrorObject "ENOENT: bsl.schema.json")
  end.

Definition sample_loadSpecification : JsValue -> Settled JsValue :=
  SpecificationManager.loadSpecification sample_readFile sample_parse
    sample_schemaValidate.

Definition file_runtime : Runtime :=
  {| loadSpecification := sample_loadSpecification;
     templates := sample_store;
     now := sample_now;
     uptime := VNumber 12 |}.

(** [trim] on ASCII text: blanks, tabs and line ends are removed at both
    ends. *)
Definition ascii_space (c : ascii) : bool :=
  let n := N_of_ascii c in
  ((n =? 32) || ((9 <=? n) && (n <=? 13)))%N.

Fixpoint trim_left (s : string) : string :=
  match s with
  | String c rest => if ascii_space c then trim_left rest else s
  | EmptyString => EmptyString
  end.

Fixpoint reverse_onto (s acc : string) : string :=
  match s with
  | EmptyString => acc
  | String c rest => reverse_onto rest (String c acc)
  end.

Definition ascii_trim (s : string) : string :=
  reverse_onto (trim_left (reverse_onto (trim_left s) "")) "".

(* ===================================================================== *)
(** ** Runs on concrete inputs *)
(* ===================================================================== *)

Example stringify_sample :
  stringify (VObject [("a", VNumber 10); ("b", VUndefined);
                      ("c", VArray [VString "x"; VUndefined; VNull]);
                      ("d", VPromise (Fulfilled (VArray [])));
                      ("e", VNumber 0); ("f", VNumber (-3))])
  = "{" ++ quote "a" ++ ":10," ++ quote "c" ++ ":[" ++ quote "x"
        ++ ",null,null]," ++ quote "d" ++ ":{}," ++ quote "e" ++ ":0,"
        ++ quote "f" ++ ":-3}".
Proof. reflexivity. Qed.

Example createTCC_sample :
  TCC.size (TCC.createTCC sample_now "T001" "ProcessPayment" "financial") = 351.
Proof. vm_compute. reflexivity. Qed.

Example generateTCC_financial :
  exists tcc,
    TccGenerator.generateTCC ascii_toUpperCase
      (fun _ => Fulfilled (VObject [])) (fun _ _ => EntryIterable ["SEC-002"; "X-1"])
      sample_now "T001" "ProcessPayment" "financial" None None
    = Fulfilled tcc
    /\ TCC.relevantConstraints (TCC.context tcc)
       = ["SEC-002"; "SEC-003"; "PERF-002"; "X-1"]
    /\ TCC.size tcc = 389.
Proof. eexists. vm_compute. repeat split. Qed.

Example number_to_string_samples :
  number_to_string 0 = "0" /\ number_to_string 10240 = "10240"
  /\ number_to_string (-32601) = "-32601".
Proof. repeat split. Qed.

Example quote_samples :
  quote "SEC-001" = dquote ++ "SEC-001" ++ dquote
  /\ quote_body (String (ascii_of_N 34) (String (ascii_of_N 10) "a\b"))
     = "\" ++ dquote ++ "\n" ++ "a\\b"
  /\ quote_body (String (ascii_of_N 31) EmptyString) = "\u001f".
Proof. repeat split. Qed.

Example unique_sample :
  unique ["SEC-002"; "SEC-003"; "SEC-002"; "PERF-002"; "SEC-003"]
  = ["SEC-002"; "SEC-003"; "PERF-002"].
Proof. reflexivity. Qed.

Example endsWith_samples :
  endsWith "sec-001.json" ".json" = true
  /\ endsWith ".json" ".json" = true
  /\ endsWith "json" ".json" = false
  /\ endsWith "sec-001.json.bak" ".json" = false.
Proof. repeat split. Qed.

(** The getSystemStatus request of the integration test, id 3. *)
Example getSystemStatus_sample :
  dispatches test_runtime
    {| Request.method := "getSystemStatus"; Request.params := VUndefined;
       Request.id := VNumber 3 |}
    (result_response
       (VObject [("status", VString "running"); ("version", VString "1.0.0");
                 ("uptime", VNumber 12); ("timestamp", VString sample_now)])
       (VNumber 3)).
Proof. split; reflexivity. Qed.

(* ===================================================================== *)
(** ** Properties of core/types/TCC.ts *)
(* ===================================================================== *)

Section TCC_facts.
Import TCC.

Lemma validateTCCSize_capsule (tcc : TaskContextCapsule) :
  snd (validateTCCSize tcc)
  = set_size tcc (byte_size (stringify (to_value tcc))).
Proof. reflexivity. Qed.

Lemma validateTCCSize_result (tcc : TaskContextCapsule) :
  fst (validateTCCSize tcc) = (byte_size (stringify (to_value tcc)) <? 10240).
Proof. reflexivity. Qed.

Lemma createTCC_fields (now taskId goal taskType : string) :
  let tcc := createTCC now taskId goal taskType in
  TCC.taskId tcc = taskId /\ TCC.goal tcc = goal
  /\ TCC.taskType tcc = taskType
  /\ relevantConstraints (context tcc) = []
  /\ source (context tcc) = "user-request"
  /\ priority (context tcc) = Priority.MEDIUM
  /\ creationTime (context tcc) = now
  /\ version tcc = "1.0".
Proof. cbv zeta. unfold createTCC. rewrite validateTCCSize_capsule.
  simpl. repeat split. Qed.

End TCC_facts.

Lemma length_append (s t : string) :
  String.length (s ++ t) = (String.length s + String.length t)%nat.
Proof. induction s as [|c s IH]; simpl; [reflexivity | now rewrite IH]. Qed.

(** Writing [size] changes the serialised length by the change in the
    number of digits of [size], and by nothing else. *)
Lemma serialised_length_after_update (tcc : TCC.TaskContextCapsule) (n : Z) :
  byte_size (stringify (TCC.to_value (TCC.set_size tcc n)))
  - Z.of_nat (String.length (number_to_string n))
  = byte_size (stringify (TCC.to_value tcc))
    - Z.of_nat (String.length (number_to_string (TCC.size tcc))).
Proof.
  destruct tcc as [a b c ctx sz v].
  unfold byte_size, stringify, TCC.to_value, TCC.set_size.
  cbn [TCC.taskId TCC.goal TCC.taskType TCC.context TCC.size TCC.version].
  cbn [JSON_stringify flat_map snd fst app join].
  rewrite !length_append.
  lia.
Qed.

Lemma number_to_string_two_digits (n : Z) :
  10 <= n -> (2 <= String.length (number_to_string n))%nat.
Proof.
  intro Hn. destruct n as [|p|p]; try lia.
  unfold number_to_string. cbn [Z.to_int NilZero.string_of_int].
  pose proof (Unsigned.of_to p) as Hp.
  destruct (Pos.to_uint p) as [|d|d|d|d|d|d|d|d|d|d];
    try (cbn in Hp; discriminate Hp);
    (destruct d as [|e|e|e|e|e|e|e|e|e|e];
     [ vm_compute in Hp;
       first [ discriminate Hp | injection Hp as Hp; subst p; lia ]
     | cbn; lia .. ]).
Qed.

(** Every capsule that [createTCC] returns serialises to more bytes than
    its [size] says: [size] was measured while the object still held
    [size: 0]. *)
Lemma createTCC_size_below_own_length (now taskId goal taskType : string) :
  let tcc := TCC.createTCC now taskId goal taskType in
  TCC.size tcc < byte_size (stringify (TCC.to_value tcc)).
Proof.
  cbv zeta. unfold TCC.createTCC.
  match goal with
  | |- context [TCC.validateTCCSize ?t] => set (fresh := t)
  end.
  rewrite validateTCCSize_capsule.
  pose proof (serialised_length_after_update fresh
                (byte_size (stringify (TCC.to_value fresh)))) as Hlen.
  change (TCC.size fresh) with 0 in Hlen.
  assert (Hbig : 10 <= byte_size (stringify (TCC.to_value fresh))).
  { unfold byte_size, stringify, fresh, TCC.to_value.
    cbn [TCC.taskId TCC.goal TCC.taskType TCC.context TCC.size TCC.version].
    cbn [JSON_stringify flat_map snd fst app join].
    unfold quote. rewrite !length_append. cbn [String.length dquote]. lia. }
  pose proof (number_to_string_two_digits _ Hbig) as Hdigits.
  change (String.length (number_to_string 0)) with 1%nat in Hlen.
  cbn [TCC.size TCC.set_size]. lia.
Qed.

(** C4, as amended.  [validateTCCSize] stores in [size] the byte length of
    the serialised form that the capsule has when the call begins -- the
    text that still carries the previous value of [size] -- and returns
    [true] exactly when that length is below 10240; no other field
    changes.  The capsule as it is after the call serialises to that length
    plus the number of digits of the new [size] minus the number of digits
    of the previous one. *)
Theorem C4_validateTCCSize_measures_the_capsule_as_passed :
  forall tcc : TCC.TaskContextCapsule,
    let measured := byte_size (stringify (TCC.to_value tcc)) in
    let updated := snd (TCC.validateTCCSize tcc) in
    TCC.size updated = measured
    /\ (fst (TCC.validateTCCSize tcc) = true <-> measured < 10240)
    /\ (fst (TCC.validateTCCSize tcc) = false <-> 10240 <= measured)
    /\ updated = TCC.set_size tcc measured
    /\ byte_size (stringify (TCC.to_value updated))
       = measured
         + Z.of_nat (String.length (number_to_string measured))
         - Z.of_nat (String.length (number_to_string (TCC.size tcc))).
Proof.
  intros tcc measured updated. unfold updated.
  rewrite validateTCCSize_result, validateTCCSize_capsule. fold measured.
  split; [reflexivity|].
  split; [apply Z.ltb_lt|].
  split; [apply Z.ltb_ge|].
  split; [reflexivity|].
  pose proof (serialised_length_after_update tcc measured) as Hlen.
  fold measured in Hlen. lia.
Qed.

(** C4, as stated, fails: after [validateTCCSize] has run on the capsule of
    the integration test (whose [size] is 0), [size] is 383 while the
    capsule now serialises to 385 bytes. *)
Lemma C4_size_differs_from_own_serialised_length :
  TCC.size (snd (TCC.validateTCCSize testTcc)) = 383
  /\ byte_size (stringify (TCC.to_value (snd (TCC.validateTCCSize testTcc))))
     = 385
  /\ TCC.size (snd (TCC.validateTCCSize testTcc))
     <> byte_size
          (stringify (TCC.to_value (snd (TCC.validateTCCSize testTcc)))).
Proof. vm_compute. repeat split. discriminate. Qed.

(* ===================================================================== *)
(** ** Properties of core/specification/TccGenerator.ts *)
(* ===================================================================== *)

Section TccGenerator_facts.
Import TCC TccGenerator.

Variable toUpperCase : string -> string.
Variable loadSpecification : JsValue -> Settled JsValue.
Variable taskConstraintsEntry : JsValue -> string -> SpecEntry.

Let extract := extractRelevantConstraints toUpperCase loadSpecification
                 taskConstraintsEntry.
Let candidate := capsule_under_check toUpperCase loadSpecification
                   taskConstraintsEntry.
Let body := generateTCC_body toUpperCase loadSpecification
              taskConstraintsEntry.

(** [extractRelevantConstraints] touches [context.relevantConstraints]
    only. *)
Lemma extractRelevantConstraints_frame (tcc : TaskContextCapsule) :
  exists ids,
    extract tcc = set_context tcc (set_relevantConstraints (context tcc) ids).
Proof.
  unfold extract, extractRelevantConstraints.
  destruct (loadSpecification bsl_schema_path) as [spec|e].
  - destruct (taskConstraintsEntry spec (taskType tcc)).
    + eexists; reflexivity.
    + eexists; reflexivity.
    + exists (relevantConstraints (context tcc)).
      destruct tcc as [a b c [rc st ct so pr] sz v]; reflexivity.
  - exists (relevantConstraints (context tcc)).
    destruct tcc as [a b c [rc st ct so pr] sz v]; reflexivity.
Qed.

Lemma generateTCC_body_unfold (now taskId goal taskType source : string)
    (priority : Priority.t) :
  let tcc := candidate now taskId goal taskType source priority in
  let measured := byte_size (stringify (to_value tcc)) in
  body now taskId goal taskType source priority
  = if measured <? 10240
    then Fulfilled (set_size tcc measured)
    else Rejected (ErrorObject ("TCC size exceeds limit: "
                                ++ number_to_string measured ++ " bytes")).
Proof.
  cbv zeta. unfold body, generateTCC_body, candidate, capsule_under_check.
  cbv zeta.
  match goal with
  | |- context [validateTCCSize ?t] =>
      rewrite (surjective_pairing (validateTCCSize t));
      rewrite (validateTCCSize_result t), (validateTCCSize_capsule t)
  end.
  match goal with
  | |- context [?m <? 10240] => destruct (m <? 10240); reflexivity
  end.
Qed.

End TccGenerator_facts.

(** [generateTCC] as one test on the measured length. *)
Lemma generateTCC_unfold
    (toUpperCase : string -> string)
    (loadSpecification : JsValue -> Settled JsValue)
    (taskConstraintsEntry : JsValue -> string -> SpecEntry)
    (now taskId goal taskType : string)
    (source : option string) (priority : option TCC.Priority.t) :
  let source' := match source with Some s => s | None => "user-request" end in
  let priority' :=
    match priority with Some p => p | None => TCC.Priority.MEDIUM end in
  let candidate :=
    TccGenerator.capsule_under_check toUpperCase loadSpecification
      taskConstraintsEntry now taskId goal taskType source' priority' in
  let measured := byte_size (stringify (TCC.to_value candidate)) in
  TccGenerator.generateTCC toUpperCase loadSpecification
    taskConstraintsEntry now taskId goal taskType source priority
  = if measured <? 10240
    then Fulfilled (TCC.set_size candidate measured)
    else Rejected (ErrorObject
                     ("Failed to generate TCC: TCC size exceeds limit: "
                      ++ number_to_string measured ++ " bytes")).
Proof.
  intros source' priority' candidate measured.
  unfold TccGenerator.generateTCC. fold source' priority'.
  rewrite generateTCC_body_unfold. fold candidate. fold measured.
  destruct (measured <? 10240); reflexivity.
Qed.

(** C2, as amended.  [generateTCC] enforces the limit: with [measured] the
    byte length that its final [validateTCCSize] finds, it returns the
    capsule with [size = measured] when [measured < 10240] and raises
    "Failed to generate TCC: TCC size exceeds limit: ... bytes" when
    [10240 <= measured], so every capsule it returns has [size < 10240].
    [createTCC] does not enforce it: it always returns, with [size] set to
    the byte length measured on the capsule it has just built. *)
Theorem C2_generateTCC_enforces_limit_createTCC_records_size :
  forall (toUpperCase : string -> string)
         (loadSpecification : JsValue -> Settled JsValue)
         (taskConstraintsEntry : JsValue -> string -> SpecEntry)
         (now taskId goal taskType : string)
         (source : option string) (priority : option TCC.Priority.t),
    let source' := match source with Some s => s | None => "user-request" end in
    let priority' :=
      match priority with Some p => p | None => TCC.Priority.MEDIUM end in
    let candidate :=
      TccGenerator.capsule_under_check toUpperCase loadSpecification
        taskConstraintsEntry now taskId goal taskType source' priority' in
    let measured := byte_size (stringify (TCC.to_value candidate)) in
    let generated :=
      TccGenerator.generateTCC toUpperCase loadSpecification
        taskConstraintsEntry now taskId goal taskType source priority in
    (measured < 10240 ->
       generated = Fulfilled (TCC.set_size candidate measured))
    /\ (10240 <= measured ->
        generated
        = Rejected (ErrorObject
                      ("Failed to generate TCC: TCC size exceeds limit: "
                       ++ number_to_string measured ++ " bytes")))
    /\ (forall tcc, generated = Fulfilled tcc -> TCC.size tcc < 10240)
    /\ TCC.size (TCC.createTCC now taskId goal taskType)
       = byte_size
           (stringify
              (TCC.to_value
                 (TCC.set_size (TCC.createTCC now taskId goal taskType) 0))).
Proof.
  intros up load entry now taskId goal taskType source priority
         source' priority' candidate measured generated.
  assert (Hgen :
    generated
    = if measured <? 10240
      then Fulfilled (TCC.set_size candidate measured)
      else Rejected (ErrorObject
                       ("Failed to generate TCC: TCC size exceeds limit: "
                        ++ number_to_string measured ++ " bytes"))).
  { exact (generateTCC_unfold up load entry now taskId goal taskType
             source priority). }
  repeat split.
  - intro H. rewrite Hgen. apply Z.ltb_lt in H. rewrite H. reflexivity.
  - intro H. rewrite Hgen. apply Z.ltb_ge in H. rewrite H. reflexivity.
  - intros tcc H. rewrite Hgen in H.
    destruct (measured <? 10240) eqn:E; [|discriminate].
    injection H as <-. simpl. apply Z.ltb_lt; exact E.
Qed.

(** C2, as stated, fails for [createTCC]: with a goal text of 10240 letters
    it returns a capsule whose [size] is 10571. *)
Lemma C2_createTCC_returns_oversized_capsule :
  TCC.size (TCC.createTCC sample_now "T001" long_goal "API") = 10571
  /\ ~ TCC.size (TCC.createTCC sample_now "T001" long_goal "API") < 10240.
Proof. vm_compute. split; [reflexivity | discriminate]. Qed.

Lemma unique_singleton (x : string) : unique [x] = [x].
Proof. reflexivity. Qed.

Lemma inherited_property_spec (key : string) :
  existsb (String.eqb key) Object_prototype_properties = true
  <-> In key Object_prototype_properties.
Proof.
  rewrite existsb_exists. split.
  - intros [y [Hin Heq]]. apply String.eqb_eq in Heq. now subst y.
  - intro Hin. exists key. split; [exact Hin | apply String.eqb_refl].
Qed.

(** Where the document is covered, the evaluation is the computed
    one. *)
Lemma taskConstraintsEntry_of_covered
    (elsewhere : JsValue -> string -> SpecEntry)
    (spec : JsValue) (taskType : string) (entry : SpecEntry) :
  taskConstraints_entry spec taskType = Some entry ->
  taskConstraintsEntry_of elsewhere spec taskType = entry.
Proof. unfold taskConstraintsEntry_of. now intros ->. Qed.

(** The documents on which the expression is falsy. *)
Lemma taskConstraints_entry_falsy (spec : JsValue) (taskType : string) :
  taskConstraints_entry spec taskType = Some EntryFalsy
  <-> (let taskConstraints :=
         optional_member (optional_member spec "metadata")
           "taskConstraints" in
       nullish taskConstraints = true
       \/ exists props,
            taskConstraints = VObject props
            /\ ((exists value,
                   lookup taskType props = Some value
                   /\ truthy value = false)
                \/ (lookup taskType props = None
                    /\ ~ In taskType Object_prototype_properties))).
Proof.
  unfold taskConstraints_entry. cbv zeta.
  destruct (optional_member (optional_member spec "metadata")
              "taskConstraints") as [| |b|n|s|items|props|state];
    cbn [nullish];
    try (split; [intros _; left; reflexivity | intros _; reflexivity]);
    try (split; [discriminate
                | intros [H|(props' & H & _)]; discriminate H]).
  split.
  - intro Hentry. right. exists props. split; [reflexivity|].
    destruct (lookup taskType props) as [value|].
    + left. exists value. split; [reflexivity|].
      unfold entry_of_value in Hentry.
      destruct (truthy value); [|reflexivity].
      cbn [negb] in Hentry.
      destruct value as [| |b|n|s|items|props'|state];
        try discriminate Hentry.
      destruct (strings_of items); discriminate Hentry.
    + right. split; [reflexivity|].
      destruct (existsb (String.eqb taskType) Object_prototype_properties)
        eqn:Hin; [discriminate Hentry|].
      intro Habs. apply inherited_property_spec in Habs. congruence.
  - intros [H|(props' & [= <-] & [(value & -> & Hfalsy)|(-> & Hnot)])];
      [discriminate H| |].
    + unfold entry_of_value. rewrite Hfalsy. reflexivity.
    + destruct (existsb (String.eqb taskType) Object_prototype_properties)
        eqn:Hin; [|reflexivity].
      exfalso. apply Hnot. apply inherited_property_spec. exact Hin.
Qed.

(** C3, as amended.  For a [taskType] whose upper-cased form is none of
    FINANCIAL, AUTHENTICATION, API and DATABASE, and a global
    specification that loads with a [metadata.taskConstraints] that is
    absent, [null] or an object: the capsule that [generateTCC] builds has
    exactly [SEC-001] as [context.relevantConstraints] when
    [spec?.metadata?.taskConstraints?.[taskType]] is falsy, that is, when
    [metadata.taskConstraints] is absent or [null] at some step, or is an
    object that has [taskType] as an own property with a falsy value, or
    that has no such own property while [taskType] is none of the
    property names that every object inherits.  The list is left empty
    when the expression is a truthy value that cannot be spread: an own
    number, [true] or object, or -- for a task type such as "constructor"
    that is no own property -- an inherited one.  It is left empty too
    when the global specification cannot be loaded.  Every capsule that
    [generateTCC] returns is that capsule with its [size] set, and it
    returns one whenever the capsule measures less than 10240 bytes. *)
Theorem C3_default_relevant_constraints :
  forall (toUpperCase : string -> string)
         (loadSpecification : JsValue -> Settled JsValue)
         (elsewhere : JsValue -> string -> SpecEntry)
         (now taskId goal taskType : string)
         (source : option string) (priority : option TCC.Priority.t),
    toUpperCase taskType <> "FINANCIAL" ->
    toUpperCase taskType <> "AUTHENTICATION" ->
    toUpperCase taskType <> "API" ->
    toUpperCase taskType <> "DATABASE" ->
    let source' := match source with Some s => s | None => "user-request" end in
    let priority' :=
      match priority with Some p => p | None => TCC.Priority.MEDIUM end in
    let candidate :=
      TccGenerator.capsule_under_check toUpperCase loadSpecification
        (taskConstraintsEntry_of elsewhere) now taskId goal taskType
        source' priority' in
    let generated :=
      TccGenerator.generateTCC toUpperCase loadSpecification
        (taskConstraintsEntry_of elsewhere) now taskId goal taskType
        source priority in
    (forall spec,
        loadSpecification TccGenerator.bsl_schema_path = Fulfilled spec ->
        taskConstraints_entry spec taskType = Some EntryFalsy ->
        TCC.relevantConstraints (TCC.context candidate) = ["SEC-001"])
    /\ (forall spec,
          taskConstraints_entry spec taskType = Some EntryFalsy
          <-> (let taskConstraints :=
                 optional_member (optional_member spec "metadata")
                   "taskConstraints" in
               nullish taskConstraints = true
               \/ exists props,
                    taskConstraints = VObject props
                    /\ ((exists value,
                           lookup taskType props = Some value
                           /\ truthy value = false)
                        \/ (lookup taskType props = None
                            /\ ~ In taskType Object_prototype_properties))))
    /\ (forall spec props,
          loadSpecification TccGenerator.bsl_schema_path = Fulfilled spec ->
          optional_member (optional_member spec "metadata") "taskConstraints"
          = VObject props ->
          lookup taskType props = None ->
          In taskType Object_prototype_properties ->
          TCC.relevantConstraints (TCC.context candidate) = [])
    /\ (forall spec,
          loadSpecification TccGenerator.bsl_schema_path = Fulfilled spec ->
          taskConstraints_entry spec taskType = Some EntryNotIterable ->
          TCC.relevantConstraints (TCC.context candidate) = [])
    /\ (forall e,
          loadSpecification TccGenerator.bsl_schema_path = Rejected e ->
          TCC.relevantConstraints (TCC.context candidate) = [])
    /\ (forall tcc,
          generated = Fulfilled tcc ->
          TCC.relevantConstraints (TCC.context tcc)
          = TCC.relevantConstraints (TCC.context candidate))
    /\ (byte_size (stringify (TCC.to_value candidate)) < 10240 ->
        exists tcc, generated = Fulfilled tcc).
Proof.
  intros up load elsewhere now taskId goal taskType source priority
         Hfin Hauth Hapi Hdb source' priority' candidate generated.
  destruct (createTCC_fields now taskId goal taskType)
    as (_ & _ & Htype & Hnone & _).
  pose proof (generateTCC_unfold up load (taskConstraintsEntry_of elsewhere)
                now taskId goal taskType source priority) as Hgen.
  cbv zeta in Hgen. fold source' priority' in Hgen. fold candidate in Hgen.
  fold generated in Hgen.
  assert (Hempty :
            forall spec,
              load TccGenerator.bsl_schema_path = Fulfilled spec ->
              taskConstraints_entry spec taskType = Some EntryNotIterable ->
              TCC.relevantConstraints (TCC.context candidate) = []).
  { intros spec Hload Hentry.
    unfold candidate, TccGenerator.capsule_under_check,
      TccGenerator.extractRelevantConstraints.
    rewrite Hload. cbn [TCC.taskType TCC.set_context].
    rewrite Htype.
    rewrite (taskConstraintsEntry_of_covered elsewhere _ _ _ Hentry).
    cbn. exact Hnone. }
  split; [|split; [|split; [|split; [|split; [|split]]]]].
  - intros spec Hload Hentry.
    unfold candidate, TccGenerator.capsule_under_check,
      TccGenerator.extractRelevantConstraints.
    rewrite Hload. cbn [TCC.taskType TCC.set_context].
    rewrite Htype.
    rewrite (taskConstraintsEntry_of_covered elsewhere _ _ _ Hentry). cbn.
    unfold TccGenerator.constraintsForTaskType.
    apply String.eqb_neq in Hfin, Hauth, Hapi, Hdb.
    rewrite Hfin, Hauth, Hapi, Hdb. reflexivity.
  - intro spec. apply taskConstraints_entry_falsy.
  - intros spec props Hload Hobject Hown Hinherited.
    apply (Hempty spec Hload).
    unfold taskConstraints_entry. cbv zeta. rewrite Hobject, Hown.
    apply inherited_property_spec in Hinherited. rewrite Hinherited.
    reflexivity.
  - exact Hempty.
  - intros e Hload.
    unfold candidate, TccGenerator.capsule_under_check,
      TccGenerator.extractRelevantConstraints.
    rewrite Hload. cbn. exact Hnone.
  - intros tcc Hg. rewrite Hgen in Hg.
    destruct (byte_size (stringify (TCC.to_value candidate)) <? 10240);
      [|discriminate].
    injection Hg as <-. reflexivity.
  - intro Hlt. apply Z.ltb_lt in Hlt. rewrite Hgen, Hlt. eexists. reflexivity.
Qed.

(** A run of C3: the specification loads and holds no [metadata], the
    task type is REPORTING. *)
Lemma C3_default_relevant_constraints_witness :
  exists tcc,
    TccGenerator.generateTCC ascii_toUpperCase plain_specification
      (taskConstraintsEntry_of no_entry)
      sample_now "T001" "Quarterly report" "reporting" None None
    = Fulfilled tcc
    /\ TCC.relevantConstraints (TCC.context tcc) = ["SEC-001"].
Proof.
  destruct (C3_default_relevant_constraints ascii_toUpperCase
              plain_specification no_entry sample_now "T001"
              "Quarterly report" "reporting" None None)
    as (Hdefault & _ & _ & _ & _ & Hsame & Hsome);
    try (vm_compute; discriminate).
  destruct Hsome as [tcc Htcc]; [vm_compute; reflexivity|].
  exists tcc. split; [exact Htcc|].
  rewrite (Hsame tcc Htcc).
  apply (Hdefault
           (VObject [("SOF", VString "Maximize(UserValue) - 0.2*Complexity")]));
    reflexivity.
Defined.

(** C3, as stated, fails.  When the global specification cannot be
    loaded, [generateTCC] returns a capsule whose relevant-constraint list
    is empty.  It does so too when the specification loads with an empty
    [metadata.taskConstraints] and the task type is "constructor": the
    empty object inherits a property of that name, the value is truthy and
    the spread throws. *)
Lemma C3_load_failure_leaves_constraints_empty :
  (exists tcc,
     ascii_toUpperCase "reporting" = "REPORTING"
     /\ TccGenerator.generateTCC ascii_toUpperCase unreadable_specification
          (taskConstraintsEntry_of no_entry) sample_now "T001"
          "Quarterly report" "reporting" None None
        = Fulfilled tcc
     /\ TCC.relevantConstraints (TCC.context tcc) = []
     /\ TCC.relevantConstraints (TCC.context tcc) <> ["SEC-001"])
  /\ (exists tcc,
        ascii_toUpperCase "constructor" = "CONSTRUCTOR"
        /\ taskConstraints_entry empty_taskConstraints "constructor"
           = Some EntryNotIterable
        /\ TccGenerator.generateTCC ascii_toUpperCase
             (fun _ => Fulfilled empty_taskConstraints)
             (taskConstraintsEntry_of no_entry) sample_now "T001"
             "Quarterly report" "constructor" None None
           = Fulfilled tcc
        /\ TCC.relevantConstraints (TCC.context tcc) = []
        /\ TCC.relevantConstraints (TCC.context tcc) <> ["SEC-001"]).
Proof.
  split.
  - eexists. split; [reflexivity|]. split; [vm_compute; reflexivity|].
    split; [reflexivity | discriminate].
  - eexists. split; [reflexivity|]. split; [reflexivity|].
    split; [vm_compute; reflexivity|].
    split; [reflexivity | discriminate].
Qed.

(* ===================================================================== *)
(** ** Properties of core/constraint/ConstraintGenerator.ts *)
(* ===================================================================== *)

Section ConstraintGenerator_facts.
Import ConstraintGenerator TemplateStoreSpec.

Lemma storedTemplates_cons (file : TemplateFile) (rest : list TemplateFile) :
  storedTemplates (file :: rest)
  = ((if endsWith (fileName file) ".json" then
        match parsed file with
        | Fulfilled template => [template]
        | Rejected _ => []
        end
      else []) ++ storedTemplates rest)%list.
Proof. reflexivity. Qed.

(** The inner loop appends, to what was collected before, the applicable
    templates among the records scanned before the first failure. *)
Lemma scanFiles_collects (taskType : JsValue) (files : list TemplateFile) :
  forall templates,
    fst (scanFiles taskType files templates)
    = (templates
       ++ filter (applies taskType) (storedTemplates (scannedFiles files)))%list.
Proof.
  induction files as [|file rest IH]; intro templates.
  - simpl. now rewrite app_nil_r.
  - cbn [scanFiles scannedFiles].
    destruct (endsWith (fileName file) ".json") eqn:Ejson.
    + destruct (parsed file) as [template|e] eqn:Eparsed.
      * rewrite storedTemplates_cons, Ejson, Eparsed.
        cbn [app filter].
        destruct (applies taskType template).
        -- rewrite IH, <- app_assoc. reflexivity.
        -- apply IH.
      * simpl. now rewrite app_nil_r.
    + rewrite storedTemplates_cons, Ejson. cbn [app]. apply IH.
Qed.

Lemma scanDirectory_collects (taskType : JsValue) (dir : Directory)
    (templates : list ConstraintTemplate) :
  scanDirectory taskType dir templates
  = (templates
     ++ match dir with
        | Fulfilled files =>
            filter (applies taskType) (storedTemplates (scannedFiles files))
        | Rejected _ => []
        end)%list.
Proof.
  destruct dir as [files|e]; simpl.
  - apply scanFiles_collects.
  - now rewrite app_nil_r.
Qed.

Lemma matchTemplates_scans (store : TemplateStore) (taskType : string) :
  matchTemplates store (VString taskType)
  = Fulfilled (scannedResult store taskType).
Proof.
  unfold matchTemplates, scannedResult, templateDirs, try_catch.
  cbn [fold_left flat_map].
  rewrite !scanDirectory_collects. rewrite app_nil_r. cbn [app].
  rewrite <- app_assoc. reflexivity.
Qed.

Lemma scannedFiles_wellFormed (files : list TemplateFile) :
  wellFormedDirectory (Fulfilled files) -> scannedFiles files = files.
Proof.
  unfold wellFormedDirectory.
  induction 1 as [|file rest Hfile _ IH]; [reflexivity|].
  cbn [scannedFiles]. rewrite IH.
  destruct (endsWith (fileName file) ".json"); [|reflexivity].
  destruct (Hfile eq_refl) as [template ->]. reflexivity.
Qed.

Lemma scannedResult_wellFormed (store : TemplateStore) (taskType : string) :
  wellFormed store -> scannedResult store taskType = statedResult store taskType.
Proof.
  unfold wellFormed, scannedResult, statedResult.
  induction 1 as [|dir dirs Hdir _ IH]; [reflexivity|].
  cbn [flat_map]. rewrite IH. f_equal.
  destruct dir as [files|e]; [|reflexivity].
  now rewrite (scannedFiles_wellFormed files Hdir).
Qed.

Lemma applies_iff (taskType : string) (template : ConstraintTemplate) :
  applies (VString taskType) template = true
  <-> In taskType (Template.applicableTasks template)
      \/ In "ALL" (Template.applicableTasks template).
Proof.
  unfold applies, includes. rewrite orb_true_iff, !existsb_exists.
  split.
  - intros [[x [Hin Heq]]|[x [Hin Heq]]]; apply String.eqb_eq in Heq; subst x;
      [left|right]; exact Hin.
  - intros [Hin|Hin]; [left|right]; eexists; (split; [exact Hin|]);
      apply String.eqb_refl.
Qed.

Lemma Forall2_map_right {A B} (R : A -> B -> Prop) (f : A -> B) (l : list A) :
  (forall x, R x (f x)) -> Forall2 R l (map f l).
Proof. intro H. induction l; simpl; constructor; auto. Qed.

End ConstraintGenerator_facts.

Section TemplateRecords_facts.
Import TemplateRecords TemplateRecordsSpec.

Lemma starts_with_spec (searched text : string) :
  starts_with searched text = true <-> exists rest, text = searched ++ rest.
Proof.
  revert text. induction searched as [|c searched IH]; intro text.
  - cbn. split; [intros _; exists text; reflexivity | reflexivity].
  - destruct text as [|d text]; cbn [starts_with].
    + split; [discriminate | intros [rest H]; discriminate H].
    + rewrite andb_true_iff, IH. split.
      * intros [Hc [rest ->]]. apply Ascii.eqb_eq in Hc. subst d.
        exists rest. reflexivity.
      * intros [rest [= -> ->]]. split; [apply Ascii.eqb_refl|].
        exists rest. reflexivity.
Qed.

(** [includes] on strings finds exactly the parts of the text. *)
Lemma occurs_in_spec (searched text : string) :
  occurs_in searched text = true <-> contains text searched.
Proof.
  unfold contains. induction text as [|d text IH]; cbn [occurs_in].
  - rewrite orb_false_r, starts_with_spec. split.
    + intros [rest H]. exists "", rest. exact H.
    + intros (before & after & H). destruct before as [|b before].
      * exists after. exact H.
      * discriminate H.
  - rewrite orb_true_iff, starts_with_spec, IH. split.
    + intros [[rest H]|(before & after & ->)].
      * exists "", rest. exact H.
      * exists (String d before), after. reflexivity.
    + intros (before & after & H). destruct before as [|b before].
      * left. exists after. exact H.
      * right. injection H as _ ->. exists before, after. reflexivity.
Qed.

Lemma includes_string (applicableTasks : JsValue) (task : string) :
  match applicableTasks with
  | VArray _ | VString _ =>
      applicableTasks_includes applicableTasks (VString task)
      = Fulfilled (holds applicableTasks task)
  | _ =>
      exists e,
        applicableTasks_includes applicableTasks (VString task) = Rejected e
  end.
Proof.
  destruct applicableTasks as [| |b|n|s|items|props|state];
    first [reflexivity | eexists; reflexivity].
Qed.

(** The test on a record, for a task type that is a string. *)
Lemma applies_testable (taskType : string) (record : JsValue) :
  if testable record
  then applies (VString taskType) record
       = Fulfilled (matches taskType record)
  else exists e, applies (VString taskType) record = Rejected e.
Proof.
  unfold testable, applies, matches, get_member.
  destruct (nullish record) eqn:Hnull.
  { destruct record; try discriminate Hnull; cbn; eexists; reflexivity. }
  cbn [bind].
  pose proof (includes_string (own_property record "applicableTasks")
                taskType) as Hfirst.
  pose proof (includes_string (own_property record "applicableTasks")
                "ALL") as Hsecond.
  assert (Hthrows :
            (exists e,
               applicableTasks_includes
                 (own_property record "applicableTasks") (VString taskType)
               = Rejected e) ->
            exists e,
              (found <- applicableTasks_includes
                          (own_property record "applicableTasks")
                          (VString taskType) ;;
               if found then Fulfilled true
               else applicableTasks_includes
                      (own_property record "applicableTasks")
                      (VString "ALL"))%js = Rejected e).
  { intros [e Hthrown]. rewrite Hthrown. exists e. reflexivity. }
  assert (Hfound :
            applicableTasks_includes
              (own_property record "applicableTasks") (VString taskType)
            = Fulfilled (holds (own_property record "applicableTasks")
                           taskType) ->
            applicableTasks_includes
              (own_property record "applicableTasks") (VString "ALL")
            = Fulfilled (holds (own_property record "applicableTasks")
                           "ALL") ->
            (found <- applicableTasks_includes
                        (own_property record "applicableTasks")
                        (VString taskType) ;;
             if found then Fulfilled true
             else applicableTasks_includes
                    (own_property record "applicableTasks")
                    (VString "ALL"))%js
            = Fulfilled
                (holds (own_property record "applicableTasks") taskType
                 || holds (own_property record "applicableTasks") "ALL")).
  { intros -> ->. cbn [bind].
    destruct (holds (own_property record "applicableTasks") taskType);
      reflexivity. }
  destruct (own_property record "applicableTasks")
    as [| |b|n|s|items|props|state];
    [ exact (Hthrows Hfirst) | exact (Hthrows Hfirst)
    | exact (Hthrows Hfirst) | exact (Hthrows Hfirst)
    | exact (Hfound Hfirst Hsecond) | exact (Hfound Hfirst Hsecond)
    | exact (Hthrows Hfirst) | exact (Hthrows Hfirst) ].
Qed.

Lemma scanFiles_records (taskType : string) (files : list File) :
  forall templates,
    fst (scanFiles (VString taskType) files templates)
    = (templates ++ filter (matches taskType) (scannedRecords files))%list.
Proof.
  induction files as [|file rest IH]; intro templates.
  - cbn. now rewrite app_nil_r.
  - cbn [scanFiles scannedRecords].
    destruct (endsWith (fileName file) ".json"); [|apply IH].
    destruct (parsed file) as [record|e]; [|cbn; now rewrite app_nil_r].
    pose proof (applies_testable taskType record) as Htest.
    destruct (testable record).
    + rewrite Htest. cbn [filter].
      destruct (matches taskType record).
      * rewrite IH, <- app_assoc. reflexivity.
      * apply IH.
    + destruct Htest as [e ->]. cbn. now rewrite app_nil_r.
Qed.

Lemma matchTemplates_records (store : Store) (taskType : string) :
  matchTemplates store (VString taskType)
  = Fulfilled (scannedResult store taskType).
Proof.
  unfold matchTemplates, scannedResult, templateDirs, try_catch.
  cbn [fold_left flat_map].
  assert (Hdir : forall dir templates,
             scanDirectory (VString taskType) dir templates
             = (templates
                ++ match dir with
                   | Fulfilled files =>
                       filter (matches taskType) (scannedRecords files)
                   | Rejected _ => []
                   end)%list).
  { intros [files|e] templates; cbn [scanDirectory];
      [apply scanFiles_records | now rewrite app_nil_r]. }
  rewrite !Hdir. rewrite app_nil_r. cbn [app].
  rewrite <- app_assoc. reflexivity.
Qed.

Lemma matches_listed (taskType : string) (record : JsValue) (items : list JsValue) :
  own_property record "applicableTasks" = VArray items ->
  matches taskType record = listed taskType record.
Proof.
  intro Harray. unfold matches, listed. rewrite Harray. cbn [holds].
  f_equal; induction items as [|x items IH]; try reflexivity;
    cbn [existsb]; rewrite IH; f_equal; destruct x; reflexivity.
Qed.

Lemma scannedRecords_wellFormed (store : Store) (taskType : string) :
  wellFormed store -> scannedResult store taskType = statedResult store taskType.
Proof.
  unfold wellFormed, scannedResult, statedResult.
  induction 1 as [|dir dirs Hdir _ IH]; [reflexivity|].
  cbn [flat_map]. rewrite IH. f_equal.
  destruct dir as [files|e]; [|reflexivity].
  unfold wellFormedDirectory in Hdir.
  induction Hdir as [|file rest Hfile _ IHfiles]; [reflexivity|].
  cbn [scannedRecords storedRecords flat_map].
  destruct (endsWith (fileName file) ".json"); [|exact IHfiles].
  destruct (Hfile eq_refl) as (record & items & -> & Harray).
  unfold testable. rewrite Harray. cbn [app filter].
  rewrite (matches_listed taskType record items Harray).
  destruct (listed taskType record); [f_equal|]; exact IHfiles.
Qed.

Lemma matches_template (taskType : string)
    (template : ConstraintGenerator.ConstraintTemplate) :
  matches taskType (ConstraintGenerator.Template_to_value template)
  = ConstraintGenerator.applies (VString taskType) template.
Proof.
  unfold matches, ConstraintGenerator.applies, includes.
  cbn [ConstraintGenerator.Template_to_value own_property lookup String.eqb
       Ascii.eqb Bool.eqb holds].
  generalize (ConstraintGenerator.Template.applicableTasks template).
  intro tasks. f_equal; induction tasks as [|t tasks IH]; try reflexivity;
    cbn [map existsb]; rewrite IH; f_equal; apply String.eqb_sym.
Qed.

Lemma scannedRecords_typed (taskType : string)
    (files : list ConstraintGenerator.TemplateFile) :
  filter (matches taskType) (scannedRecords (map file_of files))
  = map ConstraintGenerator.Template_to_value
      (filter (ConstraintGenerator.applies (VString taskType))
         (TemplateStoreSpec.storedTemplates
            (TemplateStoreSpec.scannedFiles files))).
Proof.
  induction files as [|file rest IH]; [reflexivity|].
  cbn [map scannedRecords TemplateStoreSpec.scannedFiles].
  cbn [file_of fileName parsed].
  destruct (endsWith (ConstraintGenerator.fileName file) ".json") eqn:Ejson.
  - destruct (ConstraintGenerator.parsed file) as [template|e] eqn:Eparsed;
      [|reflexivity].
    rewrite storedTemplates_cons, Ejson, Eparsed.
    change (testable (ConstraintGenerator.Template_to_value template))
      with true.
    cbn [app filter]. rewrite matches_template.
    destruct (ConstraintGenerator.applies (VString taskType) template);
      cbn [map]; rewrite IH; reflexivity.
  - rewrite storedTemplates_cons, Ejson. cbn [app]. exact IH.
Qed.

Lemma matchTemplates_typed (store : ConstraintGenerator.TemplateStore)
    (taskType : string) :
  matchTemplates (store_of store) (VString taskType)
  = match ConstraintGenerator.matchTemplates store (VString taskType) with
    | Fulfilled templates =>
        Fulfilled (map ConstraintGenerator.Template_to_value templates)
    | Rejected e => Rejected e
    end.
Proof.
  rewrite matchTemplates_records, matchTemplates_scans.
  unfold scannedResult, TemplateStoreSpec.scannedResult, templateDirs,
    ConstraintGenerator.templateDirs, store_of.
  cbn [security performance architecture flat_map].
  rewrite !map_app. cbn [map app].
  f_equal. f_equal; [|f_equal; [|f_equal]];
    match goal with
    | |- context [directory_of ?d] => destruct d as [files|e]
    end; cbn [directory_of]; try reflexivity; apply scannedRecords_typed.
Qed.

Lemma holds_spec (applicableTasks : JsValue) (task : string) :
  holds applicableTasks task = true
  <-> (exists items,
         applicableTasks = VArray items /\ In (VString task) items)
      \/ (exists text,
            applicableTasks = VString text /\ contains text task).
Proof.
  destruct applicableTasks as [| |b|n|s|items|props|state]; cbn [holds];
    try (split; [discriminate
                | intros [(x & H & _)|(x & H & _)]; discriminate H]).
  - rewrite occurs_in_spec. split.
    + intro H. right. exists s. auto.
    + intros [(items & H & _)|(text & [= <-] & H)];
        [discriminate H | exact H].
  - rewrite existsb_exists. split.
    + intros (x & Hin & Hx). left. exists items. split; [reflexivity|].
      destruct x; try discriminate Hx. apply String.eqb_eq in Hx.
      subst. exact Hin.
    + intros [(items' & [= <-] & Hin)|(text & H & _)]; [|discriminate H].
      exists (VString task). split; [exact Hin | apply String.eqb_refl].
Qed.

End TemplateRecords_facts.

(** C9, as amended.  [matchTemplates] never raises.  It returns, partition
    by partition (security, performance, architecture) and in store order
    within a partition, the records that match among the [*.json] entries
    tested before the first entry of that partition at which the loop
    raises; a partition that cannot be listed contributes nothing, and
    nothing is deduplicated.  The loop raises at an entry that cannot be
    read or parsed, and at a record whose [applicableTasks] is neither an
    array nor a string.  A record matches when its [applicableTasks] is
    an array that holds the task type itself or "ALL" as an element, and
    also when it is a string in which the task type or "ALL" occurs as a
    part.  When every entry can be read and parsed and holds a list, this
    is the result of section 4.1; on a store whose records all have the
    declared type it is the result of the typed [matchTemplates]. *)
Theorem C9_matchTemplates_scans_partitions_in_order :
  forall (store : TemplateRecords.Store) (taskType : string),
    TemplateRecords.matchTemplates store (VString taskType)
    = Fulfilled (TemplateRecordsSpec.scannedResult store taskType)
    /\ (TemplateRecordsSpec.wellFormed store ->
        TemplateRecords.matchTemplates store (VString taskType)
        = Fulfilled (TemplateRecordsSpec.statedResult store taskType))
    /\ (forall record,
          TemplateRecordsSpec.matches taskType record = true
          <-> (exists items,
                 own_property record "applicableTasks" = VArray items
                 /\ (In (VString taskType) items
                     \/ In (VString "ALL") items))
              \/ (exists text,
                    own_property record "applicableTasks" = VString text
                    /\ (contains text taskType \/ contains text "ALL")))
    /\ (forall record,
          (exists e,
             TemplateRecords.applies (VString taskType) record = Rejected e)
          <-> TemplateRecordsSpec.testable record = false)
    /\ (forall typed : ConstraintGenerator.TemplateStore,
          TemplateRecords.matchTemplates (TemplateRecords.store_of typed)
            (VString taskType)
          = match ConstraintGenerator.matchTemplates typed
                    (VString taskType) with
            | Fulfilled templates =>
                Fulfilled
                  (map ConstraintGenerator.Template_to_value templates)
            | Rejected e => Rejected e
            end).
Proof.
  intros store taskType.
  split; [apply matchTemplates_records|]. split; [|split; [|split]].
  - intro Hwf. rewrite matchTemplates_records.
    now rewrite (scannedRecords_wellFormed store taskType Hwf).
  - intro record. unfold TemplateRecordsSpec.matches. cbv zeta.
    rewrite orb_true_iff, !holds_spec. split.
    + intros [[(items & H & Hin)|(text & H & Hin)]
             |[(items & H & Hin)|(text & H & Hin)]];
        [ left; exists items | right; exists text
        | left; exists items | right; exists text ]; auto.
    + intros [(items & H & [Hin|Hin])|(text & H & [Hin|Hin])];
        [ left; left; exists items | right; left; exists items
        | left; right; exists text | right; right; exists text ]; auto.
  - intro record. pose proof (applies_testable taskType record) as Htest.
    destruct (TemplateRecordsSpec.testable record).
    + rewrite Htest. split; [intros [e H]; discriminate H | discriminate].
    + split; [reflexivity | intros _; exact Htest].
  - intro typed. apply matchTemplates_typed.
Qed.

(** A run of C9 on a store whose records are all well formed. *)
Lemma C9_matchTemplates_scans_partitions_in_order_witness :
  TemplateRecords.matchTemplates (TemplateRecords.store_of sample_store)
    (VString "API")
  = Fulfilled [ConstraintGenerator.Template_to_value input_validation;
               ConstraintGenerator.Template_to_value response_time].
Proof.
  destruct (C9_matchTemplates_scans_partitions_in_order
              (TemplateRecords.store_of sample_store) "API")
    as (_ & Hstated & _).
  rewrite Hstated; [reflexivity|].
  repeat constructor; intro Hjson;
    first [ discriminate Hjson
          | eexists; eexists; split; reflexivity ].
Defined.

(** C9, as stated, fails.  The template of sec-001.json applies to every
    task type, yet [matchTemplates] returns nothing, because broken.json
    comes first in the same partition.  And a record whose
    [applicableTasks] is the text "FINANCIAL,API" instead of a list is
    returned for the task type "FIN", which is only a part of that
    text. *)
Lemma C9_templates_after_a_malformed_record_are_lost :
  (TemplateRecords.matchTemplates (TemplateRecords.store_of broken_store)
     (VString "API")
   = Fulfilled []
   /\ TemplateRecordsSpec.statedResult (TemplateRecords.store_of broken_store)
        "API"
      = [ConstraintGenerator.Template_to_value input_validation]
   /\ TemplateRecords.matchTemplates (TemplateRecords.store_of broken_store)
        (VString "API")
      <> Fulfilled
           (TemplateRecordsSpec.statedResult
              (TemplateRecords.store_of broken_store) "API"))
  /\ (TemplateRecords.matchTemplates text_store (VString "FIN")
      = Fulfilled [text_record;
                   ConstraintGenerator.Template_to_value input_validation]
      /\ TemplateRecordsSpec.statedResult text_store "FIN"
         = [ConstraintGenerator.Template_to_value input_validation]
      /\ TemplateRecords.matchTemplates text_store (VString "FIN")
         <> Fulfilled (TemplateRecordsSpec.statedResult text_store "FIN")).
Proof.
  split; (split; [vm_compute; reflexivity|]);
    (split; [vm_compute; reflexivity|]); vm_compute; discriminate.
Qed.


(** C8.  [generateConstraints] returns the constraints copied field for
    field from the templates matched for [tcc.taskType], followed by one
    constraint per entry of [tcc.context.relevantConstraints] with category
    OTHER, severity WARNING and rule "context." followed by the entry; both
    parts keep their order and their length, and nothing is merged. *)
Theorem C8_generateConstraints_concatenates :
  forall (store : ConstraintGenerator.TemplateStore)
         (tcc : TCC.TaskContextCapsule),
  exists templates constraints contextConstraints,
    ConstraintGenerator.matchTemplates store (VString (TCC.taskType tcc))
    = Fulfilled templates
    /\ ConstraintGenerator.generateConstraints store tcc
       = Fulfilled (constraints ++ contextConstraints)%list
    /\ Forall2 TemplateStoreSpec.copied templates constraints
    /\ Forall2 (TemplateStoreSpec.synthesized (TCC.taskType tcc))
         (TCC.relevantConstraints (TCC.context tcc)) contextConstraints.
Proof.
  intros store tcc.
  unfold ConstraintGenerator.generateConstraints.
  rewrite matchTemplates_scans.
  eexists. eexists. eexists.
  split; [reflexivity|]. split; [reflexivity|]. split.
  - apply Forall2_map_right. intro t. repeat split.
  - apply Forall2_map_right. intro entry. repeat split.
Qed.

(** A task whose context names SEC-001 twice, against a store whose
    template SEC-001 applies: the identifier comes out three times. *)
Example generateConstraints_keeps_duplicates :
  match ConstraintGenerator.generateConstraints sample_store
          (TCC.set_context testTcc
             (TCC.set_relevantConstraints (TCC.context testTcc)
                ["SEC-001"; "SEC-001"])) with
  | Fulfilled constraints =>
      map ConstraintGenerator.id constraints = ["SEC-001"; "SEC-001"; "SEC-001"]
  | Rejected _ => False
  end.
Proof. vm_compute. reflexivity. Qed.



(* ===================================================================== *)
(** ** Properties of the dispatchers *)
(* ===================================================================== *)

Lemma stdio_handleCheckConstraints_same :
  McpStdioServer.handleCheckConstraints = McpAdapter.handleCheckConstraints.
Proof. reflexivity. Qed.

Section Dispatch_facts.
Import McpAdapter.

Variable rt : Runtime.
Variable request : McpRequest.

Lemma dispatch_checkConstraints (response : McpResponse) :
  Request.method request = "checkConstraints" ->
  handleCheckConstraints rt request = Fulfilled response ->
  dispatches rt request response.
Proof.
  intros Hmethod Hresponse.
  unfold dispatches, McpAdapter.handleMcpRequest,
    McpStdioServer.handleMcpRequest.
  rewrite stdio_handleCheckConstraints_same.
  rewrite Hmethod, String.eqb_refl, Hresponse. split; reflexivity.
Qed.

Lemma dispatch_unknown :
  Request.method request <> "checkConstraints" ->
  Request.method request <> "getSystemStatus" ->
  Request.method request <> "getEvolutionStage" ->
  dispatches rt request
    (error_response (-32601) "Method not found" (Request.id request)).
Proof.
  intros H1 H2 H3. apply String.eqb_neq in H1, H2, H3.
  unfold dispatches, McpAdapter.handleMcpRequest,
    McpStdioServer.handleMcpRequest.
  rewrite H1, H2, H3. split; reflexivity.
Qed.

(** The handler with its parameters read and found truthy. *)
Lemma handleCheckConstraints_loads (tccPath specPath : JsValue) :
  destructure_params (Request.params request) = Fulfilled (tccPath, specPath) ->
  truthy tccPath = true ->
  truthy specPath = true ->
  handleCheckConstraints rt request
  = match loadSpecification rt specPath with
    | Rejected error =>
        Fulfilled (error_response (-32001)
                     ("Failed to load specification: "
                      ++ message_or error "Unknown error")
                     (Request.id request))
    | Fulfilled _ =>
        match loadSpecification rt tccPath with
        | Rejected error =>
            Fulfilled (error_response (-32002)
                         ("Failed to load task context capsule: "
                          ++ message_or error "Unknown error")
                         (Request.id request))
        | Fulfilled tcc =>
            Fulfilled
              (result_response
                 (VObject
                    [("constraints",
                       VPromise
                         (ConstraintGenerator.generateConstraints_unchecked
                            (templates rt) tcc));
                     ("violations", VArray []);
                     ("timestamp", VString (now rt))])
                 (Request.id request))
        end
    end.
Proof.
  intros Hparams Htcc Hspec. unfold handleCheckConstraints.
  rewrite Hparams. cbn [bind]. rewrite Htcc, Hspec. cbn [negb orb].
  destruct (loadSpecification rt specPath) as [spec|e]; [|reflexivity].
  destruct (loadSpecification rt tccPath) as [tcc|e]; reflexivity.
Qed.

Lemma handleCheckConstraints_missing (tccPath specPath : JsValue) :
  destructure_params (Request.params request) = Fulfilled (tccPath, specPath) ->
  truthy tccPath = false \/ truthy specPath = false ->
  handleCheckConstraints rt request
  = Fulfilled (error_response (-32602)
                 "Missing required parameters: tccPath and specPath"
                 (Request.id request)).
Proof.
  intros Hparams Hfalsy. unfold handleCheckConstraints.
  rewrite Hparams. cbn [bind].
  replace (negb (truthy tccPath) || negb (truthy specPath)) with true;
    [reflexivity|].
  destruct Hfalsy as [-> | ->]; [reflexivity|].
  now rewrite orb_true_r.
Qed.

(** No path through [handleCheckConstraints] rejects, and none answers
    with the code reserved for a failed generation. *)
Lemma handleCheckConstraints_never_32003 :
  exists response,
    handleCheckConstraints rt request = Fulfilled response
    /\ forall e, Response.error response = Some e -> code e <> -32003.
Proof.
  unfold handleCheckConstraints.
  destruct (destructure_params (Request.params request)) as [[tccPath specPath]|e0].
  - cbn [bind].
    destruct (negb (truthy tccPath) || negb (truthy specPath)).
    + eexists; split; [reflexivity|]. intros e [= <-]. discriminate.
    + destruct (loadSpecification rt specPath) as [spec|e1].
      * destruct (loadSpecification rt tccPath) as [tcc|e2].
        -- eexists; split; [reflexivity|]. intros e [=].
        -- eexists; split; [reflexivity|]. intros e [= <-]. discriminate.
      * eexists; split; [reflexivity|]. intros e [= <-]. discriminate.
  - eexists; split; [reflexivity|]. intros e [= <-]. discriminate.
Qed.

Lemma handleCheckConstraints_total :
  exists response,
    handleCheckConstraints rt request = Fulfilled response
    /\ Response.id response = Request.id request.
Proof.
  unfold handleCheckConstraints.
  destruct (destructure_params (Request.params request)) as [[tccPath specPath]|e0].
  - cbn [bind].
    destruct (negb (truthy tccPath) || negb (truthy specPath)).
    + eexists; split; reflexivity.
    + destruct (loadSpecification rt specPath) as [spec|e1].
      * destruct (loadSpecification rt tccPath) as [tcc|e2];
          eexists; split; reflexivity.
      * eexists; split; reflexivity.
  - eexists; split; reflexivity.
Qed.

(** Every request is answered, on both transports, by one envelope that
    carries the id of the request. *)
Lemma dispatch_total :
  exists response,
    dispatches rt request response
    /\ Response.id response = Request.id request.
Proof.
  destruct (String.eqb_spec (Request.method request) "checkConstraints")
    as [Hcheck|Hcheck].
  { destruct handleCheckConstraints_total as (response & Hresponse & Hid).
    exists response. split; [|exact Hid].
    now apply dispatch_checkConstraints. }
  destruct (String.eqb_spec (Request.method request) "getSystemStatus")
    as [Hstatus|Hstatus].
  { eexists. split; [|shelve].
    unfold dispatches, McpAdapter.handleMcpRequest,
      McpStdioServer.handleMcpRequest.
    rewrite Hstatus. cbn [String.eqb Ascii.eqb Bool.eqb].
    split; reflexivity. Unshelve. reflexivity. }
  destruct (String.eqb_spec (Request.method request) "getEvolutionStage")
    as [Hstage|Hstage].
  { eexists. split; [|shelve].
    unfold dispatches, McpAdapter.handleMcpRequest,
      McpStdioServer.handleMcpRequest.
    rewrite Hstage. cbn [String.eqb Ascii.eqb Bool.eqb].
    split; reflexivity. Unshelve. reflexivity. }
  eexists. split; [now apply dispatch_unknown | reflexivity].
Qed.

(** The code reserved for a failed constraint generation is never sent. *)
Lemma dispatcher_never_answers_32003 (response : McpResponse) (e : McpError) :
  McpAdapter.handleMcpRequest rt request = Fulfilled response ->
  Response.error response = Some e ->
  code e <> -32003.
Proof.
  unfold McpAdapter.handleMcpRequest.
  destruct (Request.method request =? "checkConstraints")%string.
  - destruct handleCheckConstraints_never_32003 as (r & -> & Hcode).
    cbn [try_catch]. intros [= <-]. apply Hcode.
  - destruct (Request.method request =? "getSystemStatus")%string;
      [cbn; intros [= <-] [=]|].
    destruct (Request.method request =? "getEvolutionStage")%string;
      [cbn; intros [= <-] [=]|].
    cbn. intros [= <-] [= <-]. discriminate.
Qed.

End Dispatch_facts.

(** C6.  A request whose method is none of checkConstraints,
    getSystemStatus and getEvolutionStage is answered, on both transports,
    by an error envelope with code -32601 that carries the id of the
    request. *)
Theorem C6_unknown_method_is_not_found :
  forall (rt : Runtime) (request : McpRequest),
    Request.method request <> "checkConstraints" ->
    Request.method request <> "getSystemStatus" ->
    Request.method request <> "getEvolutionStage" ->
    exists response,
      dispatches rt request response
      /\ Response.error response
         = Some {| code := -32601; message := "Method not found" |}
      /\ Response.result response = None
      /\ Response.id response = Request.id request.
Proof.
  intros rt request H1 H2 H3.
  exists (error_response (-32601) "Method not found" (Request.id request)).
  split; [apply dispatch_unknown; assumption|]. repeat split.
Qed.

(** The request of the integration test: unknownMethod, id 5. *)
Lemma C6_unknown_method_is_not_found_witness :
  exists response,
    dispatches test_runtime
      {| Request.method := "unknownMethod"; Request.params := VUndefined;
         Request.id := VNumber 5 |} response
    /\ Response.error response
       = Some {| code := -32601; message := "Method not found" |}
    /\ Response.result response = None
    /\ Response.id response = VNumber 5.
Proof.
  apply (C6_unknown_method_is_not_found test_runtime
           {| Request.method := "unknownMethod"; Request.params := VUndefined;
              Request.id := VNumber 5 |}); discriminate.
Defined.

(** C7, as amended.  A checkConstraints request whose params are present
    -- neither [undefined] nor [null] -- and lack specPath, or lack
    tccPath, is answered on both transports by an error envelope with code
    -32602, a message that contains "Missing required parameters", and
    the id of the request.  When params are [undefined] or [null] the
    destructuring throws before the parameters are checked, and the
    answer is the error envelope with code -32603 and the message of the
    [TypeError]. *)
Theorem C7_missing_parameter_is_invalid_params :
  forall (rt : Runtime) (request : McpRequest),
    Request.method request = "checkConstraints" ->
    (lacks (Request.params request) "specPath"
     \/ lacks (Request.params request) "tccPath" ->
     exists response text,
       dispatches rt request response
       /\ Response.error response = Some {| code := -32602; message := text |}
       /\ contains text "Missing required parameters"
       /\ Response.result response = None
       /\ Response.id response = Request.id request)
    /\ (nullish (Request.params request) = true ->
        dispatches rt request
          (error_response (-32603)
             ("Cannot destructure property 'tccPath' of 'request.params'"
              ++ " as it is " ++ describe_nullish (Request.params request)
              ++ ".")
             (Request.id request))).
Proof.
  intros rt request Hmethod. split.
  - intro Hlacks.
    exists (error_response (-32602)
              "Missing required parameters: tccPath and specPath"
              (Request.id request)).
    exists "Missing required parameters: tccPath and specPath".
    split.
    + apply dispatch_checkConstraints; [exact Hmethod|].
      assert (Hpresent : nullish (Request.params request) = false)
        by (destruct Hlacks as [[H _]|[H _]]; exact H).
      apply (handleCheckConstraints_missing rt request
               (own_property (Request.params request) "tccPath")
               (own_property (Request.params request) "specPath")).
      * unfold destructure_params. now rewrite Hpresent.
      * destruct Hlacks as [[_ ->]|[_ ->]]; [right|left]; reflexivity.
    + repeat split.
      exists "", ": tccPath and specPath". reflexivity.
  - intro Habsent.
    apply dispatch_checkConstraints; [exact Hmethod|].
    unfold McpAdapter.handleCheckConstraints, destructure_params.
    rewrite Habsent. reflexivity.
Qed.

(** The request of the integration test: tccPath alone, id 2. *)
Lemma C7_missing_parameter_is_invalid_params_witness :
  exists response text,
    dispatches test_runtime
      {| Request.method := "checkConstraints";
         Request.params := VObject [("tccPath", VString "test-tcc.json")];
         Request.id := VNumber 2 |} response
    /\ Response.error response = Some {| code := -32602; message := text |}
    /\ contains text "Missing required parameters"
    /\ Response.result response = None
    /\ Response.id response = VNumber 2.
Proof.
  apply (C7_missing_parameter_is_invalid_params test_runtime
           {| Request.method := "checkConstraints";
              Request.params := VObject [("tccPath", VString "test-tcc.json")];
              Request.id := VNumber 2 |}).
  - reflexivity.
  - left. split; reflexivity.
Defined.

(** C7, as stated, fails: a request whose params are [null] has no
    specPath, and it is answered with code -32603, not -32602. *)
Lemma C7_null_params_is_internal_error :
  exists response,
    dispatches test_runtime
      {| Request.method := "checkConstraints"; Request.params := VNull;
         Request.id := VNumber 8 |} response
    /\ own_property VNull "specPath" = VUndefined
    /\ Response.error response
       = Some {| code := -32603;
                 message := "Cannot destructure property 'tccPath' of "
                            ++ "'request.params' as it is null." |}
    /\ forall text,
         Response.error response
         <> Some {| code := -32602; message := text |}.
Proof.
  eexists. split; [split; vm_compute; reflexivity|].
  split; [reflexivity|]. split; [reflexivity|].
  intros text. discriminate.
Qed.

(** C10.  A checkConstraints request without params is answered on both
    transports by an error envelope with code -32603 and the id of the
    request: reading [tccPath] and [specPath] from [undefined] throws
    before the parameters are checked, and the handler's own [catch] turns
    the [TypeError] into the response. *)
Theorem C10_absent_params_is_internal_error :
  forall (rt : Runtime) (request : McpRequest),
    Request.method request = "checkConstraints" ->
    Request.params request = VUndefined ->
    exists response text,
      dispatches rt request response
      /\ McpAdapter.handleCheckConstraints rt request = Fulfilled response
      /\ McpStdioServer.handleCheckConstraints rt request = Fulfilled response
      /\ destructure_params (Request.params request)
         = Rejected (ErrorObject text)
      /\ Response.error response = Some {| code := -32603; message := text |}
      /\ Response.result response = None
      /\ Response.id response = Request.id request.
Proof.
  intros rt request Hmethod Hparams.
  assert (Hhandler :
    McpAdapter.handleCheckConstraints rt request
    = Fulfilled
        (error_response (-32603)
           "Cannot destructure property 'tccPath' of 'request.params' as it is undefined."
           (Request.id request))).
  { unfold McpAdapter.handleCheckConstraints. rewrite Hparams. reflexivity. }
  eexists. eexists. split.
  - apply dispatch_checkConstraints; [exact Hmethod | exact Hhandler].
  - split; [exact Hhandler|]. split; [exact Hhandler|].
    rewrite Hparams. repeat split.
Qed.

(** A checkConstraints request that has no params, id 7. *)
Lemma C10_absent_params_is_internal_error_witness :
  exists response text,
    dispatches test_runtime
      {| Request.method := "checkConstraints"; Request.params := VUndefined;
         Request.id := VNumber 7 |} response
    /\ Response.error response = Some {| code := -32603; message := text |}
    /\ Response.id response = VNumber 7.
Proof.
  destruct (C10_absent_params_is_internal_error test_runtime
              {| Request.method := "checkConstraints";
                 Request.params := VUndefined;
                 Request.id := VNumber 7 |} eq_refl eq_refl)
    as (response & text & Hd & _ & _ & _ & He & _ & Hid).
  exists response, text. repeat split; assumption || apply Hd.
Defined.

(** C1, on the code.  With both paths given, both documents loaded and a
    generation that yields two constraints, the answer is a success
    envelope with the id of the request, an empty [violations] list and a
    timestamp -- but its [constraints] field is the promise returned by
    [generateConstraints], which the handler does not await: it is not a
    list of length 2, and it is written to the wire as an empty object. *)
Theorem C1_checkConstraints_answers_with_unawaited_promise :
  forall (rt : Runtime) (request : McpRequest)
         (tccPath specPath specification tcc c1 c2 : JsValue),
    Request.method request = "checkConstraints" ->
    destructure_params (Request.params request)
    = Fulfilled (tccPath, specPath) ->
    truthy tccPath = true ->
    truthy specPath = true ->
    loadSpecification rt specPath = Fulfilled specification ->
    loadSpecification rt tccPath = Fulfilled tcc ->
    ConstraintGenerator.generateConstraints_unchecked (templates rt) tcc
    = Fulfilled (VArray [c1; c2]) ->
    exists response result,
      dispatches rt request response
      /\ Response.result response = Some result
      /\ Response.error response = None
      /\ Response.id response = Request.id request
      /\ own_property result "violations" = VArray []
      /\ own_property result "timestamp" = VString (now rt)
      /\ own_property result "constraints"
         = VPromise (Fulfilled (VArray [c1; c2]))
      /\ ~ array_of_length (own_property result "constraints") 2
      /\ JSON_stringify (own_property result "constraints") = Some "{}".
Proof.
  intros rt request tccPath specPath specification tcc c1 c2
         Hmethod Hparams Htcc Hspec Hload1 Hload2 Hgen.
  eexists. eexists. split.
  - apply dispatch_checkConstraints; [exact Hmethod|].
    rewrite (handleCheckConstraints_loads rt request tccPath specPath
               Hparams Htcc Hspec).
    rewrite Hload1, Hload2, Hgen. reflexivity.
  - cbn. repeat split.
    intros [items [Habs _]]. discriminate Habs.
Qed.

(** The successful request of the integration test, run against the
    generator of the repository: the line written by the stdio server
    carries [constraints] as an empty object. *)
Lemma C1_checkConstraints_answers_with_unawaited_promise_witness :
  (exists response result,
      dispatches test_runtime
        (check_request "test-tcc.json" "test-spec.json" 1) response
      /\ Response.result response = Some result
      /\ Response.id response = VNumber 1
      /\ ~ array_of_length (own_property result "constraints") 2)
  /\ McpStdioServer.handleMcpRequest test_runtime
       (check_request "test-tcc.json" "test-spec.json" 1)
     = ["{" ++ quote "result" ++ ":{" ++ quote "constraints" ++ ":{},"
            ++ quote "violations" ++ ":[]," ++ quote "timestamp" ++ ":"
            ++ quote sample_now ++ "}," ++ quote "id" ++ ":1}" ++ newline].
Proof.
  split; [|vm_compute; reflexivity].
  destruct (C1_checkConstraints_answers_with_unawaited_promise
              test_runtime (check_request "test-tcc.json" "test-spec.json" 1)
              (VString "test-tcc.json") (VString "test-spec.json")
              testSpec (TCC.to_value testTcc)
              (ConstraintGenerator.Template_to_value input_validation)
              (VObject
                 [("id", VString "InputValidation@PaymentService");
                  ("name", VString "InputValidation@PaymentService");
                  ("category", VString "OTHER");
                  ("description", VString "Constraint from task context");
                  ("rule", VString "context.InputValidation@PaymentService");
                  ("applicableTasks", VArray [VString "financial"]);
                  ("severity", VString "WARNING")])
              eq_refl eq_refl eq_refl eq_refl eq_refl eq_refl
              ltac:(vm_compute; reflexivity))
    as (response & result & Hd & Hr & _ & Hid & _ & _ & _ & Hnot & _).
  exists response, result. repeat split; try assumption; apply Hd.
Defined.

(** C5, on the code.  Inside the checkConstraints handler a failed
    specification load is answered with code -32001 and a failed capsule
    load with code -32002, each with a message that ends with the text of
    the cause and with the id of the request.  A failed constraint
    generation is not answered with -32003: the rejection stays inside the
    promise that is placed, unawaited, in a success envelope, and no
    request whatever is answered with code -32003. *)
Theorem C5_load_failures_reported_generation_failure_not :
  forall (rt : Runtime) (request : McpRequest) (tccPath specPath : JsValue),
    Request.method request = "checkConstraints" ->
    destructure_params (Request.params request)
    = Fulfilled (tccPath, specPath) ->
    truthy tccPath = true ->
    truthy specPath = true ->
    (forall cause,
        loadSpecification rt specPath = Rejected (ErrorObject cause) ->
        dispatches rt request
          (error_response (-32001) ("Failed to load specification: " ++ cause)
             (Request.id request)))
    /\ (forall specification cause,
          loadSpecification rt specPath = Fulfilled specification ->
          loadSpecification rt tccPath = Rejected (ErrorObject cause) ->
          dispatches rt request
            (error_response (-32002)
               ("Failed to load task context capsule: " ++ cause)
               (Request.id request)))
    /\ (forall specification tcc cause,
          loadSpecification rt specPath = Fulfilled specification ->
          loadSpecification rt tccPath = Fulfilled tcc ->
          ConstraintGenerator.generateConstraints_unchecked (templates rt) tcc
          = Rejected (ErrorObject cause) ->
          dispatches rt request
            (result_response
               (VObject [("constraints",
                           VPromise (Rejected (ErrorObject cause)));
                         ("violations", VArray []);
                         ("timestamp", VString (now rt))])
               (Request.id request)))
    /\ (forall request' response e,
          McpAdapter.handleMcpRequest rt request' = Fulfilled response ->
          Response.error response = Some e ->
          code e <> -32003).
Proof.
  intros rt request tccPath specPath Hmethod Hparams Htcc Hspec.
  pose proof (handleCheckConstraints_loads rt request tccPath specPath
                Hparams Htcc Hspec) as Hloads.
  split; [|split; [|split]].
  - intros cause Hload. apply dispatch_checkConstraints; [exact Hmethod|].
    rewrite Hloads, Hload. reflexivity.
  - intros specification cause Hload1 Hload2.
    apply dispatch_checkConstraints; [exact Hmethod|].
    rewrite Hloads, Hload1, Hload2. reflexivity.
  - intros specification tcc cause Hload1 Hload2 Hgen.
    apply dispatch_checkConstraints; [exact Hmethod|].
    rewrite Hloads, Hload1, Hload2, Hgen. reflexivity.
  - intros request' response e.
    apply dispatcher_never_answers_32003.
Qed.

(** A capsule document saved without its [context]: generation fails with
    a [TypeError], and the request is answered with a success envelope
    whose [constraints] is written as an empty object. *)
Lemma C5_load_failures_reported_generation_failure_not_witness :
  ConstraintGenerator.generateConstraints_unchecked sample_store
    headless_document
  = Rejected
      (ErrorObject
         ("Failed to generate constraints: "
          ++ "Cannot read properties of undefined (reading 'relevantConstraints')"))
  /\ dispatches test_runtime
       (check_request "no-context.json" "test-spec.json" 6)
       (result_response
          (VObject
             [("constraints",
                VPromise
                  (Rejected
                     (ErrorObject
                        ("Failed to generate constraints: "
                         ++ "Cannot read properties of undefined (reading 'relevantConstraints')"))));
              ("violations", VArray []);
              ("timestamp", VString sample_now)])
          (VNumber 6))
  /\ McpStdioServer.handleMcpRequest test_runtime
       (check_request "no-context.json" "test-spec.json" 6)
     = ["{" ++ quote "result" ++ ":{" ++ quote "constraints" ++ ":{},"
            ++ quote "violations" ++ ":[]," ++ quote "timestamp" ++ ":"
            ++ quote sample_now ++ "}," ++ quote "id" ++ ":6}" ++ newline]
  /\ dispatches test_runtime
       (check_request "test-tcc.json" "missing.json" 8)
       (error_response (-32001)
          "Failed to load specification: File not found: missing.json"
          (VNumber 8))
  /\ dispatches test_runtime
       (check_request "missing.json" "test-spec.json" 9)
       (error_response (-32002)
          "Failed to load task context capsule: File not found: missing.json"
          (VNumber 9)).
Proof.
  split; [vm_compute; reflexivity|].
  split.
  - destruct (C5_load_failures_reported_generation_failure_not
                test_runtime
                (check_request "no-context.json" "test-spec.json" 6)
                (VString "no-context.json") (VString "test-spec.json")
                eq_refl eq_refl eq_refl eq_refl)
      as (_ & _ & Hgen & _).
    apply (Hgen testSpec headless_document); vm_compute; reflexivity.
  - split; [vm_compute; reflexivity|]. split.
    + destruct (C5_load_failures_reported_generation_failure_not
                  test_runtime
                  (check_request "test-tcc.json" "missing.json" 8)
                  (VString "test-tcc.json") (VString "missing.json")
                  eq_refl eq_refl eq_refl eq_refl)
        as (H1 & _).
      apply (H1 "File not found: missing.json"). reflexivity.
    + destruct (C5_load_failures_reported_generation_failure_not
                  test_runtime
                  (check_request "missing.json" "test-spec.json" 9)
                  (VString "missing.json") (VString "test-spec.json")
                  eq_refl eq_refl eq_refl eq_refl)
        as (_ & H2 & _).
      apply (H2 testSpec "File not found: missing.json"); reflexivity.
Defined.

(* ===================================================================== *)
(** ** Further properties of core/specification/TccGenerator.ts *)
(* ===================================================================== *)

Section Unique_facts.

Let step (seen : list string) (x : string) : list string :=
  if existsb (String.eqb x) seen then seen else (seen ++ [x])%list.

Lemma existsb_eqb_In (x : string) (seen : list string) :
  existsb (String.eqb x) seen = true <-> In x seen.
Proof.
  rewrite existsb_exists. split.
  - intros [y [Hin Heq]]. apply String.eqb_eq in Heq. now subst y.
  - intro Hin. exists x. split; [exact Hin | apply String.eqb_refl].
Qed.

(** Folding the insertion of [xs] into [seen] keeps [seen] as a prefix,
    adds exactly the elements of [xs], and adds none twice. *)
Lemma insert_all (xs : list string) :
  forall seen,
    (exists added, fold_left step xs seen = (seen ++ added)%list)
    /\ (forall x, In x (fold_left step xs seen) <-> In x seen \/ In x xs)
    /\ (NoDup seen -> NoDup (fold_left step xs seen)).
Proof.
  induction xs as [|x xs IH]; intro seen; cbn [fold_left].
  - split; [exists []; now rewrite app_nil_r|]. split; [|auto].
    intro y. cbn. tauto.
  - destruct (IH (step seen x)) as ([added Hadded] & Hin & Hnodup).
    assert (Hstep : (existsb (String.eqb x) seen = true /\ step seen x = seen)
                    \/ (~ In x seen /\ step seen x = (seen ++ [x])%list)).
    { unfold step. destruct (existsb (String.eqb x) seen) eqn:E.
      - left. split; reflexivity.
      - right. split; [|reflexivity]. intro Habs.
        apply existsb_eqb_In in Habs. congruence. }
    split; [|split].
    + destruct Hstep as [[_ Hs]|[_ Hs]]; rewrite Hs in Hadded; rewrite Hs.
      * exists added. exact Hadded.
      * exists (x :: added). rewrite Hadded, <- app_assoc. reflexivity.
    + intro y. rewrite Hin.
      destruct Hstep as [[Hx Hs]|[_ Hs]]; rewrite Hs.
      * apply existsb_eqb_In in Hx. cbn. split.
        -- intros [H|H]; auto.
        -- intros [H|[H|H]]; auto. subst y. auto.
      * rewrite in_app_iff. cbn. tauto.
    + intro Hseen. apply Hnodup.
      destruct Hstep as [[_ Hs]|[Hx Hs]]; rewrite Hs; [exact Hseen|].
      apply NoDup_app; [exact Hseen | repeat constructor; cbn; tauto |].
      intros y Hy [<-|[]]. exact (Hx Hy).
Qed.

Lemma unique_spec (xs : list string) :
  NoDup (unique xs) /\ (forall x, In x (unique xs) <-> In x xs).
Proof.
  destruct (insert_all xs []) as (_ & Hin & Hnodup).
  split; [apply Hnodup; constructor|].
  intro x. unfold unique. fold step. rewrite Hin. cbn. tauto.
Qed.

(** A list without duplicates stays in front, as it is. *)
Lemma unique_app_prefix (table ids : list string) :
  unique table = table ->
  exists added, unique (table ++ ids) = (table ++ added)%list.
Proof.
  intro Htable. unfold unique in *. fold step in Htable |- *.
  rewrite fold_left_app, Htable.
  destruct (insert_all ids table) as (Hadded & _). exact Hadded.
Qed.

End Unique_facts.

Lemma constraintsForTaskType_unique
    (toUpperCase : string -> string) (taskType : string) :
  unique (TccGenerator.constraintsForTaskType toUpperCase taskType)
  = TccGenerator.constraintsForTaskType toUpperCase taskType.
Proof.
  unfold TccGenerator.constraintsForTaskType.
  repeat match goal with
         | |- context [if ?b then _ else _] => destruct b
         end; reflexivity.
Qed.

(** What [generateTCC] returns is the capsule under check with its
    [size] written. *)
Lemma generateTCC_returns_candidate
    (toUpperCase : string -> string)
    (loadSpecification : JsValue -> Settled JsValue)
    (taskConstraintsEntry : JsValue -> string -> SpecEntry)
    (now taskId goal taskType : string)
    (source : option string) (priority : option TCC.Priority.t)
    (tcc : TCC.TaskContextCapsule) :
  TccGenerator.generateTCC toUpperCase loadSpecification
    taskConstraintsEntry now taskId goal taskType source priority
  = Fulfilled tcc ->
  exists n,
    tcc = TCC.set_size
            (TccGenerator.capsule_under_check toUpperCase loadSpecification
               taskConstraintsEntry now taskId goal taskType
               match source with Some s => s | None => "user-request" end
               match priority with
               | Some p => p
               | None => TCC.Priority.MEDIUM
               end) n.
Proof.
  intro Hgen. rewrite generateTCC_unfold in Hgen. cbv zeta in Hgen.
  match type of Hgen with
  | (if ?b then _ else _) = _ => destruct b; [|discriminate]
  end.
  injection Hgen as <-. eexists. reflexivity.
Qed.

(** The relevant constraints of a returned capsule, by the value that
    the specification holds for the task type. *)
Lemma relevant_constraints_given_entry
    (toUpperCase : string -> string)
    (loadSpecification : JsValue -> Settled JsValue)
    (taskConstraintsEntry : JsValue -> string -> SpecEntry)
    (now taskId goal taskType : string)
    (source : option string) (priority : option TCC.Priority.t)
    (tcc : TCC.TaskContextCapsule) :
  TccGenerator.generateTCC toUpperCase loadSpecification
    taskConstraintsEntry now taskId goal taskType source priority
  = Fulfilled tcc ->
  let table := TccGenerator.constraintsForTaskType toUpperCase taskType in
  let found := TCC.relevantConstraints (TCC.context tcc) in
  NoDup found
  /\ (forall spec,
        loadSpecification TccGenerator.bsl_schema_path = Fulfilled spec ->
        taskConstraintsEntry spec taskType = EntryFalsy ->
        found = table)
  /\ (forall spec ids,
        loadSpecification TccGenerator.bsl_schema_path = Fulfilled spec ->
        taskConstraintsEntry spec taskType = EntryIterable ids ->
        (exists added, found = (table ++ added)%list)
        /\ forall x, In x found <-> In x table \/ In x ids)
  /\ (forall spec,
        loadSpecification TccGenerator.bsl_schema_path = Fulfilled spec ->
        taskConstraintsEntry spec taskType = EntryNotIterable ->
        found = []).
Proof.
  revert toUpperCase loadSpecification taskConstraintsEntry now taskId goal
    taskType source priority tcc.
  intros up load entry now taskId goal taskType source priority tcc Hgen
         table found.
  destruct (generateTCC_returns_candidate up load entry now taskId goal
              taskType source priority tcc Hgen) as [n ->].
  destruct (createTCC_fields now taskId goal taskType)
    as (_ & _ & Htype & Hnone & _).
  unfold found. cbn [TCC.set_size TCC.context].
  unfold TccGenerator.capsule_under_check,
    TccGenerator.extractRelevantConstraints.
  cbn [TCC.taskType TCC.set_context TCC.context TCC.set_source
       TCC.set_priority TCC.relevantConstraints].
  rewrite Htype. fold table.
  destruct (load TccGenerator.bsl_schema_path) as [spec|e].
  - destruct (entry spec taskType) as [|ids|] eqn:Hentry;
      cbn [TCC.set_context TCC.context TCC.set_relevantConstraints
           TCC.relevantConstraints TCC.set_source TCC.set_priority].
    + split; [apply unique_spec|]. split; [|split].
      * intros _ _ _. apply constraintsForTaskType_unique.
      * intros spec' ids' [= <-] Hentry'. congruence.
      * intros spec' [= <-] Hentry'. congruence.
    + split; [apply unique_spec|]. split; [|split].
      * intros spec' [= <-] Hentry'. congruence.
      * intros spec' ids' [= <-] Hentry'.
        assert (ids' = ids) as -> by congruence. split.
        -- apply unique_app_prefix. apply constraintsForTaskType_unique.
        -- intro x. rewrite (proj2 (unique_spec _)). apply in_app_iff.
      * intros spec' [= <-] Hentry'. congruence.
    + rewrite Hnone. split; [constructor|]. split; [|split].
      * intros spec' [= <-] Hentry'. congruence.
      * intros spec' ids' [= <-] Hentry'. congruence.
      * intros _ _ _. reflexivity.
  - cbn [TCC.set_context TCC.context TCC.set_relevantConstraints
         TCC.relevantConstraints TCC.set_source TCC.set_priority].
    rewrite Hnone. split; [constructor|]. split; [|split].
    + intros spec [=].
    + intros spec ids [=].
    + intros spec [=].
Qed.

(** The documents on which the expression is an array of strings. *)
Lemma taskConstraints_entry_iterable (spec : JsValue) (taskType : string)
    (ids : list string) :
  taskConstraints_entry spec taskType = Some (EntryIterable ids)
  <-> exists props items,
        optional_member (optional_member spec "metadata") "taskConstraints"
        = VObject props
        /\ lookup taskType props = Some (VArray items)
        /\ strings_of items = Some ids.
Proof.
  unfold taskConstraints_entry. cbv zeta.
  destruct (optional_member (optional_member spec "metadata")
              "taskConstraints") as [| |b|n|s|items|props|state];
    try (split; [discriminate | intros (props' & items' & H & _);
                                discriminate H]).
  split.
  - intro Hentry. exists props.
    destruct (lookup taskType props) as [value|].
    + unfold entry_of_value in Hentry.
      destruct (truthy value); cbn [negb] in Hentry;
        [|discriminate Hentry].
      destruct value as [| |b|n|s|items|props'|state];
        try discriminate Hentry.
      exists items. destruct (strings_of items) as [ids'|];
        [|discriminate Hentry].
      injection Hentry as ->. auto.
    + destruct (existsb (String.eqb taskType) Object_prototype_properties);
        discriminate Hentry.
  - intros (props' & items & [= <-] & -> & Hstrings).
    unfold entry_of_value. cbn [truthy negb]. rewrite Hstrings. reflexivity.
Qed.

(** X1.  The relevant constraints of every capsule that [generateTCC]
    returns hold no identifier twice.  For a global specification that
    loads with a [metadata.taskConstraints] that is absent, [null] or an
    object: when [spec?.metadata?.taskConstraints?.[taskType]] is falsy,
    they are the identifiers of the lookup table for the task type; when
    it is an array of strings -- an own property of the object -- they
    begin with the identifiers of the table, in table order, and hold
    besides exactly the identifiers of that array; when it is a truthy
    value that cannot be spread, such as the property that an object
    inherits under the name "constructor", the list is empty. *)
Theorem generateTCC_relevant_constraints_table_first_no_duplicates :
  forall (toUpperCase : string -> string)
         (loadSpecification : JsValue -> Settled JsValue)
         (elsewhere : JsValue -> string -> SpecEntry)
         (now taskId goal taskType : string)
         (source : option string) (priority : option TCC.Priority.t)
         (tcc : TCC.TaskContextCapsule),
    TccGenerator.generateTCC toUpperCase loadSpecification
      (taskConstraintsEntry_of elsewhere) now taskId goal taskType
      source priority
    = Fulfilled tcc ->
    let table := TccGenerator.constraintsForTaskType toUpperCase taskType in
    let found := TCC.relevantConstraints (TCC.context tcc) in
    NoDup found
    /\ (forall spec,
          loadSpecification TccGenerator.bsl_schema_path = Fulfilled spec ->
          taskConstraints_entry spec taskType = Some EntryFalsy ->
          found = table)
    /\ (forall spec props items ids,
          loadSpecification TccGenerator.bsl_schema_path = Fulfilled spec ->
          optional_member (optional_member spec "metadata") "taskConstraints"
          = VObject props ->
          lookup taskType props = Some (VArray items) ->
          strings_of items = Some ids ->
          (exists added, found = (table ++ added)%list)
          /\ forall x, In x found <-> In x table \/ In x ids)
    /\ (forall spec,
          loadSpecification TccGenerator.bsl_schema_path = Fulfilled spec ->
          taskConstraints_entry spec taskType = Some EntryNotIterable ->
          found = [])
    /\ (forall spec props,
          loadSpecification TccGenerator.bsl_schema_path = Fulfilled spec ->
          optional_member (optional_member spec "metadata") "taskConstraints"
          = VObject props ->
          lookup taskType props = None ->
          In taskType Object_prototype_properties ->
          found = []).
Proof.
  intros up load elsewhere now taskId goal taskType source priority tcc
    Hgen table found.
  destruct (relevant_constraints_given_entry up load
              (taskConstraintsEntry_of elsewhere) now taskId goal taskType
              source priority tcc Hgen)
    as (Hnodup & Hfalsy & Hiterable & Hnot).
  fold table found in Hfalsy, Hiterable, Hnot.
  split; [exact Hnodup|]. split; [|split; [|split]].
  - intros spec Hload Hentry. apply (Hfalsy spec Hload).
    apply taskConstraintsEntry_of_covered. exact Hentry.
  - intros spec props items ids Hload Hobject Hown Hstrings.
    apply (Hiterable spec ids Hload).
    apply taskConstraintsEntry_of_covered.
    apply taskConstraints_entry_iterable. exists props, items. auto.
  - intros spec Hload Hentry. apply (Hnot spec Hload).
    apply taskConstraintsEntry_of_covered. exact Hentry.
  - intros spec props Hload Hobject Hown Hinherited.
    apply (Hnot spec Hload). apply taskConstraintsEntry_of_covered.
    unfold taskConstraints_entry. cbv zeta. rewrite Hobject, Hown.
    apply inherited_property_spec in Hinherited. rewrite Hinherited.
    reflexivity.
Qed.

(** A FINANCIAL task against a specification that lists SEC-002 again
    and one identifier of its own. *)
Lemma generateTCC_relevant_constraints_table_first_no_duplicates_witness :
  exists tcc,
    TccGenerator.generateTCC ascii_toUpperCase
      (fun _ => Fulfilled financial_specification)
      (taskConstraintsEntry_of no_entry)
      sample_now "T001" "ProcessPayment" "financial" None None
    = Fulfilled tcc
    /\ NoDup (TCC.relevantConstraints (TCC.context tcc))
    /\ exists added,
         TCC.relevantConstraints (TCC.context tcc)
         = (["SEC-002"; "SEC-003"; "PERF-002"] ++ added)%list.
Proof.
  eexists. split; [vm_compute; reflexivity|].
  match goal with
  | |- NoDup (TCC.relevantConstraints (TCC.context ?t)) /\ _ =>
      destruct (generateTCC_relevant_constraints_table_first_no_duplicates
                  ascii_toUpperCase
                  (fun _ => Fulfilled financial_specification)
                  no_entry
                  sample_now "T001" "ProcessPayment" "financial" None None
                  t ltac:(vm_compute; reflexivity))
        as (Hnodup & _ & Hiter & _)
  end.
  split; [exact Hnodup|].
  exact (proj1 (Hiter financial_specification
                  [("financial", VArray [VString "SEC-002"; VString "X-1"])]
                  [VString "SEC-002"; VString "X-1"] ["SEC-002"; "X-1"]
                  eq_refl eq_refl eq_refl eq_refl)).
Defined.

Lemma quote_char_not_empty (c : ascii) :
  (1 <= String.length (quote_char c))%nat.
Proof.
  destruct c as [[] [] [] [] [] [] [] []]; vm_compute; repeat constructor.
Qed.

Lemma quote_body_length (s : string) :
  (String.length s <= String.length (quote_body s))%nat.
Proof.
  induction s as [|c s IH]; cbn [quote_body String.length]; [lia|].
  rewrite length_append. pose proof (quote_char_not_empty c). lia.
Qed.

(** A capsule serialises to more bytes than its three texts hold. *)
Lemma serialised_length_above_texts (tcc : TCC.TaskContextCapsule) :
  Z.of_nat (String.length (TCC.taskId tcc) + String.length (TCC.goal tcc)
            + String.length (TCC.taskType tcc))
  < byte_size (stringify (TCC.to_value tcc)).
Proof.
  destruct tcc as [a b c ctx sz v].
  unfold byte_size, stringify, TCC.to_value.
  cbn [TCC.taskId TCC.goal TCC.taskType TCC.context TCC.size TCC.version].
  cbn [JSON_stringify flat_map snd fst app join].
  unfold quote. rewrite !length_append. cbn [String.length dquote].
  pose proof (quote_body_length a). pose proof (quote_body_length b).
  pose proof (quote_body_length c). lia.
Qed.

(** X2.  [generateTCC] rejects every task whose identifier, goal and type
    hold 10240 bytes or more between them, whatever the specification
    service answers: the error names the measured size, which is at least
    10240. *)
Theorem generateTCC_rejects_oversized_texts :
  forall (toUpperCase : string -> string)
         (loadSpecification : JsValue -> Settled JsValue)
         (taskConstraintsEntry : JsValue -> string -> SpecEntry)
         (now taskId goal taskType : string)
         (source : option string) (priority : option TCC.Priority.t),
    10240 <= Z.of_nat (String.length taskId + String.length goal
                       + String.length taskType) ->
    exists measured,
      10240 <= measured
      /\ TccGenerator.generateTCC toUpperCase loadSpecification
           taskConstraintsEntry now taskId goal taskType source priority
         = Rejected
             (ErrorObject
                ("Failed to generate TCC: TCC size exceeds limit: "
                 ++ number_to_string measured ++ " bytes")).
Proof.
  intros up load entry now taskId goal taskType source priority Hlong.
  rewrite generateTCC_unfold. cbv zeta.
  match goal with
  | |- context [byte_size (stringify (TCC.to_value ?c))] => set (candidate := c)
  end.
  assert (Hfields : TCC.taskId candidate = taskId
                    /\ TCC.goal candidate = goal
                    /\ TCC.taskType candidate = taskType).
  { unfold candidate, TccGenerator.capsule_under_check.
    match goal with
    | |- context [TccGenerator.extractRelevantConstraints _ _ _ ?t] =>
        destruct (extractRelevantConstraints_frame up load entry t)
          as [ids ->]
    end.
    cbn [TCC.taskId TCC.goal TCC.taskType TCC.set_context].
    destruct (createTCC_fields now taskId goal taskType) as (H1 & H2 & H3 & _).
    auto. }
  destruct Hfields as (H1 & H2 & H3).
  pose proof (serialised_length_above_texts candidate) as Hlen.
  rewrite H1, H2, H3 in Hlen.
  exists (byte_size (stringify (TCC.to_value candidate))).
  split; [lia|].
  destruct (Z.ltb_spec (byte_size (stringify (TCC.to_value candidate))) 10240);
    [lia | reflexivity].
Qed.

(** The goal of 10240 letters. *)
Lemma generateTCC_rejects_oversized_texts_witness :
  exists measured,
    10240 <= measured
    /\ TccGenerator.generateTCC ascii_toUpperCase plain_specification no_entry
         sample_now "T001" long_goal "API" None None
       = Rejected
           (ErrorObject
              ("Failed to generate TCC: TCC size exceeds limit: "
               ++ number_to_string measured ++ " bytes")).
Proof.
  apply (generateTCC_rejects_oversized_texts ascii_toUpperCase
           plain_specification no_entry sample_now "T001" long_goal "API"
           None None).
  vm_compute. discriminate.
Defined.

(** X3.  The [size] that [createTCC] records understates the capsule it
    returns: the returned capsule serialises to [size] plus the number of
    digits of [size] minus one, which is at least one byte more. *)
Theorem createTCC_size_understates_serialised_length :
  forall now taskId goal taskType : string,
    let tcc := TCC.createTCC now taskId goal taskType in
    byte_size (stringify (TCC.to_value tcc))
    = TCC.size tcc
      + Z.of_nat (String.length (number_to_string (TCC.size tcc))) - 1
    /\ TCC.size tcc < byte_size (stringify (TCC.to_value tcc)).
Proof.
  intros now taskId goal taskType tcc.
  assert (Hlen :
    byte_size (stringify (TCC.to_value tcc))
    = TCC.size tcc
      + Z.of_nat (String.length (number_to_string (TCC.size tcc))) - 1).
  { unfold tcc, TCC.createTCC.
    match goal with
    | |- context [TCC.validateTCCSize ?t] => set (fresh := t)
    end.
    rewrite validateTCCSize_capsule.
    pose proof (serialised_length_after_update fresh
                  (byte_size (stringify (TCC.to_value fresh)))) as Hlen.
    change (TCC.size fresh) with 0 in Hlen.
    change (String.length (number_to_string 0)) with 1%nat in Hlen.
    cbn [TCC.size TCC.set_size]. lia. }
  split; [exact Hlen|].
  assert (10 <= TCC.size tcc).
  { pose proof (serialised_length_above_texts tcc) as Habove.
    assert (Hfixed : 10 <= byte_size (stringify (TCC.to_value tcc))
                           - Z.of_nat (String.length
                                         (number_to_string (TCC.size tcc)))).
    { clear Hlen Habove. destruct tcc as [a b c ctx sz v].
      unfold byte_size, stringify, TCC.to_value.
      cbn [TCC.taskId TCC.goal TCC.taskType TCC.context TCC.size TCC.version].
      cbn [JSON_stringify flat_map snd fst app join].
      unfold quote. rewrite !length_append. cbn [String.length dquote]. lia. }
    lia. }
  pose proof (number_to_string_two_digits (TCC.size tcc)). lia.
Qed.

(* ===================================================================== *)
(** ** Further properties of the dispatchers *)
(* ===================================================================== *)

(** The error codes that the dispatcher can send. *)
Lemma handleCheckConstraints_envelope (rt : Runtime) (request : McpRequest) :
  exists response,
    McpAdapter.handleCheckConstraints rt request = Fulfilled response
    /\ Response.id response = Request.id request
    /\ ((exists v, Response.result response = Some v
                   /\ Response.error response = None)
        \/ (exists e, Response.error response = Some e
                      /\ Response.result response = None
                      /\ In (code e) [-32602; -32603; -32001; -32002])).
Proof.
  unfold McpAdapter.handleCheckConstraints.
  destruct (destructure_params (Request.params request))
    as [[tccPath specPath]|e0].
  - cbn [bind].
    destruct (negb (truthy tccPath) || negb (truthy specPath)).
    + eexists. split; [reflexivity|]. split; [reflexivity|].
      right. eexists. cbn. intuition.
    + destruct (loadSpecification rt specPath) as [spec|e1].
      * destruct (loadSpecification rt tccPath) as [tcc|e2].
        -- eexists. split; [reflexivity|]. split; [reflexivity|].
           left. eexists. split; reflexivity.
        -- eexists. split; [reflexivity|]. split; [reflexivity|].
           right. eexists. cbn. intuition.
      * eexists. split; [reflexivity|]. split; [reflexivity|].
        right. eexists. cbn. intuition.
  - eexists. split; [reflexivity|]. split; [reflexivity|].
    right. eexists. cbn. intuition.
Qed.

Lemma every_request_gets_one_envelope_aux (rt : Runtime)
    (request : McpRequest) :
  exists response,
    McpAdapter.handleMcpRequest rt request = Fulfilled response
    /\ Response.id response = Request.id request.
Proof.
  destruct (dispatch_total rt request) as (response & [Hadapter _] & Hid).
  exists response. split; assumption.
Qed.

(** Every request is answered by one envelope, a result or an error. *)
Lemma every_request_gets_one_envelope_shape :
  forall (rt : Runtime) (request : McpRequest),
  exists response,
    dispatches rt request response
    /\ Response.id response = Request.id request
    /\ ((exists v, Response.result response = Some v
                   /\ Response.error response = None)
        \/ (exists e, Response.error response = Some e
                      /\ Response.result response = None
                      /\ In (code e)
                           [-32601; -32602; -32603; -32001; -32002])).
Proof.
  intros rt request.
  destruct (String.eqb_spec (Request.method request) "checkConstraints")
    as [Hcheck|Hcheck].
  { destruct (handleCheckConstraints_envelope rt request)
      as (response & Hresponse & Hid & Hshape).
    exists response. split; [now apply dispatch_checkConstraints|].
    split; [exact Hid|].
    destruct Hshape as [Hres|(e & He & Hr & Hcode)]; [left; exact Hres|].
    right. exists e. split; [exact He|]. split; [exact Hr|].
    right. exact Hcode. }
  destruct (String.eqb_spec (Request.method request) "getSystemStatus")
    as [Hstatus|Hstatus].
  { exists (result_response
              (VObject [("status", VString "running");
                        ("version", VString "1.0.0");
                        ("uptime", uptime rt);
                        ("timestamp", VString (now rt))])
              (Request.id request)).
    split.
    - unfold dispatches, McpAdapter.handleMcpRequest,
        McpStdioServer.handleMcpRequest.
      rewrite Hstatus. split; reflexivity.
    - split; [reflexivity|]. left. eexists. split; reflexivity. }
  destruct (String.eqb_spec (Request.method request) "getEvolutionStage")
    as [Hstage|Hstage].
  { destruct (McpAdapter.handleGetEvolutionStage rt request)
      as [response|e] eqn:Hhandler; [|discriminate Hhandler].
    exists response. split.
    - unfold dispatches, McpAdapter.handleMcpRequest,
        McpStdioServer.handleMcpRequest.
      rewrite Hstage.
      change (McpStdioServer.handleGetEvolutionStage rt request)
        with (McpAdapter.handleGetEvolutionStage rt request).
      cbn [String.eqb Ascii.eqb Bool.eqb]. rewrite Hhandler.
      split; reflexivity.
    - injection Hhandler as <-. split; [reflexivity|].
      left. eexists. split; reflexivity. }
  exists (error_response (-32601) "Method not found" (Request.id request)).
  split; [now apply dispatch_unknown|]. split; [reflexivity|].
  right. eexists. cbn. intuition.
Qed.

(** When the answer of [handleCheckConstraints] holds a rejected promise. *)
Lemma unhandled_rejection_checkConstraints (rt : Runtime)
    (request : McpRequest) (response : McpResponse) (e : Thrown) :
  McpAdapter.handleCheckConstraints rt request = Fulfilled response ->
  (unhandled_rejection response = Some e
   <-> exists tccPath specPath specification tcc,
         destructure_params (Request.params request)
         = Fulfilled (tccPath, specPath)
         /\ truthy tccPath = true
         /\ truthy specPath = true
         /\ loadSpecification rt specPath = Fulfilled specification
         /\ loadSpecification rt tccPath = Fulfilled tcc
         /\ ConstraintGenerator.generateConstraints_unchecked
              (templates rt) tcc = Rejected e).
Proof.
  unfold McpAdapter.handleCheckConstraints.
  destruct (destructure_params (Request.params request))
    as [[tccPath specPath]|thrown] eqn:Hparams; cbn [bind try_catch].
  2:{ intros [= <-]. split; [discriminate|].
      intros (a & b & c & d & H & _). discriminate H. }
  destruct (truthy tccPath) eqn:Htcc; cbn [negb orb].
  2:{ intros [= <-]. split; [discriminate|].
      intros (a & b & c & d & [= <- <-] & H & _). congruence. }
  destruct (truthy specPath) eqn:Hspec; cbn [negb orb].
  2:{ intros [= <-]. split; [discriminate|].
      intros (a & b & c & d & [= <- <-] & _ & H & _). congruence. }
  destruct (loadSpecification rt specPath) as [specification|e1] eqn:Hload1.
  2:{ intros [= <-]. split; [discriminate|].
      intros (a & b & c & d & [= <- <-] & _ & _ & H & _). congruence. }
  destruct (loadSpecification rt tccPath) as [tcc|e2] eqn:Hload2.
  2:{ intros [= <-]. split; [discriminate|].
      intros (a & b & c & d & [= <- <-] & _ & _ & _ & H & _). congruence. }
  cbn [call_async try_catch]. intros [= <-].
  cbn [unhandled_rejection result_response Response.result own_property
       lookup String.eqb Ascii.eqb Bool.eqb].
  split.
  - destruct (ConstraintGenerator.generateConstraints_unchecked
                (templates rt) tcc) as [made|thrown] eqn:Hgen;
      [discriminate|]. intros [= <-].
    exists tccPath, specPath, specification, tcc. auto 10.
  - intros (a & b & c & d & [= <- <-] & _ & _ & H1 & H2 & Hgen).
    assert (d = tcc) as -> by congruence. rewrite Hgen. reflexivity.
Qed.

Lemma unhandled_rejection_dispatched (rt : Runtime)
    (request : McpRequest) (response : McpResponse) (e : Thrown) :
  McpAdapter.handleMcpRequest rt request = Fulfilled response ->
  (unhandled_rejection response = Some e
   <-> Request.method request = "checkConstraints"
       /\ exists tccPath specPath specification tcc,
            destructure_params (Request.params request)
            = Fulfilled (tccPath, specPath)
            /\ truthy tccPath = true
            /\ truthy specPath = true
            /\ loadSpecification rt specPath = Fulfilled specification
            /\ loadSpecification rt tccPath = Fulfilled tcc
            /\ ConstraintGenerator.generateConstraints_unchecked
                 (templates rt) tcc = Rejected e).
Proof.
  unfold McpAdapter.handleMcpRequest.
  destruct (String.eqb_spec (Request.method request) "checkConstraints")
    as [Hcheck|Hcheck].
  - destruct (handleCheckConstraints_envelope rt request)
      as (response' & Hresponse & _).
    rewrite Hresponse. cbn [try_catch]. intros [= <-].
    rewrite (unhandled_rejection_checkConstraints rt request response' e
               Hresponse).
    split; [intro H; split; [exact Hcheck | exact H] | intros [_ H]; exact H].
  - assert (Hnone : forall r,
               (if (Request.method request =? "getSystemStatus")%string
                then McpAdapter.handleGetSystemStatus rt request
                else if (Request.method request =? "getEvolutionStage")%string
                     then McpAdapter.handleGetEvolutionStage rt request
                     else Fulfilled
                            (error_response (-32601) "Method not found"
                               (Request.id request)))
               = Fulfilled r -> unhandled_rejection r = None).
    { intros r.
      destruct (Request.method request =? "getSystemStatus")%string;
        [intros [= <-]; reflexivity|].
      destruct (Request.method request =? "getEvolutionStage")%string;
        intros [= <-]; reflexivity. }
    destruct (if (Request.method request =? "getSystemStatus")%string
              then McpAdapter.handleGetSystemStatus rt request
              else if (Request.method request =? "getEvolutionStage")%string
                   then McpAdapter.handleGetEvolutionStage rt request
                   else Fulfilled
                          (error_response (-32601) "Method not found"
                             (Request.id request)))
      as [r|thrown] eqn:Hr; cbn [try_catch].
    + intros [= <-]. rewrite (Hnone r eq_refl).
      split; [discriminate | intros [H _]; contradiction].
    + intros [= <-]. split; [discriminate | intros [H _]; contradiction].
Qed.

(** X4.  Every request is answered on both transports by one envelope
    that carries the id of the request and holds either a result or an
    error, never both and never neither; the code of an error is one of
    -32601, -32602, -32603, -32001 and -32002.  The promise of the
    dispatcher itself is never rejected.  The promise that
    [handleCheckConstraints] leaves un-awaited in [result.constraints] is
    rejected -- an unhandled rejection, on which Node ends the process
    after the answer -- exactly when the method is checkConstraints, both
    parameters are truthy, both documents load and [generateConstraints]
    fails on the capsule document. *)
Theorem every_request_gets_one_envelope :
  forall (rt : Runtime) (request : McpRequest),
  exists response,
    dispatches rt request response
    /\ Response.id response = Request.id request
    /\ ((exists v, Response.result response = Some v
                   /\ Response.error response = None)
        \/ (exists e, Response.error response = Some e
                      /\ Response.result response = None
                      /\ In (code e)
                           [-32601; -32602; -32603; -32001; -32002]))
    /\ (forall e,
          unhandled_rejection response = Some e
          <-> Request.method request = "checkConstraints"
              /\ exists tccPath specPath specification tcc,
                   destructure_params (Request.params request)
                   = Fulfilled (tccPath, specPath)
                   /\ truthy tccPath = true
                   /\ truthy specPath = true
                   /\ loadSpecification rt specPath = Fulfilled specification
                   /\ loadSpecification rt tccPath = Fulfilled tcc
                   /\ ConstraintGenerator.generateConstraints_unchecked
                        (templates rt) tcc = Rejected e).
Proof.
  intros rt request.
  destruct (every_request_gets_one_envelope_shape rt request)
    as (response & Hdispatch & Hid & Hshape).
  exists response. split; [exact Hdispatch|]. split; [exact Hid|].
  split; [exact Hshape|].
  intro e. apply unhandled_rejection_dispatched. apply Hdispatch.
Qed.


(** X5.  A checkConstraints request whose [tccPath] or [specPath] is
    present but is the empty string, zero, [false] or [null] is answered
    like one that lacks the parameter -- code -32602, id preserved --
    whatever the other parameter is and without any document being
    loaded. *)
Theorem falsy_parameter_is_invalid_params :
  forall (rt : Runtime) (request : McpRequest),
    Request.method request = "checkConstraints" ->
    nullish (Request.params request) = false ->
    In (own_property (Request.params request) "tccPath")
       [VString ""; VNumber 0; VBool false; VNull]
    \/ In (own_property (Request.params request) "specPath")
          [VString ""; VNumber 0; VBool false; VNull] ->
    dispatches rt request
      (error_response (-32602)
         "Missing required parameters: tccPath and specPath"
         (Request.id request)).
Proof.
  intros rt request Hmethod Hpresent Hfalsy.
  apply dispatch_checkConstraints; [exact Hmethod|].
  apply (handleCheckConstraints_missing rt request
           (own_property (Request.params request) "tccPath")
           (own_property (Request.params request) "specPath")).
  - unfold destructure_params. now rewrite Hpresent.
  - destruct Hfalsy as [H|H]; [left|right];
      cbn in H; decompose [or] H; try contradiction;
      match goal with E : _ = own_property _ _ |- _ => rewrite <- E end;
      reflexivity.
Qed.

(** An empty [tccPath] beside a loadable [specPath], id 11. *)
Lemma falsy_parameter_is_invalid_params_witness :
  dispatches test_runtime (check_request "" "test-spec.json" 11)
    (error_response (-32602)
       "Missing required parameters: tccPath and specPath" (VNumber 11)).
Proof.
  apply (falsy_parameter_is_invalid_params test_runtime
           (check_request "" "test-spec.json" 11)).
  - reflexivity.
  - reflexivity.
  - left. left. reflexivity.
Defined.

(* ===================================================================== *)
(** ** Further properties of core/constraint/ConstraintGenerator.ts *)
(* ===================================================================== *)

(** The outcome of [map] for a callback that may throw. *)
Lemma map_in_order_cases {A B : Type} (f : A -> Settled B) (items : list A) :
  match ConstraintGenerator.map_in_order f items with
  | Fulfilled ys =>
      List.length ys = List.length items
      /\ Forall (fun x => exists y, f x = Fulfilled y) items
  | Rejected e => exists x, In x items /\ f x = Rejected e
  end.
Proof.
  induction items as [|x rest IH]; cbn [ConstraintGenerator.map_in_order].
  - split; [reflexivity | constructor].
  - destruct (f x) as [y|e] eqn:Hx; cbn [bind].
    + destruct (ConstraintGenerator.map_in_order f rest) as [ys|e];
        cbn [bind].
      * destruct IH as [Hlen Hall]. split; [cbn; now rewrite Hlen|].
        constructor; [exists y; exact Hx | exact Hall].
      * destruct IH as (x' & Hin & Hx'). exists x'. split; [now right|].
        exact Hx'.
    + exists x. split; [now left | exact Hx].
Qed.

(** X6.  Run on an unchecked document, [generateConstraints] fails
    exactly when the document is [null] or [undefined], or has no
    [context], or has a [context.relevantConstraints] that is not an
    array, or that is an array with an entry whose conversion to a string
    throws (an object with an own [toString] property, in the template
    literal of [rule]); the failure is always an [Error] whose message
    begins with "Failed to generate constraints: ".  Otherwise it yields
    one constraint per matched template and one per entry of
    [context.relevantConstraints]. *)
Theorem generateConstraints_fails_exactly_on_unusable_documents :
  forall (store : ConstraintGenerator.TemplateStore) (tcc : JsValue),
    let context := own_property tcc "context" in
    let relevant := own_property context "relevantConstraints" in
    match ConstraintGenerator.generateConstraints_unchecked store tcc with
    | Fulfilled generated =>
        nullish tcc = false
        /\ nullish context = false
        /\ exists items matched constraints,
             relevant = VArray items
             /\ Forall (fun id => exists text, ToString id = Fulfilled text)
                  items
             /\ ConstraintGenerator.matchTemplates store
                  (own_property tcc "taskType") = Fulfilled matched
             /\ generated = VArray constraints
             /\ List.length constraints
                = (List.length matched + List.length items)%nat
    | Rejected e =>
        (nullish tcc = true \/ nullish context = true
         \/ (forall items, relevant <> VArray items)
         \/ exists items id thrown,
              relevant = VArray items /\ In id items
              /\ ToString id = Rejected thrown)
        /\ exists cause,
             e = ErrorObject ("Failed to generate constraints: " ++ cause)
    end.
Proof.
  intros store tcc context relevant.
  unfold ConstraintGenerator.generateConstraints_unchecked, get_member.
  destruct (nullish tcc) eqn:Htcc.
  { cbn. split; [left; reflexivity | eexists; reflexivity]. }
  cbn [bind]. unfold ConstraintGenerator.matchTemplates at 1.
  cbn [try_catch bind]. fold context.
  destruct (nullish context) eqn:Hcontext.
  { cbn. split; [right; left; reflexivity | eexists; reflexivity]. }
  cbn [bind]. fold relevant.
  destruct relevant as [| |b|n|s|items|props|state] eqn:Hrelevant;
    cbn [ConstraintGenerator.array_map bind try_catch
         ConstraintGenerator.rethrow];
    try (split; [right; right; left; intros items' [=]
                | eexists; reflexivity]).
  match goal with
  | |- context [ConstraintGenerator.map_in_order ?f items] =>
      pose proof (map_in_order_cases f items) as Hmap;
      destruct (ConstraintGenerator.map_in_order f items) as [made|e]
  end; cbn [bind try_catch ConstraintGenerator.rethrow].
  - destruct Hmap as [Hlen Hall].
    split; [reflexivity|]. split; [reflexivity|].
    eexists. eexists. eexists.
    split; [reflexivity|]. split.
    { apply Forall_forall. intros id Hid.
      rewrite Forall_forall in Hall. destruct (Hall id Hid) as [made' Hmade].
      destruct (ToString id) as [text|thrown]; [eauto | discriminate Hmade]. }
    split; [reflexivity|]. split; [reflexivity|].
    now rewrite length_app, length_map, Hlen.
  - destruct Hmap as (id & Hid & Hthrown).
    assert (Hconv : ToString id = Rejected e).
    { destruct (ToString id) as [text|thrown]; cbn [bind] in Hthrown;
        [discriminate Hthrown | injection Hthrown as ->; reflexivity]. }
    destruct e as [message|]; cbn [ConstraintGenerator.rethrow];
      (split;
       [ right; right; right;
         exists items, id; eexists; split; [reflexivity|]; split;
         [exact Hid | exact Hconv]
       | eexists; reflexivity ]).
Qed.

(* ===================================================================== *)
(** ** Properties of core/specification/SpecificationManager.ts *)
(* ===================================================================== *)

(** Every failure of [ToString] is the same [TypeError]. *)
Lemma ToString_throws :
  forall (v : JsValue) (e : Thrown),
    ToString v = Rejected e -> e = conversion_error.
Proof.
  fix IH 1. intros v e.
  destruct v as [| |b|n|s|items|props|state]; cbn [ToString];
    try discriminate.
  - match goal with
    | |- bind (?texts items) _ = _ -> _ => set (conv := texts)
    end.
    assert (Hitems : forall e', conv items = Rejected e' ->
                                e' = conversion_error).
    { induction items as [|x rest IHrest]; intros e' H.
      - discriminate H.
      - cbn in H.
        assert (Hx : forall e0,
                   match x with
                   | VUndefined | VNull => Fulfilled ""
                   | _ => ToString x
                   end = Rejected e0 -> e0 = conversion_error).
        { intros e0 H0.
          assert (H1 : ToString x = Rejected e0)
            by (destruct x; try discriminate H0; exact H0).
          exact (IH x e0 H1). }
        destruct (match x with
                  | VUndefined | VNull => Fulfilled ""
                  | _ => ToString x
                  end) as [text|e0] eqn:Ex; cbn [bind] in H.
        + fold conv in H. destruct (conv rest) as [more|e1] eqn:Er;
            cbn [bind] in H; [discriminate H|].
          injection H as <-. apply IHrest. reflexivity.
        + injection H as <-. apply Hx. reflexivity. }
    intro H. destruct (conv items) as [parts|e'] eqn:Ec; cbn [bind] in H;
      [discriminate H|]. injection H as <-. apply Hitems. reflexivity.
  - destruct (lookup "toString" props); [|discriminate].
    intros [= <-]. reflexivity.
Qed.

(** X7.  [loadSpecification] returns a document only when the file was
    read, its text parsed to that very document and
    [validateSpecification] accepted it.  A failure is an [Error] whose
    message is "Failed to load specification from ", the path, a colon
    and the cause, whenever the path converts to a string -- a string
    path always does; for a path whose conversion throws, the [catch]
    clause throws while it builds that message, and the failure is the
    [TypeError] of the conversion. *)
Theorem loadSpecification_returns_valid_documents_only :
  forall (readFile : JsValue -> Settled string)
         (JSON_parse : string -> Settled JsValue)
         (schemaValidate : JsValue -> Settled (bool * list string))
         (path : JsValue),
    match SpecificationManager.loadSpecification readFile JSON_parse
            schemaValidate path with
    | Fulfilled spec =>
        exists data,
          readFile path = Fulfilled data
          /\ JSON_parse data = Fulfilled spec
          /\ SpecificationManager.isValid
               (SpecificationManager.validateSpecification schemaValidate spec)
             = true
          /\ exists messages, schemaValidate spec = Fulfilled (true, messages)
    | Rejected e =>
        match ToString path with
        | Fulfilled text =>
            exists cause,
              e = ErrorObject ("Failed to load specification from "
                               ++ text ++ ": " ++ cause)
        | Rejected _ =>
            e = ErrorObject "Cannot convert object to primitive value"
        end
    end.
Proof.
  intros readFile JSON_parse schemaValidate path.
  unfold SpecificationManager.loadSpecification.
  match goal with
  | |- match try_catch ?body _ with _ => _ end =>
      destruct body as [spec|e] eqn:Hbody
  end; cbn [try_catch].
  - destruct (readFile path) as [data|e] eqn:Hread; cbn [bind] in Hbody;
      [|discriminate Hbody].
    destruct (JSON_parse data) as [spec'|e] eqn:Hparse; cbn [bind] in Hbody;
      [|discriminate Hbody].
    unfold SpecificationManager.validateSpecification in *.
    destruct (schemaValidate spec') as [[[|] messages]|[m|]] eqn:Hvalid;
      cbn in Hbody; try discriminate Hbody.
    injection Hbody as <-.
    exists data. split; [reflexivity|]. split; [exact Hparse|].
    rewrite Hvalid. split; [reflexivity|]. exists messages. reflexivity.
  - destruct e as [message|];
      (destruct (ToString path) as [text|thrown] eqn:Hpath; cbn [bind];
       [eexists; reflexivity | exact (ToString_throws path thrown Hpath)]).
Qed.

Lemma loadSpecification_reports_validation_messages_aux
    (readFile : JsValue -> Settled string)
    (JSON_parse : string -> Settled JsValue)
    (schemaValidate : JsValue -> Settled (bool * list string))
    (path : JsValue) (data : string) (spec : JsValue) :
  readFile path = Fulfilled data ->
  JSON_parse data = Fulfilled spec ->
  (forall messages,
      schemaValidate spec = Fulfilled (false, messages) ->
      SpecificationManager.loadSpecification readFile JSON_parse
        schemaValidate path
      = (text <- ToString path ;;
         Rejected (ErrorObject
                     ("Failed to load specification from " ++ text
                      ++ ": Invalid specification: "
                      ++ join ", " messages)))%js)
  /\ (forall cause,
        schemaValidate spec = Rejected (ErrorObject cause) ->
        SpecificationManager.loadSpecification readFile JSON_parse
          schemaValidate path
        = (text <- ToString path ;;
           Rejected (ErrorObject
                       ("Failed to load specification from " ++ text
                        ++ ": Invalid specification: "
                        ++ "Schema validation failed: " ++ cause)))%js).
Proof.
  intros Hread Hparse.
  unfold SpecificationManager.loadSpecification,
    SpecificationManager.validateSpecification.
  rewrite Hread. cbn [bind]. rewrite Hparse. cbn [bind].
  split.
  - intros messages ->. reflexivity.
  - intros cause ->. reflexivity.
Qed.

(** X8.  A document that the schema refuses, and a document that cannot
    be validated because the validator itself fails, are both rejected by
    [loadSpecification] as an invalid specification: the message lists
    the validator's messages separated by a comma and a blank, or names
    the validator's failure.  The message begins with the path as the
    template literal converts it; for a string path that is the path
    itself. *)
Theorem loadSpecification_reports_validation_messages :
  forall (readFile : JsValue -> Settled string)
         (JSON_parse : string -> Settled JsValue)
         (schemaValidate : JsValue -> Settled (bool * list string))
         (path : JsValue) (data : string) (spec : JsValue),
    readFile path = Fulfilled data ->
    JSON_parse data = Fulfilled spec ->
    (forall messages,
        schemaValidate spec = Fulfilled (false, messages) ->
        SpecificationManager.loadSpecification readFile JSON_parse
          schemaValidate path
        = (text <- ToString path ;;
           Rejected (ErrorObject
                       ("Failed to load specification from " ++ text
                        ++ ": Invalid specification: "
                        ++ join ", " messages)))%js)
    /\ (forall cause,
          schemaValidate spec = Rejected (ErrorObject cause) ->
          SpecificationManager.loadSpecification readFile JSON_parse
            schemaValidate path
          = (text <- ToString path ;;
             Rejected (ErrorObject
                         ("Failed to load specification from " ++ text
                          ++ ": Invalid specification: "
                          ++ "Schema validation failed: " ++ cause)))%js).
Proof.
  intros readFile JSON_parse schemaValidate path data spec.
  apply loadSpecification_reports_validation_messages_aux.
Qed.

(** list.json is refused by the schema, number.json cannot be
    validated. *)
Lemma loadSpecification_reports_validation_messages_witness :
  sample_loadSpecification (VString "list.json")
  = Rejected
      (ErrorObject
         ("Failed to load specification from list.json: "
          ++ "Invalid specification: "
          ++ "is not of a type(s) object, requires property SOF"))
  /\ sample_loadSpecification (VString "number.json")
     = Rejected
         (ErrorObject
            ("Failed to load specification from number.json: "
             ++ "Invalid specification: "
             ++ "Schema validation failed: ENOENT: bsl.schema.json")).
Proof.
  split.
  - apply (proj1 (loadSpecification_reports_validation_messages
                    sample_readFile sample_parse sample_schemaValidate
                    (VString "list.json") "[]" (VArray []) eq_refl eq_refl)
             ["is not of a type(s) object"; "requires property SOF"]).
    reflexivity.
  - apply (proj2 (loadSpecification_reports_validation_messages
                    sample_readFile sample_parse sample_schemaValidate
                    (VString "number.json") "5" (VNumber 5) eq_refl eq_refl)
             "ENOENT: bsl.schema.json").
    reflexivity.
Defined.

(** X9.  With the specification service of the repository behind the
    checkConstraints handler: a specification file that cannot be read is
    answered with code -32001 and the cause wrapped twice; and the capsule
    document is loaded as a specification, so a capsule that the BSL
    schema refuses is answered with code -32002 and the validator's
    messages, without any constraint being generated.  Both messages
    name the path as the template literal converts it; for a path whose
    conversion throws -- a truthy parameter that is an object with an own
    [toString] property -- the message holds the [TypeError] instead:
    "Cannot convert object to primitive value". *)
Theorem checkConstraints_with_repository_loader :
  forall (readFile : JsValue -> Settled string)
         (JSON_parse : string -> Settled JsValue)
         (schemaValidate : JsValue -> Settled (bool * list string))
         (rt : Runtime) (request : McpRequest) (tccPath specPath : JsValue),
    loadSpecification rt
    = SpecificationManager.loadSpecification readFile JSON_parse
        schemaValidate ->
    Request.method request = "checkConstraints" ->
    destructure_params (Request.params request)
    = Fulfilled (tccPath, specPath) ->
    truthy tccPath = true ->
    truthy specPath = true ->
    (forall cause,
        readFile specPath = Rejected (ErrorObject cause) ->
        dispatches rt request
          (error_response (-32001)
             ("Failed to load specification: "
              ++ match ToString specPath with
                 | Fulfilled text =>
                     "Failed to load specification from " ++ text
                     ++ ": " ++ cause
                 | Rejected _ => "Cannot convert object to primitive value"
                 end)
             (Request.id request)))
    /\ (forall specification data capsule messages,
          loadSpecification rt specPath = Fulfilled specification ->
          readFile tccPath = Fulfilled data ->
          JSON_parse data = Fulfilled capsule ->
          schemaValidate capsule = Fulfilled (false, messages) ->
          dispatches rt request
            (error_response (-32002)
               ("Failed to load task context capsule: "
                ++ match ToString tccPath with
                   | Fulfilled text =>
                       "Failed to load specification from " ++ text
                       ++ ": Invalid specification: " ++ join ", " messages
                   | Rejected _ => "Cannot convert object to primitive value"
                   end)
               (Request.id request))).
Proof.
  intros readFile JSON_parse schemaValidate rt request tccPath specPath
         Hloader Hmethod Hparams Htcc Hspec.
  pose proof (handleCheckConstraints_loads rt request tccPath specPath
                Hparams Htcc Hspec) as Hloads.
  split.
  - intros cause Hread.
    apply dispatch_checkConstraints; [exact Hmethod|].
    rewrite Hloads, Hloader.
    unfold SpecificationManager.loadSpecification at 1.
    rewrite Hread. cbn [bind try_catch].
    destruct (ToString specPath) as [text|thrown] eqn:Hpath; cbn [bind];
      [reflexivity|].
    rewrite (ToString_throws specPath thrown Hpath). reflexivity.
  - intros specification data capsule messages Hload Hread Hparse Hvalid.
    apply dispatch_checkConstraints; [exact Hmethod|].
    rewrite Hloads, Hload, Hloader.
    rewrite (proj1 (loadSpecification_reports_validation_messages_aux
                      readFile JSON_parse schemaValidate tccPath data capsule
                      Hread Hparse) messages Hvalid).
    destruct (ToString tccPath) as [text|thrown] eqn:Hpath; cbn [bind];
      [reflexivity|].
    rewrite (ToString_throws tccPath thrown Hpath). reflexivity.
Qed.

(** A missing specification file, and a capsule file that holds an
    array. *)
Lemma checkConstraints_with_repository_loader_witness :
  dispatches file_runtime (check_request "spec.json" "missing.json" 21)
    (error_response (-32001)
       ("Failed to load specification: "
        ++ "Failed to load specification from missing.json: "
        ++ "ENOENT: no such file or directory, open 'missing.json'")
       (VNumber 21))
  /\ dispatches file_runtime (check_request "list.json" "spec.json" 22)
       (error_response (-32002)
          ("Failed to load task context capsule: "
           ++ "Failed to load specification from list.json: "
           ++ "Invalid specification: "
           ++ "is not of a type(s) object, requires property SOF")
          (VNumber 22)).
Proof.
  split.
  - apply (proj1 (checkConstraints_with_repository_loader
                    sample_readFile sample_parse sample_schemaValidate
                    file_runtime (check_request "spec.json" "missing.json" 21)
                    (VString "spec.json") (VString "missing.json")
                    eq_refl eq_refl eq_refl eq_refl eq_refl)
             "ENOENT: no such file or directory, open 'missing.json'").
    reflexivity.
  - apply (proj2 (checkConstraints_with_repository_loader
                    sample_readFile sample_parse sample_schemaValidate
                    file_runtime (check_request "list.json" "spec.json" 22)
                    (VString "list.json") (VString "spec.json")
                    eq_refl eq_refl eq_refl eq_refl eq_refl)
             (VObject []) "[]" (VArray [])
             ["is not of a type(s) object"; "requires property SOF"]);
      reflexivity.
Defined.

(* ===================================================================== *)
(** ** Properties of the HTTP transport (initializeMcpServer) *)
(* ===================================================================== *)

(** X10.  Whatever the verb and the body, the listener answers with status
    204 and no body for OPTIONS and with status 200 and a JSON body for
    everything else -- failures included -- and every answer carries the
    header Access-Control-Allow-Origin: *. *)
Theorem http_status_and_cors :
  forall (JSON_parse : string -> Settled JsValue) (rt : Runtime)
         (verb : string) (chunks : list string),
    let answer := HttpTransport.requestListener JSON_parse rt verb chunks in
    (verb = "OPTIONS" -> status answer = 204 /\ body answer = None)
    /\ (verb <> "OPTIONS" ->
        status answer = 200
        /\ (exists text, body answer = Some text)
        /\ In ("Content-Type", "application/json") (headers answer))
    /\ In ("Access-Control-Allow-Origin", "*") (headers answer).
Proof.
  intros JSON_parse rt verb chunks answer. unfold answer.
  unfold HttpTransport.requestListener.
  destruct (String.eqb_spec verb "OPTIONS") as [Hoptions|Hoptions].
  - split; [intros _; split; reflexivity|]. split; [contradiction|].
    cbn. auto.
  - split; [contradiction|].
    destruct (negb (verb =? "POST")%string).
    + split; [intros _|cbn; auto].
      split; [reflexivity|]. split; [eexists; reflexivity | cbn; auto].
    + match goal with
      | |- context [match ?x with Fulfilled _ => _ | Rejected _ => _ end] =>
          destruct x
      end;
        (split; [intros _|cbn; auto]);
        (split; [reflexivity|]); (split; [eexists; reflexivity | cbn; auto]).
Qed.

Lemma http_post (JSON_parse : string -> Settled JsValue) (rt : Runtime)
    (chunks : list string) :
  HttpTransport.requestListener JSON_parse rt "POST" chunks
  = {| status := 200;
       headers := HttpTransport.json_headers;
       body :=
         Some (stringify
                 (Response.to_value
                    match (request <- JSON_parse (fold_left append chunks "") ;;
                           HttpTransport.handleMcpRequest_unchecked rt request)%js
                    with
                    | Fulfilled response => response
                    | Rejected _ =>
                        error_response (-32700) "Parse error"
                          (VString "parse-error")
                    end)) |}.
Proof.
  unfold HttpTransport.requestListener. cbn [String.eqb Ascii.eqb Bool.eqb negb].
  destruct (request <- JSON_parse (fold_left append chunks "") ;;
            HttpTransport.handleMcpRequest_unchecked rt request)%js;
    reflexivity.
Qed.

(** X11.  A POST whose body is not JSON is answered with code -32700 and
    the id "parse-error"; so is a POST whose body is the well-formed JSON
    text null, because the dispatcher throws on it a second time inside
    its own catch clause. *)
Theorem http_null_body_is_parse_error :
  forall (JSON_parse : string -> Settled JsValue) (rt : Runtime)
         (chunks : list string),
    (exists e, JSON_parse (fold_left append chunks "") = Rejected e)
    \/ JSON_parse (fold_left append chunks "") = Fulfilled VNull ->
    HttpTransport.requestListener JSON_parse rt "POST" chunks
    = {| status := 200;
         headers := HttpTransport.json_headers;
         body :=
           Some (stringify
                   (Response.to_value
                      (error_response (-32700) "Parse error"
                         (VString "parse-error")))) |}.
Proof.
  intros JSON_parse rt chunks Hbody. rewrite http_post.
  destruct Hbody as [[e ->] | ->]; reflexivity.
Qed.

(** The body null, sent in two chunks, and the body "invalid json". *)
Lemma http_null_body_is_parse_error_witness :
  HttpTransport.requestListener sample_parse test_runtime "POST" ["nu"; "ll"]
  = HttpTransport.requestListener sample_parse test_runtime "POST"
      ["invalid json"].
Proof.
  rewrite (http_null_body_is_parse_error sample_parse test_runtime
             ["nu"; "ll"] (or_intror eq_refl)).
  rewrite (http_null_body_is_parse_error sample_parse test_runtime
             ["invalid json"]
             (or_introl (ex_intro _ (ErrorObject "Unexpected token in JSON")
                           eq_refl))).
  reflexivity.
Defined.

(** X12.  A POST whose body parses to anything but null is answered with
    an envelope that carries the [id] property of the body -- also when
    the body has no string [method], which is answered with code -32601 --
    and with exactly the envelope of [handleMcpRequest] when it has
    one. *)
Theorem http_post_echoes_id :
  forall (JSON_parse : string -> Settled JsValue) (rt : Runtime)
         (chunks : list string) (request : JsValue),
    JSON_parse (fold_left append chunks "") = Fulfilled request ->
    nullish request = false ->
    exists response,
      body (HttpTransport.requestListener JSON_parse rt "POST" chunks)
      = Some (stringify (Response.to_value response))
      /\ Response.id response = own_property request "id"
      /\ (forall method,
            own_property request "method" = VString method ->
            McpAdapter.handleMcpRequest rt (as_request request method)
            = Fulfilled response)
      /\ ((forall method, own_property request "method" <> VString method) ->
          response = error_response (-32601) "Method not found"
                       (own_property request "id")).
Proof.
  intros JSON_parse rt chunks request Hparse Hpresent.
  rewrite http_post, Hparse. cbn [bind body].
  unfold HttpTransport.handleMcpRequest_unchecked. rewrite Hpresent.
  destruct (own_property request "method") as [| |b|n|method|items|props|state]
    eqn:Hmethod;
    try (eexists; split; [reflexivity|]; split; [reflexivity|];
         split; [intros m [=] | reflexivity]).
  destruct (every_request_gets_one_envelope_aux rt (as_request request method))
    as (response & Hresponse & Hid).
  exists response. rewrite Hresponse.
  split; [reflexivity|]. split; [exact Hid|]. split.
  - intros m [= <-]. exact Hresponse.
  - intro Hnone. exfalso. exact (Hnone method eq_refl).
Qed.

(* ===================================================================== *)
(** ** Properties of the stdio transport (initializeMcpStdioServer) *)
(* ===================================================================== *)

Lemma has_newline_append (s t : string) :
  has_newline (s ++ t) = has_newline s || has_newline t.
Proof.
  induction s as [|c s IH]; cbn; [reflexivity|].
  now rewrite IH, orb_assoc.
Qed.

Lemma quote_char_no_newline (c : ascii) : has_newline (quote_char c) = false.
Proof. destruct c as [[] [] [] [] [] [] [] []]; reflexivity. Qed.

Lemma quote_no_newline (s : string) : has_newline (quote s) = false.
Proof.
  unfold quote. rewrite !has_newline_append. cbn.
  rewrite orb_false_r.
  induction s as [|c s IH]; cbn [quote_body has_newline]; [reflexivity|].
  now rewrite has_newline_append, quote_char_no_newline.
Qed.

Lemma string_of_uint_no_newline (d : Decimal.uint) :
  has_newline (NilEmpty.string_of_uint d) = false.
Proof. induction d; cbn; auto. Qed.

Lemma number_to_string_no_newline (n : Z) :
  has_newline (number_to_string n) = false.
Proof.
  unfold number_to_string.
  destruct (Z.to_int n) as [d|d]; cbn;
    destruct d; cbn; auto using string_of_uint_no_newline.
Qed.

Lemma join_no_newline (parts : list string) :
  Forall (fun p => has_newline p = false) parts ->
  has_newline (join "," parts) = false.
Proof.
  induction 1 as [|p parts Hp _ IH]; [reflexivity|].
  destruct parts as [|q parts]; cbn [join]; [exact Hp|].
  rewrite !has_newline_append, Hp. cbn [has_newline orb]. exact IH.
Qed.

Lemma JSON_stringify_no_newline :
  forall (v : JsValue) (t : string),
    JSON_stringify v = Some t -> has_newline t = false.
Proof.
  fix IH 1. intros v t. destruct v as [| |b|n|s|items|props|state];
    cbn [JSON_stringify]; intros [= <-]; try reflexivity.
  - destruct b; reflexivity.
  - apply number_to_string_no_newline.
  - apply quote_no_newline.
  - change (has_newline ("[" ++ (join ","
              (map (fun x => match JSON_stringify x with
                             | Some t => t
                             | None => "null"
                             end) items) ++ "]")) = false).
    rewrite !has_newline_append.
    change (has_newline "[") with false. change (has_newline "]") with false.
    rewrite orb_false_r. cbn [orb]. apply join_no_newline.
    induction items as [|x items IHitems]; constructor; [|exact IHitems].
    destruct (JSON_stringify x) as [t|] eqn:Hx; [|reflexivity].
    exact (IH x t Hx).
  - change (has_newline ("{" ++ (join ","
              (flat_map (fun kx => match JSON_stringify (snd kx) with
                                   | Some t => [quote (fst kx) ++ ":" ++ t]
                                   | None => []
                                   end) props) ++ "}")) = false).
    rewrite !has_newline_append.
    change (has_newline "{") with false. change (has_newline "}") with false.
    rewrite orb_false_r. cbn [orb]. apply join_no_newline.
    induction props as [|[k x] props IHprops]; cbn [flat_map]; [constructor|].
    cbn [snd fst].
    destruct (JSON_stringify x) as [t|] eqn:Hx; cbn [app].
    + constructor; [|exact IHprops].
      rewrite !has_newline_append, quote_no_newline, (IH x t Hx). reflexivity.
    + exact IHprops.
Qed.

Section Stdio_facts.
Import StdioTransport.

Variable JSON_parse : string -> Settled JsValue.
Variable trim : string -> string.

Let process := process_message JSON_parse trim.
Let run := drain JSON_parse trim.

Lemma append_assoc (a b c : string) : (a ++ b) ++ c = a ++ b ++ c.
Proof. induction a as [|x a IH]; cbn; [reflexivity | now rewrite IH]. Qed.

Lemma append_nil_r (a : string) : a ++ "" = a.
Proof. induction a as [|x a IH]; cbn; [reflexivity | now rewrite IH]. Qed.

Lemma substring_all (s : string) : substring 0 (String.length s) s = s.
Proof. induction s as [|c s IH]; cbn; [reflexivity | now rewrite IH]. Qed.

Lemma indexOf_no_newline (s : string) :
  has_newline s = false -> indexOf_newline s = None.
Proof.
  induction s as [|c s IH]; cbn [has_newline indexOf_newline];
    [reflexivity|].
  destruct (Ascii.eqb c (ascii_of_N 10)); cbn [orb]; [discriminate|].
  intro H. now rewrite (IH H).
Qed.

(** Where the first line ends, and what the two slices are. *)
Lemma first_line (m rest : string) :
  has_newline m = false ->
  indexOf_newline (m ++ newline ++ rest) = Some (String.length m)
  /\ substring 0 (String.length m) (m ++ newline ++ rest) = m
  /\ slice_from (String.length m + 1) (m ++ newline ++ rest) = rest.
Proof.
  unfold slice_from.
  induction m as [|c m IH]; cbn [has_newline].
  - intros _. split; [reflexivity|]. split; [reflexivity|].
    cbn. rewrite Nat.sub_0_r. apply substring_all.
  - destruct (Ascii.eqb c (ascii_of_N 10)) eqn:Hc; cbn [orb]; [discriminate|].
    intro Hm. destruct (IH Hm) as (H1 & H2 & H3).
    cbn [append indexOf_newline String.length substring Nat.add Nat.sub].
    rewrite Hc, H1, H2. repeat split. exact H3.
Qed.

Lemma split_newline (s : string) :
  has_newline s = true ->
  exists m rest, s = m ++ newline ++ rest /\ has_newline m = false.
Proof.
  induction s as [|c s IH]; cbn [has_newline]; [discriminate|].
  destruct (Ascii.eqb c (ascii_of_N 10)) eqn:Hc; cbn [orb].
  - intros _. apply Ascii.eqb_eq in Hc. subst c.
    exists "", s. split; reflexivity.
  - intro Hs. destruct (IH Hs) as (m & rest & -> & Hm).
    exists (String c m), rest. split; [reflexivity|].
    cbn [has_newline]. now rewrite Hc, Hm.
Qed.

Lemma drain_no_newline (turns : nat) (s : string) :
  has_newline s = false -> run turns s = ([], s).
Proof.
  intro H. destruct turns; cbn; [reflexivity|].
  now rewrite (indexOf_no_newline s H).
Qed.

Lemma drain_line (turns : nat) (m rest : string) :
  has_newline m = false ->
  run (S turns) (m ++ newline ++ rest)
  = ((process m ++ fst (run turns rest))%list, snd (run turns rest)).
Proof.
  intro Hm. destruct (first_line m rest Hm) as (H1 & H2 & H3).
  unfold run. cbn [drain]. rewrite H1, H2, H3.
  destruct (drain JSON_parse trim turns rest). reflexivity.
Qed.

Lemma length_line (m rest : string) :
  String.length (m ++ newline ++ rest)
  = S (String.length m + String.length rest).
Proof. rewrite !length_append. cbn. lia. Qed.

(** Turns beyond the length of the buffer change nothing. *)
Lemma drain_turns (t1 : nat) :
  forall (t2 : nat) (s : string),
    (String.length s <= t1)%nat -> (String.length s <= t2)%nat ->
    run t1 s = run t2 s.
Proof.
  induction t1 as [|t1 IH]; intros t2 s H1 H2;
    destruct (has_newline s) eqn:Hs;
    try (now rewrite !drain_no_newline).
  - destruct (split_newline s Hs) as (m & rest & -> & Hm).
    rewrite length_line in H1. lia.
  - destruct (split_newline s Hs) as (m & rest & -> & Hm).
    rewrite length_line in H1, H2. destruct t2 as [|t2]; [lia|].
    rewrite !drain_line by exact Hm.
    rewrite (IH t2 rest) by lia. reflexivity.
Qed.

Lemma on_data_drains (buffer chunk : string) :
  on_data JSON_parse trim buffer chunk
  = run (String.length (buffer ++ chunk)) (buffer ++ chunk).
Proof. reflexivity. Qed.

(** The loop on a buffer followed by more text: first the buffer, then
    what it leaves followed by the text. *)
Lemma drain_append (n : nat) :
  forall s t : string,
    (String.length s <= n)%nat ->
    run (String.length (s ++ t)) (s ++ t)
    = ((fst (run (String.length s) s)
        ++ fst (run (String.length (snd (run (String.length s) s) ++ t))
                  (snd (run (String.length s) s) ++ t)))%list,
       snd (run (String.length (snd (run (String.length s) s) ++ t))
              (snd (run (String.length s) s) ++ t))).
Proof.
  induction n as [|n IH]; intros s t Hn;
    destruct (has_newline s) eqn:Hs;
    try (rewrite (drain_no_newline (String.length s) s Hs); cbn [fst snd app];
         now destruct (run (String.length (s ++ t)) (s ++ t))).
  - destruct (split_newline s Hs) as (m & rest & -> & Hm).
    rewrite length_line in Hn. lia.
  - destruct (split_newline s Hs) as (m & rest & -> & Hm).
    rewrite length_line in Hn.
    assert (Hst : (m ++ newline ++ rest) ++ t = m ++ newline ++ (rest ++ t))
      by now rewrite !append_assoc.
    rewrite Hst, !length_line.
    rewrite !drain_line by exact Hm. cbn [fst snd].
    rewrite (drain_turns (String.length m + String.length (rest ++ t))
               (String.length (rest ++ t)) (rest ++ t)) by lia.
    rewrite (drain_turns (String.length m + String.length rest)
               (String.length rest) rest) by lia.
    rewrite (IH rest t) by lia. cbn [fst snd].
    now rewrite app_assoc.
Qed.

Lemma drain_leaves_no_newline (n : nat) :
  forall s : string,
    (String.length s <= n)%nat ->
    has_newline (snd (run (String.length s) s)) = false
    /\ exists consumed,
         s = consumed ++ snd (run (String.length s) s)
         /\ (consumed = "" \/ exists before, consumed = before ++ newline).
Proof.
  induction n as [|n IH]; intros s Hn;
    destruct (has_newline s) eqn:Hs;
    try (rewrite (drain_no_newline (String.length s) s Hs); cbn [snd];
         split; [exact Hs | exists ""; split; [reflexivity | now left]]).
  - destruct (split_newline s Hs) as (m & rest & -> & Hm).
    rewrite length_line in Hn. lia.
  - destruct (split_newline s Hs) as (m & rest & -> & Hm).
    rewrite length_line in Hn |- *.
    rewrite drain_line by exact Hm. cbn [snd].
    rewrite (drain_turns (String.length m + String.length rest)
               (String.length rest) rest) by lia.
    destruct (IH rest ltac:(lia)) as (Hclean & consumed & Hconsumed & Hend).
    split; [exact Hclean|].
    exists (m ++ newline ++ consumed). split.
    + rewrite !append_assoc. now rewrite <- Hconsumed.
    + right. destruct Hend as [-> | [before ->]].
      * exists m. now rewrite append_nil_r.
      * exists (m ++ newline ++ before). now rewrite !append_assoc.
Qed.

(** Complete lines are taken in order, one after the other. *)
Lemma drain_lines (lines : list string) (tail : string) :
  Forall (fun line => has_newline line = false) lines ->
  has_newline tail = false ->
  forall turns,
    (String.length
       (fold_right (fun line rest => line ++ newline ++ rest) tail lines)
     <= turns)%nat ->
    run turns
      (fold_right (fun line rest => line ++ newline ++ rest) tail lines)
    = (flat_map process lines, tail).
Proof.
  intros Hlines Htail.
  induction Hlines as [|line lines Hline _ IH]; intros turns Hturns;
    cbn [fold_right flat_map].
  - now apply drain_no_newline.
  - cbn [fold_right] in Hturns. rewrite length_line in Hturns.
    destruct turns as [|turns]; [lia|].
    rewrite drain_line by exact Hline.
    rewrite IH by lia. reflexivity.
Qed.

(** Whatever the loop does, it is a dispatch or the parse error line. *)
Lemma drain_actions (n : nat) :
  forall s : string,
    (String.length s <= n)%nat ->
    Forall (fun action =>
              match action with
              | Dispatch _ => True
              | Write chunk => chunk = parse_error_line
              end)
      (fst (run (String.length s) s)).
Proof.
  induction n as [|n IH]; intros s Hn;
    destruct (has_newline s) eqn:Hs;
    try (rewrite (drain_no_newline (String.length s) s Hs); constructor).
  - destruct (split_newline s Hs) as (m & rest & -> & Hm).
    rewrite length_line in Hn. lia.
  - destruct (split_newline s Hs) as (m & rest & -> & Hm).
    rewrite length_line in Hn |- *.
    rewrite drain_line by exact Hm. cbn [fst].
    rewrite (drain_turns (String.length m + String.length rest)
               (String.length rest) rest) by lia.
    apply Forall_app. split; [|apply IH; lia].
    unfold process, process_message.
    destruct (trim m =? "")%string; [constructor|].
    destruct (JSON_parse m); repeat constructor.
Qed.

End Stdio_facts.

(** The loop on two texts, one after the other, and on their join. *)
Lemma on_data_append (JSON_parse : string -> Settled JsValue)
    (trim : string -> string) (buffer first second : string) :
  StdioTransport.on_data JSON_parse trim buffer (first ++ second)
  = ((fst (StdioTransport.on_data JSON_parse trim buffer first)
      ++ fst (StdioTransport.on_data JSON_parse trim
                (snd (StdioTransport.on_data JSON_parse trim buffer first))
                second))%list,
     snd (StdioTransport.on_data JSON_parse trim
            (snd (StdioTransport.on_data JSON_parse trim buffer first))
            second)).
Proof.
  rewrite !on_data_drains.
  rewrite <- (append_assoc buffer first second).
  apply (drain_append JSON_parse trim (String.length (buffer ++ first))).
  lia.
Qed.

(** Requests that leave no unhandled rejection do not change the fate of
    what follows. *)
Lemma fate_after_app (rt : Runtime) (before after : list StdioAction) :
  StdioTransport.fate_after rt before = StdioTransport.Running ->
  StdioTransport.fate_after rt (before ++ after)
  = StdioTransport.fate_after rt after.
Proof.
  unfold StdioTransport.fate_after. rewrite existsb_app.
  destruct (existsb _ before); [discriminate|]. reflexivity.
Qed.

(** X13.  The server does not depend on how its input is cut into chunks,
    under two conditions.  The boundary cuts no character: every chunk is
    decoded on its own, so the text of the joined bytes must be the join
    of the two texts.  And the process still runs after the first chunk:
    no request of the first chunk leaves an unhandled rejection.  Then
    handling one chunk and then the next starts the same dispatches and
    writes the same parse errors, in the same order, and leaves the same
    buffer and the same process, as handling the two chunks joined. *)
Theorem stdio_chunking_is_transparent :
  forall (JSON_parse : string -> Settled JsValue) (trim : string -> string)
         (decode : string -> string) (rt : Runtime)
         (buffer first second : string),
    decode (first ++ second) = decode first ++ decode second ->
    let start :=
      {| StdioTransport.buffer := buffer;
         StdioTransport.fate := StdioTransport.Running |} in
    let one := StdioTransport.receive JSON_parse trim decode rt start first in
    let two :=
      StdioTransport.receive JSON_parse trim decode rt (snd one) second in
    StdioTransport.fate (snd one) = StdioTransport.Running ->
    StdioTransport.receive JSON_parse trim decode rt start (first ++ second)
    = ((fst one ++ fst two)%list, snd two).
Proof.
  intros JSON_parse trim decode rt buffer first second Hdecode start one two.
  subst two one start. unfold StdioTransport.receive.
  cbn [StdioTransport.fate StdioTransport.buffer].
  rewrite Hdecode, on_data_append.
  destruct (StdioTransport.on_data JSON_parse trim buffer (decode first))
    as [actions1 remaining1].
  cbn [fst snd StdioTransport.fate StdioTransport.buffer]. intro Hruns.
  rewrite Hruns.
  destruct (StdioTransport.on_data JSON_parse trim remaining1
              (decode second)) as [actions2 remaining2].
  cbn [fst snd]. rewrite (fate_after_app rt actions1 actions2 Hruns).
  reflexivity.
Qed.

(** A status request that arrives in two chunks. *)
Lemma stdio_chunking_is_transparent_witness :
  StdioTransport.receive sample_parse ascii_trim (fun bytes => bytes)
    test_runtime
    {| StdioTransport.buffer := "";
       StdioTransport.fate := StdioTransport.Running |}
    (("{" ++ quote "method" ++ ":")
     ++ (quote "getSystemStatus" ++ "," ++ quote "id" ++ ":3}" ++ newline))
  = ([Dispatch (envelope_value "getSystemStatus" 3)],
     {| StdioTransport.buffer := "";
        StdioTransport.fate := StdioTransport.Running |}).
Proof.
  rewrite (stdio_chunking_is_transparent sample_parse ascii_trim
             (fun bytes => bytes) test_runtime ""
             ("{" ++ quote "method" ++ ":")
             (quote "getSystemStatus" ++ "," ++ quote "id" ++ ":3}"
              ++ newline)
             eq_refl eq_refl).
  vm_compute. reflexivity.
Defined.

(** X14.  Complete lines are handled in input order and each exactly
    once: a blank line is skipped, a line that is not JSON gets the
    -32700 line written at once, every other line starts one dispatch of
    its parsed value; the text after the last line end stays in the
    buffer. *)
Theorem stdio_handles_complete_lines_in_order :
  forall (JSON_parse : string -> Settled JsValue) (trim : string -> string)
         (lines : list string) (tail : string),
    Forall (fun line => has_newline line = false) lines ->
    has_newline tail = false ->
    StdioTransport.on_data JSON_parse trim ""
      (fold_right (fun line rest => line ++ newline ++ rest) tail lines)
    = (flat_map (StdioTransport.process_message JSON_parse trim) lines, tail).
Proof.
  intros JSON_parse trim lines tail Hlines Htail.
  rewrite on_data_drains. cbn [append].
  apply drain_lines; [exact Hlines | exact Htail | lia].
Qed.

(** Four lines and the beginning of a fifth. *)
Lemma stdio_handles_complete_lines_in_order_witness :
  StdioTransport.on_data sample_parse ascii_trim ""
    (envelope_text "getSystemStatus" 3 ++ newline ++ "  " ++ newline
     ++ "invalid json" ++ newline ++ "null" ++ newline ++ "{")
  = ([Dispatch (envelope_value "getSystemStatus" 3);
      Write StdioTransport.parse_error_line;
      Dispatch VNull],
     "{").
Proof.
  apply (stdio_handles_complete_lines_in_order sample_parse ascii_trim
           [envelope_text "getSystemStatus" 3; "  "; "invalid json"; "null"]
           "{").
  - repeat constructor.
  - reflexivity.
Defined.

(** X15.  After the data handler has run, the buffer holds no line end: it
    is exactly the text that follows the last line end received so far,
    and input without a line end is kept whole with nothing started. *)
Theorem stdio_buffer_keeps_the_unfinished_line :
  forall (JSON_parse : string -> Settled JsValue) (trim : string -> string)
         (buffer chunk : string),
    let remaining :=
      snd (StdioTransport.on_data JSON_parse trim buffer chunk) in
    has_newline remaining = false
    /\ (exists consumed,
          buffer ++ chunk = consumed ++ remaining
          /\ (consumed = "" \/ exists before, consumed = before ++ newline))
    /\ (has_newline (buffer ++ chunk) = false ->
        StdioTransport.on_data JSON_parse trim buffer chunk
        = ([], buffer ++ chunk)).
Proof.
  intros JSON_parse trim buffer chunk remaining. unfold remaining.
  rewrite on_data_drains.
  destruct (drain_leaves_no_newline JSON_parse trim
              (String.length (buffer ++ chunk)) (buffer ++ chunk)
              ltac:(lia)) as (Hclean & Hconsumed).
  split; [exact Hclean|]. split; [exact Hconsumed|].
  intro Hnone. now apply drain_no_newline.
Qed.

Lemma response_line_is_one_line (response : McpResponse) :
  exists text,
    response_line response = text ++ newline /\ has_newline text = false.
Proof.
  exists (stringify (Response.to_value response)). split; [reflexivity|].
  unfold stringify.
  destruct (JSON_stringify (Response.to_value response)) as [t|] eqn:Ht;
    [|reflexivity].
  exact (JSON_stringify_no_newline _ _ Ht).
Qed.

Lemma stdio_answer_is_one_line (rt : Runtime) (request : JsValue)
    (line : string) :
  In line (StdioTransport.handleMcpRequest_unchecked rt request) ->
  exists text, line = text ++ newline /\ has_newline text = false.
Proof.
  unfold StdioTransport.handleMcpRequest_unchecked,
    StdioTransport.handleMcpRequest_promise, get_member.
  destruct (nullish request); [intros []|]. cbn [bind].
  destruct (own_property request "method")
    as [| |b|n|method|items|props|state];
    try (intros [<-|[]]; apply response_line_is_one_line).
  destruct (dispatch_total rt (as_request request method))
    as (response & [_ ->] & _).
  intros [<-|[]]. apply response_line_is_one_line.
Qed.

(** X16.  Everything the stdio server writes to standard output in answer
    to input is one line: a text without a line end, followed by one line
    end.  This holds for every request, whatever strings its id, its
    error messages or its constraints contain, because [JSON.stringify]
    escapes the line ends inside strings. *)
Theorem stdio_writes_whole_lines :
  forall (JSON_parse : string -> Settled JsValue) (trim : string -> string)
         (rt : Runtime) (buffer chunk line : string),
    In line
       (StdioTransport.written rt
          (fst (StdioTransport.on_data JSON_parse trim buffer chunk))) ->
    exists text, line = text ++ newline /\ has_newline text = false.
Proof.
  intros JSON_parse trim rt buffer chunk line.
  rewrite on_data_drains.
  pose proof (drain_actions JSON_parse trim
                (String.length (buffer ++ chunk)) (buffer ++ chunk)
                ltac:(lia)) as Hactions.
  unfold StdioTransport.written. rewrite in_flat_map.
  intros (action & Haction & Hline).
  rewrite Forall_forall in Hactions. specialize (Hactions action Haction).
  destruct action as [request|written_chunk].
  - exact (stdio_answer_is_one_line rt request line Hline).
  - destruct Hline as [<-|[]]. subst written_chunk.
    apply response_line_is_one_line.
Qed.

(** A request whose id holds a line end, sent on one line. *)
Lemma stdio_writes_whole_lines_witness :
  exists text,
    response_line
      (error_response (-32601) "Method not found"
         (VString ("a" ++ newline ++ "b")))
    = text ++ newline
    /\ has_newline text = false.
Proof.
  apply (stdio_writes_whole_lines
           (fun _ => Fulfilled
                       (VObject [("method", VString "ping");
                                 ("id", VString ("a" ++ newline ++ "b"))]))
           ascii_trim test_runtime "" ("x" ++ newline)).
  left. reflexivity.
Defined.

(** X17.  A line that holds the JSON text null is parsed and dispatched,
    and it ends the stdio server.  The dispatcher throws on
    [request.method] inside its [try] and on [request.id] inside its
    [catch], so its promise is rejected and nothing is written -- no
    -32700 line and no envelope.  The data handler has dropped that
    promise: the rejection is unhandled, the process exits with code 1,
    and whatever arrives later is not handled.  The HTTP transport, which
    awaits the dispatcher inside a [try], answers the same text with code
    -32700. *)
Theorem stdio_null_line_gets_no_answer :
  forall (JSON_parse : string -> Settled JsValue) (trim : string -> string)
         (decode : string -> string) (rt : Runtime)
         (message bytes : string),
    has_newline message = false ->
    trim message <> "" ->
    JSON_parse message = Fulfilled VNull ->
    decode bytes = message ++ newline ->
    StdioTransport.handleMcpRequest_promise rt VNull
    = Rejected (ErrorObject "Cannot read properties of null (reading 'id')")
    /\ StdioTransport.written rt
         (fst (StdioTransport.on_data JSON_parse trim "" (message ++ newline)))
       = []
    /\ StdioTransport.receive JSON_parse trim decode rt
         {| StdioTransport.buffer := "";
            StdioTransport.fate := StdioTransport.Running |} bytes
       = ([Dispatch VNull],
          {| StdioTransport.buffer := "";
             StdioTransport.fate := StdioTransport.Exited 1 |})
    /\ (forall later,
          StdioTransport.receive JSON_parse trim decode rt
            {| StdioTransport.buffer := "";
               StdioTransport.fate := StdioTransport.Exited 1 |} later
          = ([],
             {| StdioTransport.buffer := "";
                StdioTransport.fate := StdioTransport.Exited 1 |}))
    /\ body (HttpTransport.requestListener JSON_parse rt "POST" [message])
       = Some (stringify
                 (Response.to_value
                    (error_response (-32700) "Parse error"
                       (VString "parse-error")))).
Proof.
  intros JSON_parse trim decode rt message bytes Hline Htrim Hparse Hbytes.
  assert (Hdata :
    StdioTransport.on_data JSON_parse trim "" (message ++ newline)
    = ([Dispatch VNull], "")).
  { rewrite on_data_drains. cbn [append].
    rewrite <- (append_nil_r (message ++ newline)), append_assoc.
    rewrite length_line. rewrite drain_line by exact Hline.
    rewrite drain_no_newline by reflexivity. cbn [fst snd].
    unfold StdioTransport.process_message. rewrite Hparse.
    apply String.eqb_neq in Htrim. rewrite Htrim. reflexivity. }
  split; [reflexivity|]. split; [rewrite Hdata; reflexivity|].
  split.
  { unfold StdioTransport.receive.
    cbn [StdioTransport.fate StdioTransport.buffer].
    rewrite Hbytes, Hdata. reflexivity. }
  split; [intro later; reflexivity|].
  rewrite http_post. cbn [fold_left append]. rewrite Hparse. reflexivity.
Qed.

(** The line null, and the status request that follows it. *)
Lemma stdio_null_line_gets_no_answer_witness :
  StdioTransport.receive sample_parse ascii_trim (fun bytes => bytes)
    test_runtime
    {| StdioTransport.buffer := "";
       StdioTransport.fate := StdioTransport.Running |}
    ("null" ++ newline)
  = ([Dispatch VNull],
     {| StdioTransport.buffer := "";
        StdioTransport.fate := StdioTransport.Exited 1 |})
  /\ StdioTransport.receive sample_parse ascii_trim (fun bytes => bytes)
       test_runtime
       {| StdioTransport.buffer := "";
          StdioTransport.fate := StdioTransport.Exited 1 |}
       (envelope_text "getSystemStatus" 3 ++ newline)
     = ([],
        {| StdioTransport.buffer := "";
           StdioTransport.fate := StdioTransport.Exited 1 |}).
Proof.
  destruct (stdio_null_line_gets_no_answer sample_parse ascii_trim
              (fun bytes => bytes) test_runtime "null" ("null" ++ newline)
              eq_refl ltac:(discriminate) eq_refl eq_refl)
    as (_ & _ & Hexit & Hlater & _).
  split; [exact Hexit | apply Hlater].
Defined.

(** An envelope with an unknown method, and a body that is a number. *)
Lemma http_post_echoes_id_witness :
  (exists response,
      body (HttpTransport.requestListener sample_parse test_runtime "POST"
              [envelope_text "unknownMethod" 5])
      = Some (stringify (Response.to_value response))
      /\ Response.id response = VNumber 5)
  /\ body (HttpTransport.requestListener sample_parse test_runtime "POST"
             ["5"])
     = Some (stringify
               (Response.to_value
                  (error_response (-32601) "Method not found" VUndefined))).
Proof.
  split.
  - destruct (http_post_echoes_id sample_parse test_runtime
                [envelope_text "unknownMethod" 5]
                (envelope_value "unknownMethod" 5) eq_refl eq_refl)
      as (response & Hbody & Hid & _).
    exists response. split; [exact Hbody | exact Hid].
  - destruct (http_post_echoes_id sample_parse test_runtime ["5"]
                (VNumber 5) eq_refl eq_refl)
      as (response & Hbody & _ & _ & Hdefault).
    rewrite Hbody, Hdefault; [reflexivity|]. intros method [=].
Defined.

(* ===================================================================== *)
(** ** Properties of CliInterface *)
(* ===================================================================== *)

Lemma main_check (operands : list string) :
  CliInterface.main ("check" :: operands)
  = match operands with
    | [first; second; third] =>
        ExecuteConstraintCheck (VString second) (VString third) VUndefined
    | _ => Exit 1
    end.
Proof. destruct operands as [|a [|b [|c [|d more]]]]; reflexivity. Qed.

Lemma main_other (args : list string) :
  (forall operands, args <> "check" :: operands) ->
  CliInterface.main args = Exit 0
  \/ CliInterface.main args = ShowEvolutionStatus
  \/ CliInterface.main args = MigrateEvolution.
Proof.
  intro Hother. unfold CliInterface.main.
  destruct args as [|command operands]; [left; reflexivity|].
  cbn [CliInterface.element nth_error].
  destruct (String.eqb_spec command "check") as [->|_].
  - exfalso. exact (Hother operands eq_refl).
  - destruct (command =? "status")%string; [right; left; reflexivity|].
    destruct (command =? "migrate")%string; [right; right|left]; reflexivity.
Qed.

(** X18.  The switch starts [executeConstraintCheck] exactly for [check]
    followed by three operands, and then it passes the second operand as
    [taskId], the third as [goal] and [undefined] as [taskType]: the array
    pattern skips two elements of an array whose first element is the
    command itself.  The switch itself calls [process.exit(1)] exactly
    for [check] with any other number of operands.  (The code with which
    the process exits after [executeConstraintCheck] or [migrateEvolution]
    has run is the result of that method, and is not part of this
    statement.) *)
Theorem cli_check_operands_are_shifted :
  forall (args : list string) (taskId goal taskType : JsValue),
    (CliInterface.main args = ExecuteConstraintCheck taskId goal taskType
     <-> exists first second third,
           args = ["check"; first; second; third]
           /\ taskId = VString second
           /\ goal = VString third
           /\ taskType = VUndefined)
    /\ (CliInterface.main args = Exit 1
        <-> exists operands,
              args = "check" :: operands /\ List.length operands <> 3%nat).
Proof.
  intros args taskId goal taskType.
  assert (Hcases : (exists operands, args = "check" :: operands)
                   \/ forall operands, args <> "check" :: operands).
  { destruct args as [|command operands]; [right; discriminate|].
    destruct (String.eqb_spec command "check") as [->|Hcommand].
    - left. exists operands. reflexivity.
    - right. intros ops [= -> _]. contradiction. }
  destruct Hcases as [[operands ->]|Hother].
  - rewrite main_check. split; split.
    + destruct operands as [|a [|b [|c [|d more]]]]; try discriminate.
      intros [= <- <- <-]. exists a, b, c. repeat split.
    + intros (a & b & c & [= ->] & -> & -> & ->). reflexivity.
    + intro Hexit. exists operands. split; [reflexivity|].
      destruct operands as [|a [|b [|c [|d more]]]]; cbn; try lia.
      discriminate Hexit.
    + intros (ops & [= <-] & Hlen).
      destruct operands as [|a [|b [|c [|d more]]]]; try reflexivity.
      cbn in Hlen. lia.
  - split; split.
    + intro Hmain.
      destruct (main_other args Hother) as [H|[H|H]];
        rewrite H in Hmain; discriminate.
    + intros (a & b & c & -> & _). exfalso. exact (Hother _ eq_refl).
    + intro Hmain.
      destruct (main_other args Hother) as [H|[H|H]];
        rewrite H in Hmain; discriminate.
    + intros (ops & -> & _). exfalso. exact (Hother _ eq_refl).
Qed.

Section Cli_facts.

Variable toUpperCase : string -> string.
Variable loadSpecification : JsValue -> Settled JsValue.
Variable taskConstraintsEntry : JsValue -> string -> SpecEntry.
Variable store : ConstraintGenerator.TemplateStore.



End Cli_facts.

Section Cli_run.

Variable toUpperCase : string -> string.
Variable loadSpecification : JsValue -> Settled JsValue.
Variable taskConstraintsEntry : JsValue -> string -> SpecEntry.
Variable store : ConstraintGenerator.TemplateStore.

Let candidate (now taskId goal taskType : string) :=
  TccGenerator.capsule_under_check toUpperCase loadSpecification
    taskConstraintsEntry now taskId goal taskType "user-request"
    TCC.Priority.MEDIUM.




End Cli_run.

Section Cli_violations.

Variable toUpperCase : string -> string.


End Cli_violations.





(** The refresh of a capsule that holds the system state written by
    [createTCC]. *)
Lemma refresh_serialised_length (later : string)
    (tcc : TCC.TaskContextCapsule) :
  TCC.systemState (TCC.context tcc)
  = {| TCC.loadLevel := TCC.MED;
       TCC.dependencies := [];
       TCC.resourceAvailability :=
         {| TCC.cpu := 50; TCC.memory := 50; TCC.network := 50 |};
       TCC.environment := TCC.DEVELOPMENT |} ->
  TCC.size (SystemStateRefresh.updateTCCWithSystemState later tcc)
  = byte_size (stringify (TCC.to_value tcc)) + 25
    + Z.of_nat (String.length (quote_body later))
    - Z.of_nat (String.length (quote_body (TCC.creationTime (TCC.context tcc)))).
Proof.
  destruct tcc as [a b c [rc st ct so pr] sz v].
  cbn [TCC.context TCC.systemState TCC.creationTime]. intros ->.
  unfold SystemStateRefresh.updateTCCWithSystemState. cbv zeta.
  rewrite validateTCCSize_capsule.
  cbn [TCC.size TCC.set_size].
  unfold byte_size, stringify, TCC.to_value, TCC.set_context.
  cbn [TCC.taskId TCC.goal TCC.taskType TCC.context TCC.size TCC.version
       TCC.relevantConstraints TCC.systemState TCC.creationTime TCC.source
       TCC.priority TCC.loadLevel TCC.dependencies TCC.resourceAvailability
       TCC.environment TCC.cpu TCC.memory TCC.network].
  cbn [JSON_stringify flat_map snd fst app join map].
  unfold quote.
  rewrite !length_append.
  cbn [String.length dquote].
  change (String.length (quote_body "core-service")) with 12%nat.
  change (String.length (quote_body "database")) with 8%nat.
  lia.
Qed.

(** X21.  [updateTCCWithSystemState] on a capsule that [generateTCC]
    returned at time [now]: the size it records is the serialised length
    of the capsule as it was, plus 25 bytes for the two dependency names,
    plus the change in length of the quoted time stamp; the dependencies
    and the creation time are the ones written, and the relevant
    constraints stay. *)
Theorem refresh_after_generation_adds_the_dependency_names :
  forall (toUpperCase : string -> string)
         (loadSpecification : JsValue -> Settled JsValue)
         (taskConstraintsEntry : JsValue -> string -> SpecEntry)
         (now later taskId goal taskType : string)
         (source : option string) (priority : option TCC.Priority.t)
         (tcc : TCC.TaskContextCapsule),
    TccGenerator.generateTCC toUpperCase loadSpecification
      taskConstraintsEntry now taskId goal taskType source priority
    = Fulfilled tcc ->
    TCC.size (SystemStateRefresh.updateTCCWithSystemState later tcc)
    = byte_size (stringify (TCC.to_value tcc)) + 25
      + Z.of_nat (String.length (quote_body later))
      - Z.of_nat (String.length (quote_body now))
    /\ TCC.dependencies
         (TCC.systemState
            (TCC.context
               (SystemStateRefresh.updateTCCWithSystemState later tcc)))
       = ["core-service"; "database"]
    /\ TCC.creationTime
         (TCC.context (SystemStateRefresh.updateTCCWithSystemState later tcc))
       = later
    /\ TCC.relevantConstraints
         (TCC.context (SystemStateRefresh.updateTCCWithSystemState later tcc))
       = TCC.relevantConstraints (TCC.context tcc).
Proof.
  intros up load entry now later taskId goal taskType source priority tcc
    Hgen.
  destruct (generateTCC_returns_candidate _ _ _ _ _ _ _ _ _ _ Hgen)
    as [n Htcc].
  assert (Hstate :
            TCC.systemState (TCC.context tcc)
            = {| TCC.loadLevel := TCC.MED;
                 TCC.dependencies := [];
                 TCC.resourceAvailability :=
                   {| TCC.cpu := 50; TCC.memory := 50; TCC.network := 50 |};
                 TCC.environment := TCC.DEVELOPMENT |}
            /\ TCC.creationTime (TCC.context tcc) = now).
  { rewrite Htcc. unfold TccGenerator.capsule_under_check.
    match goal with
    | |- context [TccGenerator.extractRelevantConstraints _ _ _ ?t] =>
        destruct (extractRelevantConstraints_frame up load entry t)
          as [ids ->]
    end.
    split; reflexivity. }
  destruct Hstate as [Hstate Htime].
  split; [|split; [|split]]; try reflexivity.
  rewrite (refresh_serialised_length later tcc Hstate), Htime. reflexivity.
Qed.

(** The capsule of 377 bytes is recorded with 402 bytes a day later. *)
Lemma refresh_after_generation_adds_the_dependency_names_witness :
  exists tcc,
    TccGenerator.generateTCC ascii_toUpperCase plain_specification no_entry
      sample_now "T001" "Transfer" "financial" None None
    = Fulfilled tcc
    /\ TCC.size tcc = 377
    /\ byte_size (stringify (TCC.to_value tcc)) = 377
    /\ TCC.size
         (SystemStateRefresh.updateTCCWithSystemState
            "2025-01-02T00:00:00.000Z" tcc)
       = 402.
Proof.
  destruct (TccGenerator.generateTCC ascii_toUpperCase plain_specification
              no_entry sample_now "T001" "Transfer" "financial" None None)
    as [tcc|e] eqn:Hgen; [|vm_compute in Hgen; discriminate Hgen].
  exists tcc. split; [reflexivity|].
  destruct (refresh_after_generation_adds_the_dependency_names
              ascii_toUpperCase plain_specification no_entry sample_now
              "2025-01-02T00:00:00.000Z" "T001" "Transfer" "financial"
              None None tcc Hgen) as (Hsize & _).
  rewrite Hsize.
  vm_compute in Hgen. injection Hgen as <-.
  vm_compute. repeat split.
Defined.

(* ===================================================================== *)
(** ** Properties of the check as the command line runs it *)
(* ===================================================================== *)

Section Untyped_facts.

Variable toUpperCase : string -> string.
Variable loadSpecification : JsValue -> Settled JsValue.
Variable taskConstraintsEntry : JsValue -> string -> SpecEntry.
Variable store : ConstraintGenerator.TemplateStore.





End Untyped_facts.



Section Untyped_agreement.

Variable toUpperCase : string -> string.
Variable loadSpecification : JsValue -> Settled JsValue.
Variable taskConstraintsEntry : JsValue -> string -> SpecEntry.
Variable store : ConstraintGenerator.TemplateStore.








End Untyped_agreement.

